(** * ethiostore: the product-intake conversation, the album buffer,
      the caption renderer, the like counter and the publish scheduler

    A shallow embedding of the parts of the bot that the specification
    makes promises about:

    - [utils/helpers.py]:     [calculate_next_post_time], [escape_markdown],
                              [format_price], [format_product_caption];
    - [database/db.py]:       [toggle_like], [update_product_engagement],
                              [update_schedule_post_time];
    - [features/scheduler.py]: [check_and_post_scheduled];
    - [features/products.py]: [product_photo_received],
                              [_process_album_later], [handle_photos_done],
                              [process_single_photo], [process_multiple_photos],
                              [handle_main_image_selection] and the
                              title / description / price steps.

    Python values are modelled as the interpreter has them: a [str] is a
    sequence of Unicode code points, a dict used as a store is a finite map,
    an exception is an explicit outcome. Datetimes are naive, as
    [datetime.now()] makes them. A handler runs from the point where its
    downloads are done to its end without another handler in between, which
    is how the event loop runs it with the in-memory FSM storage; what the
    network and the file system answer is an input of the model. *)

From Stdlib Require Import ZArith NArith QArith Bool List Lia.
From stdpp Require Import base option list gmap strings.

(* ===================================================================== *)
(** * Python strings, [int()] and [float()]                               *)
(* ===================================================================== *)

Module Py.

(** A Python [str] is a sequence of code points; [len] counts code
    points, not bytes. *)
Definition pychar := N.
Definition pystr := list pychar.

(** ASCII literals of the source. *)
Definition lit (s : string) : pystr :=
  map Ascii.N_of_ascii (String.list_ascii_of_string s).

(** The newline escape of a Python literal. *)
Definition nl : pystr := [10%N].

Definition len (s : pystr) : Z := Z.of_nat (length s).

Definition pystr_eqb (a b : pystr) : bool := bool_decide (a = b).

(** Exceptions that the modelled code can meet. *)
Inductive PyExc :=
| TypeError | IndexError | KeyError | ValueError | AttributeError
| OverflowError | DoesNotExist | TelegramAPIError.

Inductive Outcome (A : Type) :=
| Ok (a : A)
| Raise (e : PyExc).
Arguments Ok {A} a.
Arguments Raise {A} e.

(** [str.isspace] on one character: the code points CPython treats as
    whitespace. *)
Definition isspace (c : pychar) : bool :=
  ((9 <=? c) && (c <=? 13) || (28 <=? c) && (c <=? 32)
   || (c =? 133) || (c =? 160) || (c =? 5760)
   || (8192 <=? c) && (c <=? 8202)
   || (c =? 8232) || (c =? 8233) || (c =? 8239) || (c =? 8287)
   || (c =? 12288))%N.

Fixpoint lstrip (s : pystr) : pystr :=
  match s with
  | c :: s' => if isspace c then lstrip s' else s
  | [] => []
  end.

Definition rstrip (s : pystr) : pystr := rev (lstrip (rev s)).

(** [s.strip()] *)
Definition strip (s : pystr) : pystr := rstrip (lstrip s).

(** [s.replace(c, new)] for a one-character pattern [c]. *)
Definition replace (c : pychar) (new : pystr) (s : pystr) : pystr :=
  flat_map (fun x => if (x =? c)%N then new else [x]) s.

(** [s.split(sep)] for a one-character separator: never empty. *)
Fixpoint split (sep : pychar) (s : pystr) : list pystr :=
  match s with
  | [] => [[]]
  | c :: s' =>
      if (c =? sep)%N then [] :: split sep s'
      else match split sep s' with
           | w :: ws => (c :: w) :: ws
           | [] => [[c]]
           end
  end.

(** The zeros of the decimal digits (category Nd) of Unicode 14.0, the
    table of CPython 3.11: each is followed by the digits one to nine of
    its script. *)
Definition decimal_zeros : list pychar :=
  [48; 1632; 1776; 1984; 2406; 2534; 2662; 2790; 2918; 3046; 3174; 3302;
   3430; 3558; 3664; 3792; 3872; 4160; 4240; 6112; 6160; 6470; 6608; 6784;
   6800; 6992; 7088; 7232; 7248; 42528; 43216; 43264; 43472; 43504; 43600;
   44016; 65296; 66720; 68912; 69734; 69872; 69942; 70096; 70384; 70736;
   70864; 71248; 71360; 71472; 71904; 72016; 72784; 73040; 73120; 92768;
   92864; 93008; 120782; 120792; 120802; 120812; 120822; 123200; 123632;
   125264; 130032]%N.

(** The value of a decimal digit of any script ([unicodedata.decimal]);
    [\d] of a regular expression matches the same characters. *)
Definition decimal (c : pychar) : option N :=
  match List.find (fun z => (z <=? c) && (c <? z + 10))%N decimal_zeros with
  | Some z => Some (c - z)%N
  | None => None
  end.

Definition is_decimal (c : pychar) : bool :=
  match decimal c with Some _ => true | None => false end.

(** What [int()] and [float()] make of a character before they read the
    text: an ASCII character stays, a decimal digit of another script
    becomes the ASCII digit of its value, and any other character (the
    whitespace at the ends being gone) makes the text no number. *)
Definition to_ascii_char (c : pychar) : option pychar :=
  if (c <? 127)%N then Some c
  else match decimal c with
       | Some d => Some (48 + d)%N
       | None => None
       end.

Fixpoint to_ascii (s : pystr) : option pystr :=
  match s with
  | [] => Some []
  | c :: s' =>
      match to_ascii_char c, to_ascii s' with
      | Some a, Some r => Some (a :: r)
      | _, _ => None
      end
  end.

(** The whitespace that [int()] skips at the ends of the text: that of
    [str.isspace] without the four separators U+001C to U+001F. *)
Definition number_space (c : pychar) : bool :=
  isspace c && negb ((28 <=? c) && (c <=? 31))%N.

Fixpoint lstrip_by (space : pychar -> bool) (s : pystr) : pystr :=
  match s with
  | c :: s' => if space c then lstrip_by space s' else s
  | [] => []
  end.

Definition strip_by (space : pychar -> bool) (s : pystr) : pystr :=
  rev (lstrip_by space (rev (lstrip_by space s))).

Definition is_digit (c : pychar) : bool := ((48 <=? c) && (c <=? 57))%N.
Definition digit_val (c : pychar) : Z := Z.of_N c - 48.

(** The rest of a [digitpart ::= digit (["_"] digit)*] after its first
    digit: the value so far, the number of digits read, and what is
    left. An underscore is consumed only between two digits. *)
Fixpoint digits_tail (acc : Z) (n : nat) (s : pystr) : Z * nat * pystr :=
  match s with
  | c :: s' =>
      if is_digit c then digits_tail (10 * acc + digit_val c) (S n) s'
      else if (c =? 95)%N then
        match s' with
        | d :: s'' =>
            if is_digit d
            then digits_tail (10 * acc + digit_val d) (S n) s''
            else (acc, n, s)
        | [] => (acc, n, s)
        end
      else (acc, n, s)
  | [] => (acc, n, s)
  end.

Definition digitpart (s : pystr) : option (Z * nat * pystr) :=
  match s with
  | c :: s' => if is_digit c then Some (digits_tail (digit_val c) 1 s')
               else None
  | [] => None
  end.

(** An optional sign: [true] for a minus. *)
Definition sign (s : pystr) : bool * pystr :=
  match s with
  | c :: s' => if (c =? 45)%N then (true, s')
               else if (c =? 43)%N then (false, s') else (false, s)
  | [] => (false, s)
  end.

Definition apply_sign (neg : bool) (z : Z) : Z := if neg then - z else z.

(** [int(s)] in base 10: surrounding whitespace, an optional sign,
    decimal digits of any script with single underscores between them.
    [None] stands for [ValueError]. The limit that CPython 3.11 puts on
    the number of digits ([sys.int_max_str_digits], 4300 unless the
    interpreter is told otherwise) is a setting of the interpreter and is
    not modelled, neither here nor in [str(int)]. *)
Definition py_int (s : pystr) : option Z :=
  match to_ascii (strip_by number_space s) with
  | None => None
  | Some a =>
      let '(neg, s1) := sign a in
      match digitpart s1 with
      | Some (v, _, []) => Some (apply_sign neg v)
      | _ => None
      end
  end.

(** A Python [float]: a finite value, an infinity, or NaN. A finite
    value is the rational number that the binary64 stands for; the sign
    of a zero is not kept. *)
Inductive pyfloat :=
| PyFinite (q : Q)
| PyInf (neg : bool)
| PyNaN.

Definition lower (c : pychar) : pychar :=
  if ((65 <=? c) && (c <=? 90))%N then (c + 32)%N else c.

Definition ten_pow (e : Z) : Z := 10 ^ e.

(** mantissa * 10^scale as a reduced rational *)
Definition scale10 (m scale : Z) : Q :=
  if (0 <=? scale)%Z then inject_Z (m * ten_pow scale)
  else Qred (Qmake m (Z.to_pos (ten_pow (- scale)))).

(** Rounding of a rational to the nearest integer, ties to the even
    one. *)
Definition round_half_even (q : Q) : Z :=
  let n := Qnum q in
  let d := Zpos (Qden q) in
  let fl := (n / d)%Z in
  let r2 := (2 * (n mod d))%Z in
  if (r2 <? d)%Z then fl
  else if (d <? r2)%Z then (fl + 1)%Z
  else if Z.even fl then fl else (fl + 1)%Z.

(** 2^e as a rational *)
Definition pow2 (e : Z) : Q :=
  if (0 <=? e)%Z then inject_Z (2 ^ e) else Qmake 1 (Z.to_pos (2 ^ (- e))).

(** For a positive rational, the [e] with 2^e <= q < 2^(e+1). *)
Definition floor_log2 (q : Q) : Z :=
  let e := (Z.log2 (Qnum q) - Z.log2 (Zpos (Qden q)))%Z in
  if Qle_bool (pow2 e) q then e else (e - 1)%Z.

(** The binary64 nearest to a positive rational, ties to the even
    significand: 53 bits of significand, the smallest exponent that of the
    subnormal numbers; [None] when the result is out of range. *)
Definition nearest_binary64 (q : Q) : option Q :=
  let s := Z.max (floor_log2 q - 52) (-1074) in
  let v := Qred (inject_Z (round_half_even (q / pow2 s)) * pow2 s)%Q in
  if Qle_bool (pow2 1024) v then None else Some v.

(** The float that a decimal number is read as. *)
Definition binary64 (q : Q) : pyfloat :=
  match Qnum q with
  | Z0 => PyFinite 0%Q
  | Zpos _ =>
      match nearest_binary64 q with
      | Some v => PyFinite v
      | None => PyInf false
      end
  | Zneg _ =>
      match nearest_binary64 (Qopp q) with
      | Some v => PyFinite (Qopp v)
      | None => PyInf true
      end
  end.

(** [exponent ::= ("e" | "E") [sign] digitpart], to the end of the
    string; no exponent at all is the exponent 0. *)
Definition exponent (s : pystr) : option Z :=
  match s with
  | [] => Some 0%Z
  | c :: s' =>
      if (lower c =? 101)%N then
        let '(neg, s1) := sign s' in
        match digitpart s1 with
        | Some (v, _, []) => Some (apply_sign neg v)
        | _ => None
        end
      else None
  end.

(** [number ::= [digitpart] "." digitpart | digitpart ["."]] followed
    by the exponent. *)
Definition floatnumber (s : pystr) : option Q :=
  match digitpart s with
  | Some (ip, _, r) =>
      match r with
      | c :: r' =>
          if (c =? 46)%N then
            match digitpart r' with
            | Some (fp, k, r'') =>
                match exponent r'' with
                | Some e =>
                    Some (scale10 (ip * ten_pow (Z.of_nat k) + fp)
                                  (e - Z.of_nat k))
                | None => None
                end
            | None =>
                match exponent r' with
                | Some e => Some (scale10 ip e)
                | None => None
                end
            end
          else
            match exponent r with
            | Some e => Some (scale10 ip e)
            | None => None
            end
      | [] => Some (scale10 ip 0)
      end
  | None =>
      match s with
      | c :: r' =>
          if (c =? 46)%N then
            match digitpart r' with
            | Some (fp, k, r'') =>
                match exponent r'' with
                | Some e => Some (scale10 fp (e - Z.of_nat k))
                | None => None
                end
            | None => None
            end
          else None
      | [] => None
      end
  end.

(** [float(s)]: surrounding whitespace, an optional sign, then a
    decimal number in the digits of any script, [inf], [infinity] or [nan]
    in any case; the number is rounded to the nearest binary64. [None]
    stands for [ValueError]. The whitespace skipped at the ends is that of
    [str.strip], which is what the one caller, the price step, has
    stripped already; [float()] itself does not skip the four separators
    U+001C to U+001F, which this model does not tell from the rest. *)
Definition py_float (s : pystr) : option pyfloat :=
  match to_ascii (strip s) with
  | None => None
  | Some a =>
      let '(neg, s1) := sign a in
      let w := map lower s1 in
      if pystr_eqb w (lit "nan") then Some PyNaN
      else if pystr_eqb w (lit "inf") || pystr_eqb w (lit "infinity")
      then Some (PyInf neg)
      else match floatnumber s1 with
           | Some q => Some (binary64 (if neg then Qopp q else q))
           | None => None
           end
  end.

(** [x <= n] and [x > n] for a float [x] and an int [n]: every
    comparison with NaN is false. *)
Definition float_le_int (x : pyfloat) (n : Z) : bool :=
  match x with
  | PyFinite q => Qle_bool q (inject_Z n)
  | PyInf neg => neg
  | PyNaN => false
  end.

Definition float_gt_int (x : pyfloat) (n : Z) : bool :=
  match x with
  | PyFinite q => negb (Qle_bool q (inject_Z n))
  | PyInf neg => negb neg
  | PyNaN => false
  end.

(** Truth value of a float: zero is false, NaN and the infinities are
    true. *)
Definition float_truthy (x : pyfloat) : bool :=
  match x with
  | PyFinite q => negb (Qeq_bool q 0)
  | _ => true
  end.

(** Truth value of an optional string: [None] and [""] are false. *)
Definition str_truthy (o : option pystr) : bool :=
  match o with
  | Some (_ :: _) => true
  | _ => false
  end.

End Py.

(* ===================================================================== *)
(** * utils/helpers.py                                                    *)
(* ===================================================================== *)

Module Helpers.
Import Py.

(** ** Naive datetimes

    A [datetime] without time zone: the date as its proleptic Gregorian
    ordinal ([date.toordinal()], 1 for 0001-01-01), and the time of day. *)
Record datetime := mk_datetime {
  ordinal : Z;
  hour : Z;
  minute : Z;
  second : Z;
  microsecond : Z
}.

(** [date.max.toordinal()], the ordinal of 9999-12-31. *)
Definition MAXORDINAL : Z := 3652059.

Definition valid_datetime (d : datetime) : Prop :=
  (1 <= ordinal d <= MAXORDINAL /\ 0 <= hour d < 24 /\ 0 <= minute d < 60
   /\ 0 <= second d < 60 /\ 0 <= microsecond d < 1000000)%Z.

(** Microseconds since the start of day 0: datetimes compare as these
    numbers do. *)
Definition timestamp_us (d : datetime) : Z :=
  ((((ordinal d * 24 + hour d) * 60 + minute d) * 60 + second d) * 1000000
   + microsecond d)%Z.

Definition datetime_le (a b : datetime) : bool :=
  (timestamp_us a <=? timestamp_us b)%Z.

(** Whether an int fits the C [int] that [datetime.replace] takes its
    arguments as. *)
Definition fits_c_int (z : Z) : bool :=
  ((-2147483648 <=? z) && (z <=? 2147483647))%Z.

(** [dt.replace(hour=h, minute=m, second=0, microsecond=0)]: an
    [OverflowError] when the hour or the minute does not fit a C [int],
    and otherwise a [ValueError] when one of them is out of range. *)
Definition replace_time (d : datetime) (h m : Z) : Outcome datetime :=
  if negb (fits_c_int h && fits_c_int m) then Raise OverflowError
  else if ((0 <=? h) && (h <? 24) && (0 <=? m) && (m <? 60))%Z
  then Ok (mk_datetime (ordinal d) h m 0 0)
  else Raise ValueError.

(** [dt + timedelta(days=n)]: an [OverflowError] when the date leaves
    the years 1..9999. *)
Definition add_days (d : datetime) (n : Z) : Outcome datetime :=
  let o := (ordinal d + n)%Z in
  if ((1 <=? o) && (o <=? MAXORDINAL))%Z
  then Ok (mk_datetime o (hour d) (minute d) (second d) (microsecond d))
  else Raise OverflowError.

(** The [try] block of [calculate_next_post_time]:
    [hour, minute = map(int, post_time_str.split(':'))], and 9:00 on any
    exception (a part that is no integer, or not exactly two parts). *)
Definition parse_post_time (post_time_str : pystr) : Z * Z :=
  match split 58%N post_time_str with
  | [a; b] =>
      match py_int a, py_int b with
      | Some h, Some m => (h, m)
      | _, _ => (9, 0)%Z
      end
  | _ => (9, 0)%Z
  end.

(** [calculate_next_post_time(interval_days, post_time_str)], with the
    value of [datetime.now()] as [now]. *)
Definition calculate_next_post_time
    (now : datetime) (interval_days : Z) (post_time_str : pystr)
  : Outcome datetime :=
  let '(hour, minute) := parse_post_time post_time_str in
  match replace_time now hour minute with
  | Raise e => Raise e
  | Ok next_post =>
      (* If time has passed today, start from tomorrow *)
      let rolled :=
        if datetime_le next_post now then add_days next_post 1
        else Ok next_post in
      match rolled with
      | Raise e => Raise e
      | Ok next_post => add_days next_post interval_days
      end
  end.

(** ** Captions *)

(** The characters [escape_markdown] escapes, in the order of the
    source: _ * [ ] ~ ` > # + = | { } ! *)
Definition special_chars : list pychar :=
  [95; 42; 91; 93; 126; 96; 62; 35; 43; 61; 124; 123; 125; 33]%N.

(** [escape_markdown(text)]: [None] becomes the empty string, and each
    special character is replaced, one character after the other, by a
    backslash and itself. *)
Definition escape_markdown (text : option pystr) : pystr :=
  match text with
  | None => []
  | Some t =>
      fold_left (fun acc char => replace char [92%N; char] acc)
                special_chars t
  end.

(** Decimal digits of a non-negative integer, most significant first,
    with fuel enough for every [Z]. *)
Fixpoint digits_fuel (fuel : nat) (n : Z) (acc : pystr) : pystr :=
  match fuel with
  | O => acc
  | S f =>
      let acc' := (Z.to_N (n mod 10) + 48)%N :: acc in
      if (n <? 10)%Z then acc' else digits_fuel f (n / 10) acc'
  end.

(** [str(n)] for [0 <= n] *)
Definition digits (n : Z) : pystr :=
  digits_fuel (S (Z.to_nat (Z.log2 n))) n [].

(** Commas between groups of three digits, counted from the right. *)
Fixpoint group3_rev (r : pystr) : pystr :=
  match r with
  | a :: b :: c :: ((_ :: _) as rest) => a :: b :: c :: 44%N :: group3_rev rest
  | _ => r
  end.

Definition group3 (ds : pystr) : pystr := rev (group3_rev (rev ds)).

Definition two_digits (n : Z) : pystr :=
  [(Z.to_N (n / 10) + 48)%N; (Z.to_N (n mod 10) + 48)%N].

(** [f"{price:,.2f}"]: the exact value rounded to two decimals, ties to
    the even one, with commas between the thousands. *)
Definition format_2f (price : pyfloat) : pystr :=
  match price with
  | PyNaN => lit "nan"
  | PyInf neg => (if neg then lit "-" else []) ++ lit "inf"
  | PyFinite q =>
      let neg := negb (Qle_bool 0 q) in
      let cents := round_half_even ((if neg then Qopp q else q) * 100) in
      (if neg then lit "-" else [])
        ++ group3 (digits (cents / 100)) ++ lit "." ++ two_digits (cents mod 100)
  end.

(** [format_price(price)] *)
Definition format_price (price : pyfloat) : pystr :=
  format_2f price ++ lit " Birr".

(** The emoji and rules of the caption, as code points. *)
Definition shopping_bags : pystr := [128717; 65039]%N.
Definition money_bag : pystr := [128176%N].
Definition bust : pystr := [128100%N].
Definition telephone : pystr := [128222%N].
Definition folder : pystr := [128194%N].
Definition bullet : pystr := [8226%N].
Definition rule20 : pystr := repeat 9473%N 20.

(** [str.title()] on ASCII letters: a letter is upper-cased after a
    character that is no letter and lower-cased after a letter. *)
Definition is_alpha (c : pychar) : bool :=
  ((65 <=? c) && (c <=? 90) || (97 <=? c) && (c <=? 122))%N.

Definition upper (c : pychar) : pychar :=
  if ((97 <=? c) && (c <=? 122))%N then (c - 32)%N else c.

Fixpoint title_from (after_letter : bool) (s : pystr) : pystr :=
  match s with
  | [] => []
  | c :: s' =>
      (if is_alpha c then (if after_letter then lower c else upper c) else c)
        :: title_from (is_alpha c) s'
  end.

Definition py_title (s : pystr) : pystr := title_from false s.

(** The seller lines shared by both layouts. *)
Definition seller_lines (seller_name seller_phone : option pystr) : pystr :=
  (if str_truthy seller_name
   then bust ++ lit " **" ++ escape_markdown seller_name ++ lit "**" ++ nl
   else [])
  ++ (if str_truthy seller_phone
      then telephone ++ lit " " ++ escape_markdown seller_phone ++ nl
      else []).

Definition price_truthy (price : option pyfloat) : bool :=
  match price with
  | Some p => float_truthy p
  | None => false
  end.

Definition price_text (price : option pyfloat) : pystr :=
  match price with
  | Some p => escape_markdown (Some (format_price p))
  | None => []
  end.

(** [format_product_caption(...)]. [engagement_stats] is accepted and
    never read by the source, so it is left out; [category_fields] is the
    dict in insertion order. *)
Definition format_product_caption
    (title description : option pystr) (price : option pyfloat)
    (category seller_name seller_phone : option pystr)
    (product_type : pystr)
    (category_fields : option (list (pystr * pystr)))
    (for_channel : bool) : pystr :=
  if pystr_eqb product_type (lit "custom_description") then
    if for_channel then
      (* For channel posts, custom descriptions show ONLY the description text *)
      escape_markdown description
    else
      let caption :=
        if str_truthy title
        then shopping_bags ++ lit " **" ++ escape_markdown title ++ lit "**" ++ nl
             ++ rule20 ++ nl ++ nl
        else [] in
      let caption :=
        if price_truthy price
        then caption ++ money_bag ++ lit " **" ++ price_text price ++ lit "**"
             ++ nl ++ nl
        else caption in
      let caption := caption ++ escape_markdown description in
      if str_truthy seller_name || str_truthy seller_phone
      then caption ++ nl ++ nl ++ seller_lines seller_name seller_phone
      else caption
  else
    let caption :=
      shopping_bags ++ lit " **" ++ escape_markdown title ++ lit "**" ++ nl
      ++ rule20 ++ nl ++ nl in
    let caption :=
      if str_truthy description
      then caption ++ escape_markdown description ++ nl ++ nl
      else caption in
    let caption :=
      match category_fields with
      | Some ((_ :: _) as fields) =>
          fold_left
            (fun acc fv =>
               acc ++ bullet ++ lit " **"
                   ++ py_title (replace 95%N (lit " ") (fst fv))
                   ++ lit "**: " ++ escape_markdown (Some (snd fv)) ++ nl)
            fields caption ++ nl
      | _ => caption
      end in
    let caption :=
      if price_truthy price
      then caption ++ money_bag ++ lit " **" ++ price_text price ++ lit "**" ++ nl
      else caption in
    let caption :=
      if str_truthy category
      then caption ++ folder ++ lit " " ++ escape_markdown category ++ nl
      else caption in
    if str_truthy seller_name || str_truthy seller_phone
    then caption ++ nl ++ seller_lines seller_name seller_phone
    else caption.

End Helpers.

(* ===================================================================== *)
(** * telegram_bot/models.py and database/db.py                           *)
(* ===================================================================== *)

(** The rows of the Django models, with the columns the modelled code
    reads or writes. *)
Module User.
Import Py.
Record t := mk {
  username : option pystr;
  store_name : option pystr;
  phone : option pystr;
  channel_username : option pystr
}.
End User.

Module Product.
Import Py.
Record t := mk {
  seller_id : Z;
  title : option pystr;
  description : option pystr;
  price : option pyfloat;
  category : option pystr;
  image_path : pystr;
  is_active : bool;
  likes_count : Z;
  saves_count : Z;
  orders_count : Z;
  views_count : Z;
  custom_button_text : option pystr;
  custom_button_url : option pystr
}.

Definition set_likes_count (v : Z) (p : t) : t :=
  mk (seller_id p) (title p) (description p) (price p) (category p)
     (image_path p) (is_active p) v (saves_count p) (orders_count p)
     (views_count p) (custom_button_text p) (custom_button_url p).

Definition set_saves_count (v : Z) (p : t) : t :=
  mk (seller_id p) (title p) (description p) (price p) (category p)
     (image_path p) (is_active p) (likes_count p) v (orders_count p)
     (views_count p) (custom_button_text p) (custom_button_url p).

Definition set_orders_count (v : Z) (p : t) : t :=
  mk (seller_id p) (title p) (description p) (price p) (category p)
     (image_path p) (is_active p) (likes_count p) (saves_count p) v
     (views_count p) (custom_button_text p) (custom_button_url p).

Definition set_views_count (v : Z) (p : t) : t :=
  mk (seller_id p) (title p) (description p) (price p) (category p)
     (image_path p) (is_active p) (likes_count p) (saves_count p)
     (orders_count p) v (custom_button_text p) (custom_button_url p).
End Product.

Module Engagement.
(** One row per (user_id, product): [unique_together]. *)
Record t := mk {
  liked : bool;
  saved : bool
}.
End Engagement.

Module PostSchedule.
Import Py Helpers.
Record t := mk {
  id : Z;
  seller_id : Z;
  product_id : Z;
  channel_username : pystr;
  interval_days : Z;
  post_time : pystr;
  is_active : bool;
  last_posted_at : option datetime;
  next_post_at : option datetime
}.

Definition set_post_times (last next : option datetime) (s : t) : t :=
  mk (id s) (seller_id s) (product_id s) (channel_username s)
     (interval_days s) (post_time s) (is_active s) last next.
End PostSchedule.

Module Database.
Import Py Helpers.

(** The tables, each keyed by its primary key; engagements by their
    unique pair (user_id, product_id). *)
Record Db := mk_db {
  users : gmap Z User.t;
  products : gmap Z Product.t;
  engagements : gmap (Z * Z) Engagement.t;
  schedules : gmap Z PostSchedule.t
}.

Definition set_products (f : gmap Z Product.t -> gmap Z Product.t) (db : Db) : Db :=
  mk_db (users db) (f (products db)) (engagements db) (schedules db).

Definition set_engagements
    (f : gmap (Z * Z) Engagement.t -> gmap (Z * Z) Engagement.t) (db : Db) : Db :=
  mk_db (users db) (products db) (f (engagements db)) (schedules db).

Definition set_schedules
    (f : gmap Z PostSchedule.t -> gmap Z PostSchedule.t) (db : Db) : Db :=
  mk_db (users db) (products db) (engagements db) (f (schedules db)).

(** [get_user], [get_product]: [None] when the row does not exist. *)
Definition get_user (user_id : Z) (db : Db) : option User.t :=
  users db !! user_id.

Definition get_product (product_id : Z) (db : Db) : option Product.t :=
  products db !! product_id.

(** [Engagement.objects.get_or_create(user_id=..., product_id=...)]: a
    fresh row has [liked] and [saved] false. *)
Definition get_or_create_engagement (user_id product_id : Z) (db : Db)
  : Engagement.t * Db :=
  match engagements db !! (user_id, product_id) with
  | Some e => (e, db)
  | None =>
      let e := Engagement.mk false false in
      (e, set_engagements (insert (user_id, product_id) e) db)
  end.

(** [toggle_like(user_id, product_id)]. The body runs in
    [transaction.atomic()]: when the product does not exist the
    exception leaves the database as it was. *)
Definition toggle_like (user_id product_id : Z) (db : Db)
  : Outcome (bool * Product.t) * Db :=
  let '(engagement, db1) := get_or_create_engagement user_id product_id db in
  (* Toggle like *)
  let engagement :=
    Engagement.mk (negb (Engagement.liked engagement))
                  (Engagement.saved engagement) in
  let db2 := set_engagements (insert (user_id, product_id) engagement) db1 in
  (* Update counter *)
  match products db2 !! product_id with
  | None => (Raise DoesNotExist, db)
  | Some product =>
      let product :=
        if Engagement.liked engagement
        then Product.set_likes_count (Product.likes_count product + 1) product
        else Product.set_likes_count
               (Z.max 0 (Product.likes_count product - 1)) product in
      (Ok (Engagement.liked engagement, product),
       set_products (insert product_id product) db2)
  end.

(** The integer counters that [update_product_engagement] is called
    with. *)
Inductive Counter := likes_count | saves_count | orders_count | views_count.

Definition add_to_counter (c : Counter) (value : Z) (p : Product.t) : Product.t :=
  match c with
  | likes_count => Product.set_likes_count (Product.likes_count p + value) p
  | saves_count => Product.set_saves_count (Product.saves_count p + value) p
  | orders_count => Product.set_orders_count (Product.orders_count p + value) p
  | views_count => Product.set_views_count (Product.views_count p + value) p
  end.

(** [update_product_engagement(product_id, **kwargs)]: each named
    counter is increased by its value; nothing happens when the product
    does not exist. *)
Definition update_product_engagement
    (product_id : Z) (kwargs : list (Counter * Z)) (db : Db) : Db :=
  match products db !! product_id with
  | None => db
  | Some product =>
      let product :=
        fold_left (fun p kv => add_to_counter (fst kv) (snd kv) p) kwargs product in
      set_products (insert product_id product) db
  end.

(** [update_schedule_post_time(schedule_id, last_posted, next_post)] *)
Definition update_schedule_post_time
    (schedule_id : Z) (last_posted next_post : option datetime) (db : Db)
  : option PostSchedule.t * Db :=
  match schedules db !! schedule_id with
  | None => (None, db)
  | Some schedule =>
      let schedule := PostSchedule.set_post_times last_posted next_post schedule in
      (Some schedule, set_schedules (insert schedule_id schedule) db)
  end.

End Database.

(* ===================================================================== *)
(** * features/scheduler.py                                               *)
(* ===================================================================== *)

Module Scheduler.
Import Py Helpers Database.

Section Sweep.

(** The transport and the clock are outside the program. [send_photo]
    tells, for the schedule with the given id, whether
    [bot.send_photo] returns ([true]) or raises; [clock] is what
    [datetime.now()] returns inside [calculate_next_post_time] for that
    schedule. A sweep dispatches a schedule at most once, so keying
    both by the schedule id loses nothing. *)
Variable send_photo : Z -> bool.
Variable clock : Z -> datetime.

(** A channel post: chat id, photo path, caption. *)
Definition Post : Type := pystr * pystr * pystr.

(** [schedule.next_post_at and schedule.next_post_at <= now] *)
Definition is_due (now : datetime) (schedule : PostSchedule.t) : bool :=
  match PostSchedule.next_post_at schedule with
  | Some t => datetime_le t now
  | None => false
  end.

(** The body of the loop for one schedule that is due: the [try]
    block. The result is the database, the posts that went out, and the
    exception, if any, that the [except Exception] clause caught and
    logged. *)
Definition post_one (now : datetime) (schedule : PostSchedule.t) (db : Db)
  : Db * list Post * option PyExc :=
  let product := get_product (PostSchedule.product_id schedule) db in
  let seller := get_user (PostSchedule.seller_id schedule) db in
  match product with
  | None => (db, [], None)                                   (* continue *)
  | Some product =>
      if negb (Product.is_active product) then (db, [], None)  (* continue *)
      else
        let caption :=
          format_product_caption
            (Product.title product) (Product.description product)
            (Product.price product) (Product.category product)
            None None (lit "standard") None false in
        match seller with
        | None => (db, [], Some AttributeError)          (* seller.phone *)
        | Some _ =>
            if negb (send_photo (PostSchedule.id schedule))
            then (db, [], Some TelegramAPIError)
            else
              let post := (PostSchedule.channel_username schedule,
                           Product.image_path product, caption) in
              (* Calculate next post time *)
              match calculate_next_post_time
                      (clock (PostSchedule.id schedule))
                      (PostSchedule.interval_days schedule)
                      (PostSchedule.post_time schedule) with
              | Raise e => (db, [post], Some e)
              | Ok next_post =>
                  (* Update schedule *)
                  let '(_, db') :=
                    update_schedule_post_time
                      (PostSchedule.id schedule) (Some now) (Some next_post) db in
                  (db', [post], None)
              end
        end
  end.

(** One turn of the loop: a schedule that is not due is passed over,
    and an exception in the body moves on to the next schedule. *)
Definition step (now : datetime) (acc : Db * list Post)
    (schedule : PostSchedule.t) : Db * list Post :=
  let '(db, sent) := acc in
  if is_due now schedule then
    let '(db', posts, _) := post_one now schedule db in
    (db', sent ++ posts)
  else (db, sent).

(** [check_and_post_scheduled(bot)] over the list that
    [get_active_schedules()] returned. *)
Definition check_and_post_scheduled
    (now : datetime) (active_schedules : list PostSchedule.t) (db : Db)
  : Db * list Post :=
  fold_left (step now) active_schedules (db, []).

End Sweep.

(** What [get_active_schedules()] can return for a database: its active
    rows, each once, in whatever order the query yields them. *)
Definition is_snapshot (db : Db) (l : list PostSchedule.t) : Prop :=
  NoDup (map PostSchedule.id l)
  /\ Forall (fun s => schedules db !! PostSchedule.id s = Some s
                      /\ PostSchedule.is_active s = true) l.

End Scheduler.

(* ===================================================================== *)
(** * features/products.py                                                *)
(* ===================================================================== *)

(** A Telegram message as the handlers read it. A text message has no
    [photo]; a photo message has its sizes, smallest first, each named by
    its file id. *)
Module Message.
Import Py.
Record t := mk {
  from_user_id : Z;
  photo : option (list pystr);
  text : option pystr;
  media_group_id : option pystr
}.
End Message.

Module CallbackQuery.
Import Py.
Record t := mk {
  data : pystr;
  message : Message.t
}.
End CallbackQuery.

(** One entry of the draft's [collected_photos]. *)
Module CollectedPhoto.
Import Py.
Record t := mk {
  original_path : pystr;
  file_id : pystr;
  media_group_id : option pystr
}.
End CollectedPhoto.

(** One entry of an album in [album_buffer]. *)
Module AlbumItem.
Import Py.
Record t := mk {
  message : Message.t;
  original_path : pystr;
  file_id : pystr
}.
End AlbumItem.

Module Products.
Import Py.

Inductive ProductStates :=
| waiting_product_type
| waiting_category
| waiting_photo
| waiting_main_image
| waiting_title
| waiting_description
| waiting_price
| waiting_category_fields
| confirming
| post_action.

(** The draft: the FSM data dict, a key that is absent being [None]. *)
Record Data := mk_data {
  product_type : option pystr;
  category : option pystr;
  collected_photos : option (list CollectedPhoto.t);
  photo_path : option pystr;
  original_photo_path : option pystr;
  photo_file_id : option pystr;
  main_image_index : option Z;
  all_images : option (list pystr);
  all_original_images : option (list pystr);
  title : option pystr;
  description : option pystr;
  price : option pyfloat
}.

Definition empty_data : Data :=
  mk_data None None None None None None None None None None None None.

(** The [FSMContext] of one user: the state tag and the data. *)
Record FSMContext := mk_ctx {
  state : option ProductStates;
  data : Data
}.

Definition set_state (s : ProductStates) (ctx : FSMContext) : FSMContext :=
  mk_ctx (Some s) (data ctx).

Definition update_data (f : Data -> Data) (ctx : FSMContext) : FSMContext :=
  mk_ctx (state ctx) (f (data ctx)).

(** The keyword arguments of the [state.update_data] calls. *)
Definition with_collected_photos (v : list CollectedPhoto.t) (d : Data) : Data :=
  mk_data (product_type d) (category d) (Some v) (photo_path d)
          (original_photo_path d) (photo_file_id d) (main_image_index d)
          (all_images d) (all_original_images d) (title d) (description d)
          (price d).

Definition with_single_photo (wm fid orig : pystr) (d : Data) : Data :=
  mk_data (product_type d) (category d) (collected_photos d) (Some wm)
          (original_photo_path d) (Some fid) (Some 0%Z)
          (Some [wm]) (Some [orig]) (title d) (description d) (price d).

Definition with_all_images (wms origs : list pystr) (d : Data) : Data :=
  mk_data (product_type d) (category d) (collected_photos d) (photo_path d)
          (original_photo_path d) (photo_file_id d) (main_image_index d)
          (Some wms) (Some origs) (title d) (description d) (price d).

Definition with_main_image (main orig : pystr) (i : Z)
    (wms origs : list pystr) (d : Data) : Data :=
  mk_data (product_type d) (category d) (collected_photos d) (Some main)
          (Some orig) (photo_file_id d) (Some i)
          (Some wms) (Some origs) (title d) (description d) (price d).

Definition with_title (v : pystr) (d : Data) : Data :=
  mk_data (product_type d) (category d) (collected_photos d) (photo_path d)
          (original_photo_path d) (photo_file_id d) (main_image_index d)
          (all_images d) (all_original_images d) (Some v) (description d)
          (price d).

Definition with_description (v : pystr) (d : Data) : Data :=
  mk_data (product_type d) (category d) (collected_photos d) (photo_path d)
          (original_photo_path d) (photo_file_id d) (main_image_index d)
          (all_images d) (all_original_images d) (title d) (Some v)
          (price d).

Definition with_price (v : pyfloat) (d : Data) : Data :=
  mk_data (product_type d) (category d) (collected_photos d) (photo_path d)
          (original_photo_path d) (photo_file_id d) (main_image_index d)
          (all_images d) (all_original_images d) (title d) (description d)
          (Some v).

(** [data.get("collected_photos", [])] and its like *)
Definition get_collected_photos (d : Data) : list CollectedPhoto.t :=
  default [] (collected_photos d).

Definition get_all_images (d : Data) : list pystr := default [] (all_images d).

Definition get_all_original_images (d : Data) : list pystr :=
  default [] (all_original_images d).

(** [data.get("product_type", "standard") == "custom_description"] *)
Definition is_custom_description (d : Data) : bool :=
  pystr_eqb (default (lit "standard") (product_type d)) (lit "custom_description").

(** ** What the bot sends

    The wording of a reply is named, not spelled out; the numbers that
    the source formats into it are kept. *)
Inductive Notice :=
| photo_received (remaining : Z)
| additional_photo_received
| error_processing_photo
| photo_received_ask_description
| photo_received_ask_title
| failed_to_process_photos
| select_main_image (count : nat)
| error_processing_photos
| no_photos_yet
| invalid_selection
| image_selected (number : Z)
| error_selecting_main_image
| main_image_selected_ask_description
| main_image_selected_ask_title
| title_too_short
| title_too_long
| title_saved_ask_price
| title_saved_ask_description
| description_too_long
| description_saved_ask_name
| description_saved_ask_price
| price_not_positive
| price_too_high
| invalid_price
| price_saved_ask_category.

Inductive Keyboard :=
| no_keyboard
| cancel_keyboard
| done_keyboard                      (* "Done adding photos" and "Cancel" *)
| select_main_keyboard (count : nat). (* one button per image, and "Cancel" *)

Inductive Reply :=
| message_answer (n : Notice) (k : Keyboard)
| message_answer_media_group (media : list pystr)
| callback_answer (n : option Notice) (show_alert : bool).

(** [message.answer(text, ...)] sends a text message of the bot, and
    that message is what Telegram hands back as [callback.message] when a
    button under it is pressed: it has a text and no photo. *)
Definition answered (bot_id : Z) (text : pystr) : Message.t :=
  Message.mk bot_id None (Some text) None.

(** The tail call of the price step, which renders a preview or starts
    the category fields. *)
Inductive Continuation :=
| show_custom_description_preview
| show_category_fields (category : pystr).

(** The longest prefix of characters to keep, and the rest. *)
Fixpoint span (keep : pychar -> bool) (s : pystr) : pystr * pystr :=
  match s with
  | c :: s' =>
      if keep c then let '(a, b) := span keep s' in (c :: a, b)
      else ([], s)
  | [] => ([], [])
  end.

(** [os.path.splitext] of [posixpath]: the extension starts at the last
    dot of the last path component, unless only dots precede it there. *)
Definition splitext (p : pystr) : pystr * pystr :=
  let '(ext_rev, rest) :=
    span (fun c => negb ((c =? 46) || (c =? 47))%N) (rev p) in
  match rest with
  | c :: base_rev =>
      if (c =? 46)%N then
        let '(name_rev, _) := span (fun c => negb (c =? 47)%N) base_rev in
        if existsb (fun c => negb (c =? 46)%N) name_rev
        then (rev base_rev, 46%N :: rev ext_rev)
        else (p, [])
      else (p, [])
  | [] => (p, [])
  end.

(** [seq[-1]] *)
Definition last_item {A} (l : option (list A)) : Outcome A :=
  match l with
  | None => Raise TypeError
  | Some l => match last l with
              | Some x => Ok x
              | None => Raise IndexError
              end
  end.

(** [max(0, 8 - len(collected_photos))] *)
Definition remaining_capacity (collected_photos : list CollectedPhoto.t) : Z :=
  Z.max 0 (8 - Z.of_nat (length collected_photos)).

Section Handlers.

(** What lies outside the program. [download m] is the path under
    [MEDIA_DIR] to which the handler saved the largest photo of [m], or
    the exception of [get_file] / [download_file]. [add_watermark
    image_path output_path] is the path the watermarking returns (the
    store name does not matter here), [path_exists] is
    [os.path.exists], and [media_group_ok] tells whether Telegram
    accepts the media group. Plain [answer] calls are taken to be
    delivered. *)
Variable download : Message.t -> Outcome pystr.
Variable add_watermark : pystr -> pystr -> pystr.
Variable path_exists : pystr -> bool.
Variable media_group_ok : list pystr -> bool.

(** *** The album buffer *)

(** The module-level [album_buffer] and [album_tasks_scheduled], the
    [_process_album_later] tasks that were created and have not run
    yet, the user's FSM context, and the replies sent so far. *)
Record World := mk_world {
  album_buffer : gmap pystr (list AlbumItem.t);
  album_tasks_scheduled : gset pystr;
  tasks : list pystr;
  fsm : FSMContext;
  outbox : list Reply
}.

Definition reply (r : Reply) (w : World) : World :=
  mk_world (album_buffer w) (album_tasks_scheduled w) (tasks w) (fsm w)
           (outbox w ++ [r]).

Definition set_fsm (ctx : FSMContext) (w : World) : World :=
  mk_world (album_buffer w) (album_tasks_scheduled w) (tasks w) ctx
           (outbox w).

(** [product_photo_received(message, state)] *)
Definition product_photo_received (message : Message.t) (w : World) : World :=
  let collected_photos := get_collected_photos (data (fsm w)) in
  let media_group_id := Message.media_group_id message in
  match last_item (Message.photo message) with
  | Raise _ => reply (message_answer error_processing_photo cancel_keyboard) w
  | Ok photo =>
      match download message with
      | Raise _ =>
          reply (message_answer error_processing_photo cancel_keyboard) w
      | Ok file_path =>
          match media_group_id with
          | Some ((_ :: _) as group_id) =>
              let item := AlbumItem.mk message file_path photo in
              let buffer :=
                <[group_id := default [] (album_buffer w !! group_id) ++ [item]]>
                  (album_buffer w) in
              (* Schedule album processing only once per group id. *)
              if bool_decide (group_id ∈ album_tasks_scheduled w)
              then mk_world buffer (album_tasks_scheduled w) (tasks w)
                            (fsm w) (outbox w)
              else mk_world buffer ({[group_id]} ∪ album_tasks_scheduled w)
                            (tasks w ++ [group_id]) (fsm w) (outbox w)
          | _ =>
              (* For non-album photos, record directly into collected_photos *)
              let collected_photos :=
                collected_photos ++ [CollectedPhoto.mk file_path photo None] in
              let w := set_fsm (update_data (with_collected_photos collected_photos)
                                            (fsm w)) w in
              let remaining := remaining_capacity collected_photos in
              if (length collected_photos =? 1)%nat
              then reply (message_answer (photo_received remaining) done_keyboard) w
              else reply (message_answer additional_photo_received cancel_keyboard) w
          end
      end
  end.

(** [_process_album_later(group_id, state)] once its sleep is over.
    The second component is the batch merged into the draft, if any.
    With the in-memory FSM storage that the dispatcher uses, nothing
    suspends between reading the buffer and deleting it. *)
Definition _process_album_later (group_id : pystr) (w : World)
  : World * option (list CollectedPhoto.t) :=
  match album_buffer w !! group_id with
  | None | Some [] =>
      (* Nothing buffered; also clear any scheduled flag *)
      (mk_world (album_buffer w) (album_tasks_scheduled w ∖ {[group_id]})
                (tasks w) (fsm w) (outbox w), None)
  | Some photos =>
      (* Merge album photos into FSM collected_photos *)
      let merged :=
        map (fun item => CollectedPhoto.mk (AlbumItem.original_path item)
                                           (AlbumItem.file_id item)
                                           (Some group_id)) photos in
      let collected_photos := get_collected_photos (data (fsm w)) ++ merged in
      let ctx := update_data (with_collected_photos collected_photos) (fsm w) in
      (* Clear buffer and scheduled flag for this album id *)
      let remaining := remaining_capacity collected_photos in
      (mk_world (delete group_id (album_buffer w))
                (album_tasks_scheduled w ∖ {[group_id]})
                (tasks w) ctx
                (outbox w ++ [message_answer (photo_received remaining)
                                             done_keyboard]),
       Some merged)
  end.

(** *** Events

    A photo message reaches [product_photo_received] when the user is
    in [waiting_photo] and the message has a photo (the filters of the
    router); the timer of a created task fires and the task body runs. *)
Inductive Event :=
| photo_arrives (m : Message.t)
| timer_fires (group_id : pystr).

Fixpoint remove_first (g : pystr) (l : list pystr) : list pystr :=
  match l with
  | [] => []
  | x :: l' => if bool_decide (x = g) then l' else x :: remove_first g l'
  end.

Definition has_photo (m : Message.t) : bool :=
  match Message.photo m with
  | Some (_ :: _) => true
  | _ => false
  end.

(** One event, and the batch it merged, if any. A timer can fire only
    for a task that was created and has not run. *)
Definition handle (e : Event) (w : World)
  : World * option (list CollectedPhoto.t) :=
  match e with
  | photo_arrives m =>
      match state (fsm w) with
      | Some waiting_photo =>
          if has_photo m then (product_photo_received m w, None)
          else (w, None)
      | _ => (w, None)
      end
  | timer_fires g =>
      if bool_decide (g ∈ tasks w) then
        _process_album_later g
          (mk_world (album_buffer w) (album_tasks_scheduled w)
                    (remove_first g (tasks w)) (fsm w) (outbox w))
      else (w, None)
  end.

(** A sequence of events: the final world and the merges, in order. *)
Fixpoint run (events : list Event) (w : World)
  : World * list (list CollectedPhoto.t) :=
  match events with
  | [] => (w, [])
  | e :: events' =>
      let '(w1, m) := handle e w in
      let '(w2, ms) := run events' w1 in
      (w2, match m with Some b => b :: ms | None => ms end)
  end.

(** *** Done adding photos *)

(** [process_single_photo(message, state)]: it reads the photo of the
    message it is given. *)
Definition process_single_photo (message : Message.t) (ctx : FSMContext)
  : Outcome (FSMContext * list Reply) :=
  match last_item (Message.photo message) with
  | Raise e => Raise e
  | Ok photo =>
      match download message with
      | Raise e => Raise e
      | Ok file_path =>
          (* Watermark the image *)
          let watermarked_path := add_watermark file_path file_path in
          let ctx :=
            update_data (with_single_photo watermarked_path photo file_path) ctx in
          if is_custom_description (data ctx)
          then Ok (set_state waiting_description ctx,
                   [message_answer photo_received_ask_description cancel_keyboard])
          else Ok (set_state waiting_title ctx,
                   [message_answer photo_received_ask_title cancel_keyboard])
      end
  end.

(** The loop of [process_multiple_photos]: the stamped path and the
    original path of every photo whose stamped file exists. *)
Definition watermark_all (collected_photos : list CollectedPhoto.t)
  : list (pystr * pystr) :=
  flat_map
    (fun photo_data =>
       let original_path := CollectedPhoto.original_path photo_data in
       let '(base, ext) := splitext original_path in
       let watermarked_path :=
         add_watermark original_path (base ++ lit "_watermarked" ++ ext) in
       match watermarked_path with
       | _ :: _ =>
           if path_exists watermarked_path
           then [(watermarked_path, original_path)] else []
       | [] => []
       end)
    collected_photos.

(** [process_multiple_photos(message, state, collected_photos)] *)
Definition process_multiple_photos
    (message : Message.t) (ctx : FSMContext)
    (collected_photos : list CollectedPhoto.t)
  : FSMContext * list Reply :=
  let stamped := watermark_all collected_photos in
  let watermarked_paths := map fst stamped in
  let original_paths := map snd stamped in
  match watermarked_paths with
  | [] => (ctx, [message_answer failed_to_process_photos cancel_keyboard])
  | _ :: _ =>
      (* Store all images in state *)
      let ctx := update_data (with_all_images watermarked_paths original_paths) ctx in
      if media_group_ok watermarked_paths then
        let n := length watermarked_paths in
        (set_state waiting_main_image ctx,
         [message_answer_media_group watermarked_paths;
          message_answer (select_main_image n) (select_main_keyboard n)])
      else
        (ctx, [message_answer error_processing_photos cancel_keyboard])
  end.

(** [handle_photos_done(callback, state)], registered for the state
    [waiting_photo]. *)
Definition handle_photos_done (callback : CallbackQuery.t) (ctx : FSMContext)
  : FSMContext * list Reply :=
  let collected_photos := get_collected_photos (data ctx) in
  match collected_photos with
  | [] => (ctx, [callback_answer (Some no_photos_yet) true])
  | _ :: _ =>
      (* Build a fake message-like object using the callback's message *)
      let message := CallbackQuery.message callback in
      if (length collected_photos =? 1)%nat then
        match process_single_photo message ctx with
        | Ok (ctx', replies) => (ctx', replies ++ [callback_answer None false])
        | Raise _ => (ctx, [callback_answer (Some error_processing_photos) true])
        end
      else
        let '(ctx', replies) :=
          process_multiple_photos message ctx collected_photos in
        (ctx', replies ++ [callback_answer None false])
  end.

(** *** Main image *)

(** [int(callback.data.split("_")[-1])] *)
Definition selected_index (callback_data : pystr) : option Z :=
  match last (split 95%N callback_data) with
  | Some part => py_int part
  | None => None
  end.

(** [handle_main_image_selection(callback, state)], registered for the
    state [waiting_main_image]. *)
Definition handle_main_image_selection
    (callback : CallbackQuery.t) (ctx : FSMContext)
  : FSMContext * list Reply :=
  let failed := (ctx, [callback_answer (Some error_selecting_main_image) true]) in
  match selected_index (CallbackQuery.data callback) with
  | None => failed
  | Some main_index =>
      let all_images := get_all_images (data ctx) in
      let all_original_images := get_all_original_images (data ctx) in
      if ((main_index <? 0) || (Z.of_nat (length all_images) <=? main_index))%Z
      then (ctx, [callback_answer (Some invalid_selection) true])
      else
        match all_images !! Z.to_nat main_index,
              all_original_images !! Z.to_nat main_index with
        | Some main_image_path, Some main_original_path =>
            let ctx1 :=
              update_data (with_main_image main_image_path main_original_path
                             main_index all_images all_original_images) ctx in
            let selected :=
              callback_answer (Some (image_selected (main_index + 1))) false in
            if is_custom_description (data ctx)
            then (set_state waiting_description ctx1,
                  [selected;
                   message_answer main_image_selected_ask_description
                                  cancel_keyboard])
            else (set_state waiting_title ctx1,
                  [selected;
                   message_answer main_image_selected_ask_title cancel_keyboard])
        | _, _ => failed                                   (* IndexError *)
        end
  end.

(** *** Text fields *)

(** [product_title_received(message, state)], registered for
    [waiting_title]. A message without text raises at
    [message.text.strip()]. *)
Definition product_title_received (message : Message.t) (ctx : FSMContext)
  : Outcome (FSMContext * list Reply) :=
  match Message.text message with
  | None => Raise AttributeError
  | Some text =>
      let title := strip text in
      if (len title <? 3)%Z
      then Ok (ctx, [message_answer title_too_short no_keyboard])
      else if (200 <? len title)%Z
      then Ok (ctx, [message_answer title_too_long no_keyboard])
      else
        let ctx := update_data (with_title title) ctx in
        if is_custom_description (data ctx)
        then Ok (set_state waiting_price ctx,
                 [message_answer title_saved_ask_price cancel_keyboard])
        else Ok (set_state waiting_description ctx,
                 [message_answer title_saved_ask_description cancel_keyboard])
  end.

(** [product_description_received(message, state)], registered for
    [waiting_description]. *)
Definition product_description_received (message : Message.t) (ctx : FSMContext)
  : Outcome (FSMContext * list Reply) :=
  match Message.text message with
  | None => Raise AttributeError
  | Some text =>
      let description := strip text in
      if (1000 <? len description)%Z
      then Ok (ctx, [message_answer description_too_long no_keyboard])
      else
        let ctx := update_data (with_description description) ctx in
        if is_custom_description (data ctx)
        then Ok (set_state waiting_title ctx,
                 [message_answer description_saved_ask_name cancel_keyboard])
        else Ok (set_state waiting_price ctx,
                 [message_answer description_saved_ask_price cancel_keyboard])
  end.

(** [float(message.text.strip().replace(',', ''))] *)
Definition parse_price (text : pystr) : option pyfloat :=
  py_float (replace 44%N [] (strip text)).

(** [product_price_received(message, state)], registered for
    [waiting_price]. The third component is the handler that the
    accepted price is handed on to, if any. *)
Definition product_price_received (message : Message.t) (ctx : FSMContext)
  : Outcome (FSMContext * list Reply * option Continuation) :=
  match Message.text message with
  | None => Raise AttributeError
  | Some text =>
      match parse_price text with
      | None =>                                         (* ValueError *)
          Ok (ctx, [message_answer invalid_price no_keyboard], None)
      | Some price =>
          if float_le_int price 0
          then Ok (ctx, [message_answer price_not_positive no_keyboard], None)
          else if float_gt_int price 10000000
          then Ok (ctx, [message_answer price_too_high no_keyboard], None)
          else
            let ctx := update_data (with_price price) ctx in
            if is_custom_description (data ctx)
            then Ok (ctx, [], Some show_custom_description_preview)
            else
              match category (data ctx) with
              | Some ((_ :: _) as category) =>
                  Ok (ctx, [], Some (show_category_fields category))
              | _ =>
                  Ok (set_state waiting_category ctx,
                      [message_answer price_saved_ask_category cancel_keyboard],
                      None)
              end
      end
  end.

End Handlers.

End Products.


(* ===================================================================== *)
(** * More of Python: [str(int)], slices, indexing                        *)
(* ===================================================================== *)

Module PyText.
Import Py.

(** [str(n)] for an int, and so [f"{n}"]. *)
Definition py_str (n : Z) : pystr :=
  if (n <? 0)%Z then 45%N :: Helpers.digits (- n) else Helpers.digits n.

(** [s[:k]]: a negative [k] counts from the end. *)
Definition slice_to {A} (s : list A) (k : Z) : list A :=
  if (k <? 0)%Z then take (Z.to_nat (Z.of_nat (length s) + k)) s
  else take (Z.to_nat k) s.

(** [seq[i]]: a negative [i] counts from the end; [IndexError] out of
    range. *)
Definition py_index {A} (l : list A) (i : Z) : Outcome A :=
  let j := if (i <? 0)%Z then (i + Z.of_nat (length l))%Z else i in
  if ((0 <=? j) && (j <? Z.of_nat (length l)))%Z
  then match l !! Z.to_nat j with
       | Some x => Ok x
       | None => Raise IndexError
       end
  else Raise IndexError.

(** [len(l)] of a list. *)
Definition len_list {A} (l : list A) : Z := Z.of_nat (length l).

(** [s.startswith(prefix)] *)
Fixpoint startswith (prefix s : pystr) : bool :=
  match prefix, s with
  | [], _ => true
  | p :: prefix', c :: s' => (p =? c)%N && startswith prefix' s'
  | _ :: _, [] => false
  end.

(** [s.replace(old, new)] for a non-empty [old]: the occurrences are
    found from left to right and do not overlap. [skip] counts the
    characters of an occurrence just found that are still to be passed
    over. *)
Fixpoint replace_from (old new : pystr) (skip : nat) (s : pystr) : pystr :=
  match s with
  | [] => []
  | c :: s' =>
      match skip with
      | S k => replace_from old new k s'
      | O =>
          if startswith old s
          then new ++ replace_from old new (length old - 1) s'
          else c :: replace_from old new 0 s'
      end
  end.

Definition replace_str (old new s : pystr) : pystr := replace_from old new 0 s.


End PyText.

(* ===================================================================== *)
(** * utils/helpers.py: texts and keyboards                               *)
(* ===================================================================== *)

Module Keyboards.
Import Py PyText.

(** [truncate_text(text, max_length)] *)
Definition truncate_text (text : pystr) (max_length : Z) : pystr :=
  if (len text <=? max_length)%Z then text
  else slice_to text (max_length - 3) ++ lit "...".

(** An [InlineKeyboardButton]: a callback button or a link. *)
Inductive Button :=
| callback_button (text callback_data : pystr)
| url_button (text url : pystr).

(** An [InlineKeyboardMarkup]: rows of buttons. *)
Definition InlineKeyboardMarkup : Type := list (list Button).

(** The emoji of the button texts, as code points. *)
Definition heart : pystr := [10084; 65039]%N.
Definition floppy : pystr := [128190%N].
Definition cart : pystr := [128722%N].
Definition gear : pystr := [9881; 65039]%N.
Definition loudspeaker : pystr := [128226%N].
Definition bar_chart : pystr := [128202%N].
Definition pencil : pystr := [9999; 65039]%N.
Definition check_mark : pystr := [9989%N].
Definition left_arrow : pystr := [9664; 65039]%N.
Definition right_arrow : pystr := [9654; 65039]%N.
Definition page : pystr := [128196%N].

(** The rows that [create_product_keyboard] and
    [create_product_carousel_keyboard] share, in the source's order: like
    and save, order, the custom button, post to channel. *)
Definition engagement_rows
    (product_id : Z) (custom_button : option (pystr * pystr))
    (show_post_button : bool) (likes_count saves_count : Z)
    (like_enabled save_enabled order_enabled : bool) : InlineKeyboardMarkup :=
  (if like_enabled || save_enabled then
     let row1 :=
       (if like_enabled
        then [callback_button (heart ++ lit " Like - " ++ py_str likes_count)
                              (lit "like_" ++ py_str product_id)]
        else [])
       ++ (if save_enabled
           then [callback_button (floppy ++ lit " Save - " ++ py_str saves_count)
                                 (lit "save_" ++ py_str product_id)]
           else []) in
     match row1 with [] => [] | _ :: _ => [row1] end
   else [])
  ++ (if order_enabled
      then [[callback_button (cart ++ lit " Order")
                             (lit "order_" ++ py_str product_id)]]
      else [])
  ++ match custom_button with
     | Some (custom_text, custom_url) =>
         [[url_button (gear ++ lit " " ++ custom_text) custom_url]]
     | None => []
     end
  ++ (if show_post_button
      then [[callback_button (loudspeaker ++ lit " Post to Channel")
                             (lit "post_channel_" ++ py_str product_id)]]
      else []).

(** [create_product_keyboard(...)]; [seller_phone] is accepted and never
    read. *)
Definition create_product_keyboard
    (product_id : Z) (custom_button : option (pystr * pystr))
    (show_admin_buttons show_post_button : bool) (likes_count saves_count : Z)
    (like_enabled save_enabled order_enabled : bool) : InlineKeyboardMarkup :=
  engagement_rows product_id custom_button show_post_button likes_count
                  saves_count like_enabled save_enabled order_enabled
  ++ (if show_admin_buttons
      then [[callback_button (bar_chart ++ lit " Stats")
                             (lit "stats_" ++ py_str product_id);
             callback_button (pencil ++ lit " Edit")
                             (lit "edit_" ++ py_str product_id)];
            [callback_button (check_mark ++ lit " Mark Sold")
                             (lit "mark_sold_" ++ py_str product_id)]]
      else []).

(** [create_pagination_keyboard(current_page, total_pages,
    callback_prefix)] *)
Definition create_pagination_keyboard
    (current_page total_pages : Z) (callback_prefix : pystr)
  : InlineKeyboardMarkup :=
  if (1 <? total_pages)%Z then
    [ (if (1 <? current_page)%Z
       then [callback_button (left_arrow ++ lit " Previous")
                             (callback_prefix ++ lit "_page_"
                              ++ py_str (current_page - 1))]
       else [])
      ++ [callback_button
            (page ++ lit " " ++ py_str current_page ++ lit "/" ++ py_str total_pages)
            (lit "noop")]
      ++ (if (current_page <? total_pages)%Z
          then [callback_button (lit "Next " ++ right_arrow)
                                (callback_prefix ++ lit "_page_"
                                 ++ py_str (current_page + 1))]
          else []) ]
  else [].



End Keyboards.

(* ===================================================================== *)
(** * The callback-query handlers and their filters                       *)
(* ===================================================================== *)

Module Dispatch.
Import Py PyText.

(** The filters on [callback.data] that the handlers are registered
    with. *)
Inductive DataFilter :=
| data_is (s : pystr)              (* F.data == s *)
| data_startswith (s : pystr)      (* F.data.startswith(s) *)
| data_regexp_edit.                (* F.data.regexp(r'^edit_\d+$') *)

Fixpoint str_eqb (a b : pystr) : bool :=
  match a, b with
  | [], [] => true
  | x :: a', y :: b' => (x =? y)%N && str_eqb a' b'
  | _, _ => false
  end.

(** [\d+$] at the start of [s]: one or more decimal digits, of any
    script, up to the end of the text or up to a single newline that ends
    it. *)
Fixpoint digits_to_end (seen : bool) (s : pystr) : bool :=
  match s with
  | [] => seen
  | c :: s' =>
      if is_decimal c then digits_to_end true s'
      else seen && (c =? 10)%N && match s' with [] => true | _ :: _ => false end
  end.

Definition regexp_edit (data : pystr) : bool :=
  startswith (lit "edit_") data && digits_to_end false (drop 5 data).

Definition data_matches (f : DataFilter) (data : pystr) : bool :=
  match f with
  | data_is s => str_eqb data s
  | data_startswith s => startswith s data
  | data_regexp_edit => regexp_edit data
  end.

(** A registered handler: the name of the function, the filter on the
    data, and the FSM state it is restricted to, if any, written as
    aiogram names states (group, colon, state). *)
Record Handler := mk_handler {
  handler_name : string;
  data_filter : DataFilter;
  state_filter : option string
}.

Definition eq_ (s : string) : DataFilter := data_is (lit s).
Definition startswith_ (s : string) : DataFilter := data_startswith (lit s).

(** The [@router.callback_query(...)] registrations, in the order in
    which the dispatcher tries them: the routers in the order of
    [dp.include_router] (onboarding, products, inline search, which has
    none, engagement, scheduler, and the test router of bot.py), and in
    each router the handlers from top to bottom. *)
Definition callback_handlers : list Handler :=
  [ (* features/onboarding.py *)
    mk_handler "role_seller_selected" (eq_ "role_seller")
               (Some "OnboardingStates:choosing_role");
    mk_handler "role_buyer_selected" (eq_ "role_buyer")
               (Some "OnboardingStates:choosing_role");
    (* features/products.py *)
    mk_handler "handle_cancel_fsm" (eq_ "cancel_fsm") None;
    mk_handler "handle_standard_product" (eq_ "product_type_standard") None;
    mk_handler "handle_custom_description" (eq_ "product_type_custom") None;
    mk_handler "handle_category_selection" (startswith_ "category_") None;
    mk_handler "handle_photos_done" (eq_ "photos_done")
               (Some "ProductStates:waiting_photo");
    mk_handler "handle_main_image_selection" (startswith_ "select_main_")
               (Some "ProductStates:waiting_main_image");
    mk_handler "handle_confirm_product" (eq_ "confirm_product") None;
    mk_handler "product_save_confirmed" (eq_ "product_save")
               (Some "ProductStates:confirming");
    mk_handler "product_cancel" (eq_ "product_cancel") None;
    mk_handler "post_product_now" (startswith_ "post_now_") None;
    mk_handler "post_product_later" (eq_ "post_later") None;
    mk_handler "handle_myproducts_navigation" (startswith_ "myproducts_nav_") None;
    mk_handler "handle_post_to_channel" (startswith_ "post_channel_") None;
    mk_handler "handle_mark_sold" (startswith_ "mark_sold_") None;
    mk_handler "handle_product_stats" (startswith_ "stats_") None;
    mk_handler "handle_edit_product" data_regexp_edit None;
    mk_handler "handle_edit_title_button" (startswith_ "edit_title_") None;
    mk_handler "handle_edit_description_button" (startswith_ "edit_desc_") None;
    mk_handler "handle_edit_price_button" (startswith_ "edit_price_") None;
    mk_handler "handle_edit_category_button" (startswith_ "edit_category_") None;
    mk_handler "handle_edit_photo_button" (startswith_ "edit_photo_") None;
    mk_handler "handle_delete_product_button" (startswith_ "delete_product_") None;
    mk_handler "handle_back_to_product" (startswith_ "view_") None;
    mk_handler "handle_toggle_like" (startswith_ "toggle_like_") None;
    mk_handler "handle_toggle_save" (startswith_ "toggle_save_") None;
    mk_handler "handle_toggle_order" (startswith_ "toggle_order_") None;
    mk_handler "handle_add_custom_button" (startswith_ "add_custom_") None;
    mk_handler "handle_edit_custom_button" (startswith_ "edit_custom_") None;
    mk_handler "handle_delete_custom_button" (startswith_ "delete_custom_") None;
    (* features/engagement.py *)
    mk_handler "handle_like" (startswith_ "like_") None;
    mk_handler "handle_save" (startswith_ "save_") None;
    mk_handler "handle_order_start" (startswith_ "order_") None;
    (* features/scheduler.py *)
    mk_handler "schedule_product_selected" (startswith_ "sched_prod_")
               (Some "ScheduleStates:selecting_product");
    mk_handler "schedule_interval_selected" (startswith_ "interval_")
               (Some "ScheduleStates:setting_interval");
    mk_handler "schedule_time_selected" (startswith_ "time_")
               (Some "ScheduleStates:setting_time");
    mk_handler "schedule_cancel" (eq_ "sched_cancel") None;
    (* bot.py *)
    mk_handler "handle_test_button" (startswith_ "button_click") None ]%string.

(** Whether a handler takes a callback query with this data in this FSM
    state ([None]: no state set). *)
Definition accepts (state : option string) (data : pystr) (h : Handler) : bool :=
  data_matches (data_filter h) data
  && match state_filter h with
     | None => true
     | Some wanted =>
         match state with
         | Some current => String.eqb current wanted
         | None => false
         end
     end.

(** The handler that gets the callback query: the first that accepts
    it. *)
Definition route (state : option string) (data : pystr) : option string :=
  handler_name <$> List.find (accepts state data) callback_handlers.

(** [int(callback.data.split('_')[i])]; [None] for the [IndexError] or
    [ValueError] that the handler catches. *)
Definition id_part (data : pystr) (i : Z) : option Z :=
  match py_index (split 95%N data) i with
  | Ok part => py_int part
  | Raise _ => None
  end.

(** The product id that the handlers of the product buttons read from
    the data, each in its first statement: part 1 in [handle_like],
    [handle_save], [handle_order_start], [handle_product_stats] and
    [handle_edit_product], part 2 in [handle_post_to_channel] and
    [handle_mark_sold]. *)
Definition product_id_read (handler : string) (data : pystr) : option Z :=
  if existsb (String.eqb handler)
       ["handle_like"; "handle_save"; "handle_order_start";
        "handle_product_stats"; "handle_edit_product"]%string
  then id_part data 1
  else if existsb (String.eqb handler)
            ["handle_post_to_channel"; "handle_mark_sold"]%string
  then id_part data 2
  else None.

End Dispatch.

(* ===================================================================== *)
(** * features/products.py: the carousel of /myproducts                   *)
(* ===================================================================== *)

Module MyProducts.
Import Py PyText Database Keyboards Dispatch.

Section Carousel.

(** The columns [like_enabled], [save_enabled] and [order_enabled] of
    the products, by product id. *)
Variable like_enabled save_enabled order_enabled : Z -> bool.


End Carousel.

                             (* show_my_product_carousel(callback, user_id,
                                products, index, edit_mode=True) *)



End MyProducts.

(* ===================================================================== *)
(** * features/products.py: starting, restarting and cancelling a draft   *)
(* ===================================================================== *)

Module Intake.
Import Py PyText Keyboards Products.

(** The name under which aiogram knows a state of [ProductStates]. *)
Definition state_name (s : ProductStates) : string :=
  match s with
  | waiting_product_type => "ProductStates:waiting_product_type"
  | waiting_category => "ProductStates:waiting_category"
  | waiting_photo => "ProductStates:waiting_photo"
  | waiting_main_image => "ProductStates:waiting_main_image"
  | waiting_title => "ProductStates:waiting_title"
  | waiting_description => "ProductStates:waiting_description"
  | waiting_price => "ProductStates:waiting_price"
  | waiting_category_fields => "ProductStates:waiting_category_fields"
  | confirming => "ProductStates:confirming"
  | post_action => "ProductStates:post_action"
  end%string.

(** CROSS MARK, as utils/helpers.py and features/scheduler.py write
    it. *)
Definition cross_mark : pystr := [10060%N].

(** FRAMED PICTURE with its variation selector, and CROSS MARK, as
    features/products.py spells them: the file holds the UTF-8 bytes of
    the two emoji read as Mac OS Roman, and these are the characters that
    the bot sends. *)
Definition framed_picture_misread : pystr :=
  [0xF8FF; 0xFC; 0xF1; 0xBA; 0xD4; 0x220F; 0xE8]%N.
Definition cross_mark_misread : pystr := [0x201A; 0xF9; 0xE5]%N.

(** [create_cancel_keyboard()] of utils/helpers.py *)
Definition create_cancel_keyboard : InlineKeyboardMarkup :=
  [[callback_button (cross_mark ++ lit " Cancel") (lit "cancel_fsm")]].

(** The buttons of [select_main_keyboard count], as the end of
    [process_multiple_photos] builds them: one row per image, then
    "Cancel". *)
Definition select_main_buttons (count : nat) : InlineKeyboardMarkup :=
  map (fun i =>
         [callback_button
            (framed_picture_misread ++ lit " Image " ++ py_str (Z.of_nat i + 1)
             ++ lit " (Select as Main)")
            (lit "select_main_" ++ py_str (Z.of_nat i))])
      (seq 0 count)
  ++ [[callback_button (cross_mark_misread ++ lit " Cancel")
                       (lit "cancel_fsm")]].

Definition with_product_type (v : pystr) (d : Data) : Data :=
  mk_data (Some v) (category d) (collected_photos d) (photo_path d)
          (original_photo_path d) (photo_file_id d) (main_image_index d)
          (all_images d) (all_original_images d) (title d) (description d)
          (price d).

Definition with_category (v : pystr) (d : Data) : Data :=
  mk_data (product_type d) (Some v) (collected_photos d) (photo_path d)
          (original_photo_path d) (photo_file_id d) (main_image_index d)
          (all_images d) (all_original_images d) (title d) (description d)
          (price d).

(** [state.clear()] *)
Definition clear (ctx : FSMContext) : FSMContext := mk_ctx None empty_data.

(** What these handlers send, by name. *)
Inductive Prompt :=
| only_for_sellers
| free_plan_limit_reached (count limit : Z)
| choose_product_type
| choose_category
| custom_send_photo
| category_send_photo (category : pystr)
| operation_cancelled
| error_cancelling
| error_prompt.

(** [cmd_add_product(message, state)]. [is_seller] tells whether the
    user exists with the role "seller", [product_count] is the number of
    the seller's active products, [max_free_products] is
    [app_config.MAX_FREE_PRODUCTS]. *)
Definition cmd_add_product
    (is_seller is_premium : bool) (product_count max_free_products : Z)
    (ctx : FSMContext) : FSMContext * list Prompt :=
  if negb is_seller then (ctx, [only_for_sellers])
  else if negb is_premium && (max_free_products <=? product_count)%Z
  then (ctx, [free_plan_limit_reached product_count max_free_products])
  else (set_state waiting_product_type ctx, [choose_product_type]).

(** The three handlers below are registered without a state filter.
    [edit_ok] tells whether [callback.message.edit_text] succeeds; when
    it raises, the handler has updated the data and not the state. *)

(** [handle_standard_product(callback, state)] *)
Definition handle_standard_product (edit_ok : bool) (ctx : FSMContext)
  : FSMContext * list Prompt :=
  let ctx := update_data (with_product_type (lit "standard")) ctx in
  if edit_ok then (set_state waiting_category ctx, [choose_category])
  else (ctx, [error_prompt]).

(** [handle_custom_description(callback, state)] *)
Definition handle_custom_description (edit_ok : bool) (ctx : FSMContext)
  : FSMContext * list Prompt :=
  let ctx := update_data (with_product_type (lit "custom_description")) ctx in
  if edit_ok then (set_state waiting_photo ctx, [custom_send_photo])
  else (ctx, [error_prompt]).

(** [handle_category_selection(callback, state)] *)
Definition handle_category_selection
    (edit_ok : bool) (callback_data : pystr) (ctx : FSMContext)
  : FSMContext * list Prompt :=
  let category := replace_str (lit "category_") [] callback_data in
  let ctx := update_data (with_category category) ctx in
  if edit_ok then (set_state waiting_photo ctx, [category_send_photo category])
  else (ctx, [error_prompt]).

(** [handle_cancel_fsm(callback, state)]: the state is cleared before
    the message is edited. *)
Definition handle_cancel_fsm (edit_ok : bool) (ctx : FSMContext)
  : FSMContext * list Prompt :=
  (clear ctx, [if edit_ok then operation_cancelled else error_cancelling]).

End Intake.

(* ===================================================================== *)
(** * database/db.py: saves, users, orders and schedules                  *)
(* ===================================================================== *)

Module Order.
Import Py.
Record t := mk {
  buyer_id : Z;
  seller_id : Z;
  product_id : Z;
  quantity : Z;
  status : pystr
}.
End Order.

Module DatabaseMore.
Import Py Helpers Database.

(** [toggle_save(user_id, product_id)], in [transaction.atomic()] as
    [toggle_like] is. *)
Definition toggle_save (user_id product_id : Z) (db : Db)
  : Outcome (bool * Product.t) * Db :=
  let '(engagement, db1) := get_or_create_engagement user_id product_id db in
  (* Toggle save *)
  let engagement :=
    Engagement.mk (Engagement.liked engagement)
                  (negb (Engagement.saved engagement)) in
  let db2 := set_engagements (insert (user_id, product_id) engagement) db1 in
  (* Update counter *)
  match products db2 !! product_id with
  | None => (Raise DoesNotExist, db)
  | Some product =>
      let product :=
        if Engagement.saved engagement
        then Product.set_saves_count (Product.saves_count product + 1) product
        else Product.set_saves_count
               (Z.max 0 (Product.saves_count product - 1)) product in
      (Ok (Engagement.saved engagement, product),
       set_products (insert product_id product) db2)
  end.

Definition set_users (f : gmap Z User.t -> gmap Z User.t) (db : Db) : Db :=
  mk_db (f (users db)) (products db) (engagements db) (schedules db).

(** [create_user(user_id, username, first_name, last_name, role)], on
    the columns of the row model: a new row has the user name and no
    seller fields; an existing row takes the user name when one is
    given. *)
Definition create_user (user_id : Z) (username : option pystr) (db : Db)
  : User.t * Db :=
  match users db !! user_id with
  | None =>
      let user := User.mk username None None None in
      (user, set_users (insert user_id user) db)
  | Some user =>
      let user :=
        if str_truthy username
        then User.mk username (User.store_name user) (User.phone user)
                     (User.channel_username user)
        else user in
      (user, set_users (insert user_id user) db)
  end.

(** The tables together with the orders, in the order in which they
    were created. *)
Record Store := mk_store {
  tables : Db;
  orders : list Order.t
}.

(** [create_order(buyer_id, seller_id, product_id, quantity,
    status=...)], in [transaction.atomic()]. *)
Definition create_order
    (buyer_id seller_id product_id quantity : Z) (status : pystr) (st : Store)
  : Outcome Order.t * Store :=
  match get_user buyer_id (tables st), get_user seller_id (tables st),
        get_product product_id (tables st) with
  | Some _, Some _, Some product =>
      let order := Order.mk buyer_id seller_id product_id quantity status in
      (* Update product order count *)
      let product :=
        Product.set_orders_count (Product.orders_count product + 1) product in
      (Ok order,
       mk_store (set_products (insert product_id product) (tables st))
                (orders st ++ [order]))
  | _, _, _ => (Raise DoesNotExist, st)
  end.

(** [create_schedule(seller_id, product_id, channel_username,
    interval_days, post_time)]. [new_id] is the primary key that the
    database gives the new row. The model fields not named keep their
    defaults: active, never posted, no next post time. *)
Definition create_schedule
    (new_id seller_id product_id : Z) (channel_username : pystr)
    (interval_days : Z) (post_time : pystr) (db : Db)
  : Outcome PostSchedule.t * Db :=
  match get_user seller_id db, get_product product_id db with
  | Some _, Some _ =>
      let schedule :=
        PostSchedule.mk new_id seller_id product_id channel_username
                        interval_days post_time true None None in
      (Ok schedule, set_schedules (insert new_id schedule) db)
  | _, _ => (Raise DoesNotExist, db)
  end.

End DatabaseMore.

(* ===================================================================== *)
(** * features/engagement.py: ordering                                    *)
(* ===================================================================== *)

Module EngagementHandlers.
Import Py PyText Helpers Database DatabaseMore Dispatch.

(** The calls by which [handle_order_start] answers, in their order:
    the three alerts of [callback.answer], the message to the buyer and
    the message to the seller. *)
Inductive OrderReply :=
| alert_no_longer_available      (* "This product is no longer available" *)
| alert_order_confirmed          (* "Order confirmed!" *)
| confirmation_to_buyer          (* the message "Order Confirmed!" *)
| notification_to_seller         (* the message "New Order Received!" *)
| alert_error_processing_order.  (* "Error processing order" *)

(** [handle_order_start(callback)]. [chat_known] tells whether the
    message of the pressed button is still known to Telegram, so that
    [callback.message.chat] can be read; [confirmation_delivered] tells
    whether the message to the buyer could be sent (to the private chat
    or, failing that, to the chat of the post). An alert or the
    notification of the seller that Telegram refuses is passed over by the
    handler; they are listed as the calls that were made. The handler
    reads [product.seller_id] before it checks that the product exists. *)
Definition handle_order_start
    (chat_known confirmation_delivered : bool) (data : pystr)
    (from_user_id : Z) (from_username : option pystr) (st : Store)
  : list OrderReply * Store :=
  let failed st := ([alert_error_processing_order], st) in
  match id_part data 1 with
  | None => failed st
  | Some product_id =>
      (* Get product and seller *)
      match get_product product_id (tables st) with
      | None => failed st                               (* product.seller_id *)
      | Some product =>
          let seller := get_user (Product.seller_id product) (tables st) in
          if negb (Product.is_active product)
          then ([alert_no_longer_available], st)
          else
            (* Check if user exists, if not create as buyer *)
            let st1 :=
              match get_user from_user_id (tables st) with
              | Some _ => st
              | None =>
                  mk_store (snd (create_user from_user_id from_username
                                             (tables st)))
                           (orders st)
              end in
            match seller with
            | None => failed st1                                 (* seller.id *)
            | Some _ =>
                (* Create order record *)
                match create_order from_user_id (Product.seller_id product)
                        product_id 1 (lit "pending") st1 with
                | (Raise _, st2) => failed st2
                | (Ok _, st2) =>
                    match Product.price product with
                    | None => failed st2                      (* format_price *)
                    | Some _ =>
                        if negb chat_known
                        then failed st2              (* callback.message.chat *)
                        else if confirmation_delivered then
                          (* Notify seller; update product engagement stats *)
                          ([alert_order_confirmed; confirmation_to_buyer;
                            notification_to_seller],
                           mk_store
                             (update_product_engagement product_id
                                [(orders_count, 1%Z)] (tables st2))
                             (orders st2))
                        else
                          ([alert_order_confirmed;
                            alert_error_processing_order], st2)
                    end
                end
            end
      end
  end.

End EngagementHandlers.

(* ===================================================================== *)
(** * features/scheduler.py: the dialogue that creates a schedule         *)
(* ===================================================================== *)

Module ScheduleDialog.
Import Py PyText Helpers Database DatabaseMore Keyboards Dispatch.

Inductive ScheduleStates := selecting_product | setting_interval | setting_time.

Definition state_name (s : ScheduleStates) : string :=
  match s with
  | selecting_product => "ScheduleStates:selecting_product"
  | setting_interval => "ScheduleStates:setting_interval"
  | setting_time => "ScheduleStates:setting_time"
  end%string.

(** The state and the two keys of the FSM data that the dialogue
    writes and reads. *)
Record Context := mk_context {
  state : option ScheduleStates;
  product_id : option Z;
  interval_days : option Z
}.

(** The keyboards of the second and the third step. *)
Definition interval_keyboard : InlineKeyboardMarkup :=
  [[callback_button (lit "Every Day") (lit "interval_1");
    callback_button (lit "Every 2 Days") (lit "interval_2")];
   [callback_button (lit "Every 3 Days") (lit "interval_3");
    callback_button (lit "Every Week") (lit "interval_7")];
   [callback_button (Intake.cross_mark ++ lit " Cancel") (lit "sched_cancel")]].

Definition time_keyboard : InlineKeyboardMarkup :=
  [[callback_button (lit "9:00 AM") (lit "time_09:00");
    callback_button (lit "12:00 PM") (lit "time_12:00")];
   [callback_button (lit "3:00 PM") (lit "time_15:00");
    callback_button (lit "6:00 PM") (lit "time_18:00")];
   [callback_button (Intake.cross_mark ++ lit " Cancel") (lit "sched_cancel")]].

(** What can end a handler of the dialogue early: an exception of
    Python, or the database refusing a row without a channel. None of
    the handlers catches anything. *)
Inductive Failure :=
| raised (e : PyExc)
| integrity_error.

(** [schedule_product_selected(callback, state)]: the product id is
    stored before the product is looked at. *)
Definition schedule_product_selected (data : pystr) (db : Db) (ctx : Context)
  : Context * option Failure :=
  match py_index (split 95%N data) 2 with
  | Raise e => (ctx, Some (raised e))
  | Ok part =>
      match py_int part with
      | None => (ctx, Some (raised ValueError))
      | Some id =>
          let ctx := mk_context (state ctx) (Some id) (interval_days ctx) in
          match get_product id db with
          | None => (ctx, Some (raised AttributeError))      (* product.title *)
          | Some _ =>
              (mk_context (Some setting_interval) (product_id ctx)
                          (interval_days ctx), None)
          end
      end
  end.

(** [schedule_interval_selected(callback, state)] *)
Definition schedule_interval_selected (data : pystr) (ctx : Context)
  : Context * option Failure :=
  match py_index (split 95%N data) 1 with
  | Raise e => (ctx, Some (raised e))
  | Ok part =>
      match py_int part with
      | None => (ctx, Some (raised ValueError))
      | Some days =>
          (mk_context (Some setting_time) (product_id ctx) (Some days), None)
      end
  end.

(** [schedule_time_selected(callback, state)], with the value of
    [datetime.now()] and the id that the database gives the new
    schedule. *)
Definition schedule_time_selected
    (now : datetime) (new_id : Z) (data : pystr) (from_user_id : Z)
    (db : Db) (ctx : Context)
  : Context * Db * option Failure :=
  match py_index (split 95%N data) 1 with
  | Raise e => (ctx, db, Some (raised e))
  | Ok post_time =>
      let user := get_user from_user_id db in
      match product_id ctx with
      | None => (ctx, db, Some (raised KeyError))
      | Some id =>
          let product := get_product id db in
          match interval_days ctx with
          | None => (ctx, db, Some (raised KeyError))
          | Some days =>
              (* Calculate next post time *)
              match calculate_next_post_time now days post_time with
              | Raise e => (ctx, db, Some (raised e))
              | Ok next_post =>
                  match product, user with
                  | None, _ => (ctx, db, Some (raised AttributeError))
                  | Some _, None => (ctx, db, Some (raised AttributeError))
                  | Some _, Some user =>
                      match User.channel_username user with
                      | None => (ctx, db, Some integrity_error)
                      | Some channel =>
                          (* Create schedule in database *)
                          match create_schedule new_id from_user_id id channel
                                  days post_time db with
                          | (Raise e, db1) => (ctx, db1, Some (raised e))
                          | (Ok schedule, db1) =>
                              (* Update next post time *)
                              let '(_, db2) :=
                                update_schedule_post_time
                                  (PostSchedule.id schedule) None
                                  (Some next_post) db1 in
                              (mk_context None None None, db2, None)
                          end
                      end
                  end
              end
          end
      end
  end.

End ScheduleDialog.

(* ===================================================================== *)
(** * features/products.py: category fields, preview and creation        *)
(* ===================================================================== *)

Module Creation.
Import Py PyText Helpers Database DatabaseMore Products.

(** [get_category_fields(category)]: the fields of a category and
    their labels, in the order of the source; no field for any other
    category. *)
Definition get_category_fields (category : pystr) : list (pystr * pystr) :=
  if pystr_eqb category (lit "laptops") then
    [(lit "brand", lit "Brand (e.g., HP, Dell, MacBook)");
     (lit "model", lit "Model");
     (lit "processor", lit "Processor (e.g., Intel i7, AMD Ryzen 7)");
     (lit "ram", lit "RAM (e.g., 8GB, 16GB)");
     (lit "storage", lit "Storage (e.g., 256GB SSD, 1TB HDD)");
     (lit "condition", lit "Condition (e.g., Excellent, Good, Fair)")]
  else if pystr_eqb category (lit "phones") then
    [(lit "brand", lit "Brand (e.g., iPhone, Samsung, Huawei)");
     (lit "model", lit "Model (e.g., iPhone 15 Pro, Galaxy S24)");
     (lit "storage", lit "Storage (e.g., 128GB, 256GB)");
     (lit "condition", lit "Condition (e.g., Excellent, Good, Fair)");
     (lit "battery", lit "Battery Health (e.g., 95%, 87%)")]
  else if pystr_eqb category (lit "cars") then
    [(lit "brand", lit "Brand (e.g., Toyota, Honda, BMW)");
     (lit "model", lit "Model (e.g., Corolla, Civic, X5)");
     (lit "year", lit "Year (e.g., 2020, 2019)");
     (lit "mileage", lit "Mileage (e.g., 50,000 km)");
     (lit "fuel_type", lit "Fuel Type (e.g., Gasoline, Diesel, Electric)");
     (lit "condition", lit "Condition (e.g., Excellent, Good, Fair)")]
  else if pystr_eqb category (lit "houses") then
    [(lit "type", lit "Type (e.g., Apartment, House, Villa)");
     (lit "bedrooms", lit "Bedrooms (e.g., 2, 3, 4+)");
     (lit "location", lit "Location/Area");
     (lit "size", lit "Size (e.g., 120 sqm, 200 sqm)");
     (lit "condition", lit "Condition (e.g., Excellent, Good, Needs Renovation)")]
  else [].

(** [d[key] = value] on a dict kept as the list of its items: the value
    of a key that is there is replaced in place, a new key goes to the
    end. *)
Definition dict_set {V} (key : pystr) (value : V) (d : list (pystr * V))
  : list (pystr * V) :=
  if existsb (fun kv => pystr_eqb (fst kv) key) d
  then map (fun kv => if pystr_eqb (fst kv) key then (fst kv, value) else kv) d
  else d ++ [(key, value)].

(** [[x for i, x in enumerate(l) if i != index]] *)
Definition without_index {A} (index : Z) (l : list A) : list A :=
  flat_map (fun ix => if (Z.of_nat (fst ix) =? index)%Z then [] else [snd ix])
           (combine (seq 0 (length l)) l).

(** The draft together with the three keys of the category fields. *)
Record Session := mk_session {
  ctx : FSMContext;
  category_fields : option (list (pystr * pystr));
  current_field_index : option Z;
  field_values : option (list (pystr * pystr))
}.

Definition set_ctx (c : FSMContext) (s : Session) : Session :=
  mk_session c (category_fields s) (current_field_index s) (field_values s).

Inductive CreationReply :=
| ask_field (label : pystr)                (* the first field of a category *)
| field_saved_ask_next (saved next : pystr)
| error_processing_field_value
| preview (gallery : list pystr) (photo : pystr)
                                           (* the gallery, if any, then the
                                              main image with the caption and
                                              the confirmation buttons *)
| error_creating_preview
| product_created (product_id : Z)
| error_creating_product.

(** [show_product_preview(message, state)]. The caption is not
    modelled, only that the keys it is built from are there;
    [preview_sent] tells whether Telegram takes the photos. *)
Definition show_product_preview (preview_sent : bool) (s : Session)
  : Session * list CreationReply :=
  let d := data (ctx s) in
  match photo_path d with
  | None => (s, [error_creating_preview])                       (* KeyError *)
  | Some main =>
      let all_images := get_all_images d in
      let main_image_index := default 0%Z (main_image_index d) in
      let complete :=
        if is_custom_description d
        then match description d with Some _ => true | None => false end
        else match title d, price d with
             | Some _, Some _ => true
             | _, _ => false
             end in
      if negb complete then (s, [error_creating_preview])       (* KeyError *)
      else if negb preview_sent then (s, [error_creating_preview])
      else
        let gallery :=
          if (1 <? len_list all_images)%Z
          then without_index main_image_index all_images else [] in
        (set_ctx (set_state confirming (ctx s)) s, [preview gallery main])
  end.

(** [show_category_fields(message, state, category)] *)
Definition show_category_fields
    (preview_sent : bool) (category : pystr) (s : Session)
  : Session * list CreationReply :=
  match get_category_fields category with
  | [] => show_product_preview preview_sent s
  | ((first_field, field_label) :: _) as fields =>
      (mk_session (set_state waiting_category_fields (ctx s))
                  (Some fields) (Some 0%Z) (Some []),
       [ask_field field_label])
  end.

(** [category_field_received(message, state)], registered for
    [waiting_category_fields]. *)
Definition category_field_received
    (preview_sent : bool) (message : Message.t) (s : Session)
  : Session * list CreationReply :=
  let failed := (s, [error_processing_field_value]) in
  match category_fields s, current_field_index s with
  | Some fields, Some current_index =>
      let field_values := default [] (field_values s) in
      let field_names := map fst fields in
      match py_index field_names current_index, Message.text message with
      | Ok current_field, Some text =>
          let field_value := strip text in
          (* Store the field value *)
          let field_values := dict_set current_field field_value field_values in
          (* Move to next field *)
          let next_index := (current_index + 1)%Z in
          if (next_index <? len_list field_names)%Z then
            match py_index fields next_index, py_index fields current_index with
            | Ok (_, next_field_label), Ok (_, current_label) =>
                (mk_session (ctx s) (category_fields s) (Some next_index)
                            (Some field_values),
                 [field_saved_ask_next current_label next_field_label])
            | _, _ => failed
            end
          else
            (* All fields filled, show preview *)
            show_product_preview preview_sent
              (mk_session (ctx s) (category_fields s) (current_field_index s)
                          (Some field_values))
      | _, _ => failed                      (* IndexError, AttributeError *)
      end
  | _, _ => failed                                              (* KeyError *)
  end.

(** The columns of a new product that the row model does not have. *)
Inductive FieldValue :=
| text_value (v : pystr)
| paths_value (paths : list pystr).

Record Extra := mk_extra {
  product_type : pystr;
  extra_fields : option (list (pystr * FieldValue));
  original_image_path : pystr
}.

(** [User.objects.get_or_create(id=user_id)] and its like in
    [create_standard_product]: a missing seller gets a row with no
    field set. *)
Definition ensure_user (user_id : Z) (db : Db) : Db :=
  match users db !! user_id with
  | Some _ => db
  | None => set_users (insert user_id (User.mk None None None None)) db
  end.

(** A new product row: active, with no like, save, order or view and
    no custom button. *)
Definition new_product
    (seller_id : Z) (title description : option pystr) (price : option pyfloat)
    (category : option pystr) (image_path : pystr) : Product.t :=
  Product.mk seller_id title description price category image_path true
             0 0 0 0 None None.

(** [handle_confirm_product(callback, state)], registered without a
    state filter. [new_id] is the id that the database gives the
    product, [messages_sent] tells whether the messages after the
    creation go through. The results are the session, the database, the
    answer, and the columns of the new product outside the row model. *)
Definition handle_confirm_product
    (new_id from_user_id : Z) (messages_sent : bool) (s : Session) (db : Db)
  : Session * Db * CreationReply * option Extra :=
  let d := data (ctx s) in
  let failed := (s, db, error_creating_product, None) in
  match photo_path d with
  | None => failed                                              (* KeyError *)
  | Some photo_path =>
      let original_photo_path := default photo_path (original_photo_path d) in
      (* If multiple images were used, collect non-main images *)
      let gallery_paths :=
        match all_images d, main_image_index d with
        | Some ((_ :: _) as all_images), Some main_index =>
            match without_index main_index all_images with
            | [] => None
            | gallery => Some gallery
            end
        | _, _ => None
        end in
      let cleared := mk_session (mk_ctx None empty_data) None None None in
      let created product extra :=
        (cleared,
         set_products (insert new_id product) (ensure_user from_user_id db),
         if messages_sent then product_created new_id
         else error_creating_product,
         Some extra) in
      if is_custom_description d then
        match title d, description d, price d with
        | Some title, Some description, Some price =>
            created
              (new_product from_user_id (Some title) (Some description)
                           (Some price) None photo_path)
              (mk_extra (lit "custom_description")
                        match gallery_paths with
                        | Some gallery =>
                            Some [(lit "_gallery_images", paths_value gallery)]
                        | None => None
                        end
                        original_photo_path)
        | _, _, _ => failed                                     (* KeyError *)
        end
      else
        let field_values :=
          map (fun kv => (fst kv, text_value (snd kv)))
              (default [] (field_values s)) in
        let field_values :=
          match gallery_paths with
          | Some gallery =>
              dict_set (lit "_gallery_images") (paths_value gallery)
                       field_values
          | None => field_values
          end in
        match title d, price d with
        | Some title, Some price =>
            created
              (new_product from_user_id (Some title) (description d)
                           (Some price) (category d) photo_path)
              (mk_extra (lit "standard") (Some field_values)
                        original_photo_path)
        | _, _ => failed                                        (* KeyError *)
        end
  end.

End Creation.
(* ===================================================================== *)
(** * Vocabulary of the properties                                        *)
(* ===================================================================== *)

Module Spec.
Import Py Helpers.

(** The ASCII digit of a number from 0 to 9. *)
Definition ascii_digit (d : Z) : pychar := Z.to_N (48 + d).

(** A post time as the scheduler's buttons and the model default write
    it: two digits, a colon, two digits. *)
Definition hhmm (h m : Z) : pystr :=
  [ascii_digit (h / 10); ascii_digit (h mod 10); 58%N;
   ascii_digit (m / 10); ascii_digit (m mod 10)].

(** The number of days by which "today's occurrence" of the post time
    is rolled forward: 1 when it is not strictly after [now]. *)
Definition roll (now : datetime) (h m : Z) : Z :=
  if (timestamp_us (mk_datetime (ordinal now) h m 0 0) <=? timestamp_us now)%Z
  then 1%Z else 0%Z.

(** Whether the user currently likes the product: no engagement row
    counts as not liked, as [get_or_create] makes it. *)
Definition liked_by (db : Database.Db) (user_id product_id : Z) : bool :=
  default false
    (Engagement.liked <$> Database.engagements db !! (user_id, product_id)).

Definition likes_of (db : Database.Db) (product_id : Z) : option Z :=
  Product.likes_count <$> Database.products db !! product_id.

(** A database with one product that nobody likes yet, and the database
    reached from it when user 7 likes the product and the counter is then
    adjusted by -1 through [update_product_engagement]. *)
Definition sample_product : Product.t :=
  Product.mk 1 (Some (lit "Phone")) None (Some (PyFinite 2500)) None
             (lit "media/products/1.jpg") true 0 0 0 0 None None.

Definition one_product_db : Database.Db :=
  Database.mk_db ∅ {[ 1%Z := sample_product ]} ∅ ∅.

Definition liked_with_zero_count : Database.Db :=
  Database.update_product_engagement 1 [(Database.likes_count, (-1)%Z)]
    (snd (Database.toggle_like 7 1 one_product_db)).

(** Escaping, one character at a time: the characters that take a
    backslash in a caption. *)
Definition is_special (c : pychar) : bool :=
  existsb (N.eqb c) (lit "_*[]~`>#+=|{}!").

Definition escape_char (c : pychar) : pystr :=
  if is_special c then [92%N; c] else [c].

Definition escaped (text : option pystr) : pystr :=
  flat_map escape_char (default [] text).

(** A price as a caption shows it: the amount rounded to two decimals,
    a comma between the thousands, and the currency. *)
Definition upto_999 (n : Z) : pystr :=
  if (n <? 10)%Z then [ascii_digit n]
  else if (n <? 100)%Z then [ascii_digit (n / 10); ascii_digit (n mod 10)]
  else [ascii_digit (n / 100); ascii_digit (n / 10 mod 10);
        ascii_digit (n mod 10)].

Definition three_digits (n : Z) : pystr :=
  [ascii_digit (n / 100); ascii_digit (n / 10 mod 10); ascii_digit (n mod 10)].

Fixpoint thousands (groups : nat) (n : Z) : pystr :=
  match groups with
  | O => upto_999 n
  | S g =>
      if (n <? 1000)%Z then upto_999 n
      else thousands g (n / 1000) ++ lit "," ++ three_digits (n mod 1000)
  end.

Definition with_thousands (n : Z) : pystr := thousands (Z.to_nat (Z.log2 n)) n.

Definition shown_amount (p : pyfloat) : pystr :=
  match p with
  | PyNaN => lit "nan"
  | PyInf neg => (if neg then lit "-" else []) ++ lit "inf"
  | PyFinite q =>
      let cents :=
        round_half_even ((if Qle_bool 0 q then q else Qopp q) * 100) in
      (if Qle_bool 0 q then [] else lit "-")
        ++ with_thousands (cents / 100) ++ lit "."
        ++ [ascii_digit (cents mod 100 / 10); ascii_digit (cents mod 10)]
  end.

Definition shown_price (p : pyfloat) : pystr := shown_amount p ++ lit " Birr".

(** The signs of a caption: SHOPPING BAGS with its variation selector,
    MONEY BAG, BUST IN SILHOUETTE, TELEPHONE RECEIVER, and a rule of twenty
    BOX DRAWINGS HEAVY HORIZONTAL. *)
Definition bags_sign : pystr := [0x1F6CD; 0xFE0F]%N.
Definition money_sign : pystr := [0x1F4B0%N].
Definition person_sign : pystr := [0x1F464%N].
Definition phone_sign : pystr := [0x1F4DE%N].
Definition heavy_rule : pystr := repeat 0x2501%N 20.

(** The parts of the caption of a custom-description product shown
    outside a channel. A title or a seller field is shown when it is a
    string that is not empty, a price when it is a number other than
    zero. *)
Definition title_header (title : option pystr) : pystr :=
  match title with
  | Some ((_ :: _) as t) =>
      bags_sign ++ lit " **" ++ escaped (Some t) ++ lit "**" ++ nl
      ++ heavy_rule ++ nl ++ nl
  | _ => []
  end.

Definition is_zero (p : pyfloat) : bool :=
  match p with
  | PyFinite q => Qeq_bool q 0
  | _ => false
  end.

Definition price_line (price : option pyfloat) : pystr :=
  match price with
  | Some p =>
      if is_zero p then []
      else money_sign ++ lit " **" ++ escaped (Some (shown_price p))
           ++ lit "**" ++ nl ++ nl
  | None => []
  end.

Definition seller_line (sign before after : pystr) (field : option pystr)
  : pystr :=
  match field with
  | Some ((_ :: _) as t) => sign ++ before ++ escaped (Some t) ++ after ++ nl
  | _ => []
  end.

Definition seller_footer (seller_name seller_phone : option pystr) : pystr :=
  match seller_line person_sign (lit " **") (lit "**") seller_name
        ++ seller_line phone_sign (lit " ") [] seller_phone with
  | [] => []
  | lines => nl ++ nl ++ lines
  end.

(** Whether [needle] occurs in [text]. *)
Fixpoint occurs_in (needle text : pystr) : bool :=
  PyText.startswith needle text
  || match text with
     | [] => false
     | _ :: text' => occurs_in needle text'
     end.

(** The new [next_post_at] of a schedule in a sweep, if it gets one: the
    schedule is due, its product is there and active, its seller is
    there, the dispatch succeeds and the next fire time can be computed. *)
Definition advances (send_photo : Z -> bool) (clock : Z -> datetime)
    (now : datetime) (s : PostSchedule.t) (db : Database.Db) : option datetime :=
  if Scheduler.is_due now s then
    match Database.get_product (PostSchedule.product_id s) db,
          Database.get_user (PostSchedule.seller_id s) db with
    | Some product, Some _ =>
        if Product.is_active product && send_photo (PostSchedule.id s) then
          match calculate_next_post_time (clock (PostSchedule.id s))
                  (PostSchedule.interval_days s) (PostSchedule.post_time s) with
          | Ok next => Some next
          | Raise _ => None
          end
        else None
    | _, _ => None
    end
  else None.

(** The row of a schedule after the sweep. *)
Definition swept_row (now : datetime) (next : option datetime)
    (row : option PostSchedule.t) : option PostSchedule.t :=
  match next with
  | Some t => PostSchedule.set_post_times (Some now) (Some t) <$> row
  | None => row
  end.

(** A sweep with two due schedules of the same seller and product; the
    dispatch of the first fails, that of the second succeeds. *)
Definition ten_o_clock : datetime := mk_datetime 739000 10 0 0 0.

Definition due_schedule (i : Z) : PostSchedule.t :=
  PostSchedule.mk i 10 1 (lit "@shop") 2 (lit "09:00") true None
                  (Some (mk_datetime 738999 9 0 0 0)).

Definition two_schedules_db : Database.Db :=
  Database.mk_db {[ 10%Z := User.mk None (Some (lit "Shop")) None
                                    (Some (lit "@shop")) ]}
                 {[ 1%Z := sample_product ]}
                 ∅
                 (<[ 1%Z := due_schedule 1 ]> {[ 2%Z := due_schedule 2 ]}).

Definition only_second_succeeds (schedule_id : Z) : bool :=
  (schedule_id =? 2)%Z.

(** A draft of a standard product with two stamped images, waiting for
    the main image to be picked. *)
Definition two_image_draft : Products.FSMContext :=
  Products.mk_ctx (Some Products.waiting_main_image)
    (Products.with_all_images
       [lit "a_watermarked.jpg"; lit "b_watermarked.jpg"]
       [lit "a.jpg"; lit "b.jpg"]
       Products.empty_data).

(** The same draft for a product with a custom description. *)
Definition two_image_custom_draft : Products.FSMContext :=
  Products.update_data (Intake.with_product_type (lit "custom_description"))
                       two_image_draft.

(** A text message of a user. *)
Definition text_message (text : pystr) : Message.t :=
  Message.mk 7 None (Some text) None.

(** A user who was just asked for photos, with nothing buffered. *)
Definition waiting_for_photos : Products.World :=
  Products.mk_world ∅ ∅ []
    (Products.mk_ctx (Some Products.waiting_photo) Products.empty_data) [].

(** The [n]-th photo message of the user, in two sizes, on its own or as
    part of an album. *)
Definition photo_message (group : option pystr) (n : Z) : Message.t :=
  Message.mk 7 (Some [lit "small" ++ digits n; lit "large" ++ digits n])
             None group.

(** A download that always succeeds and names the file after the file
    id. *)
Definition saved_as (m : Message.t) : Outcome pystr :=
  match Products.last_item (Message.photo m) with
  | Ok file_id => Ok (lit "media/products/" ++ file_id ++ lit ".jpg")
  | Raise e => Raise e
  end.

Definition one_to (n : nat) : list Z := map Z.of_nat (seq 1 n).

(** What a photo message of an album leaves in the buffer: the message,
    the path it was saved to and the file id of its largest size. *)
Definition buffered_item (download : Message.t -> Outcome pystr) (m : Message.t)
  : option AlbumItem.t :=
  match Products.last_item (Message.photo m), download m with
  | Ok photo, Ok file_path => Some (AlbumItem.mk m file_path photo)
  | _, _ => None
  end.

(** The entry of [collected_photos] that a buffered item becomes. *)
Definition merged_entry (g : pystr) (item : AlbumItem.t) : CollectedPhoto.t :=
  CollectedPhoto.mk (AlbumItem.original_path item) (AlbumItem.file_id item)
                    (Some g).

(** The photos of the messages [ms], in their order, as entries of the
    album [g]. *)
Definition batch (download : Message.t -> Outcome pystr) (g : pystr)
    (ms : list Message.t) : list CollectedPhoto.t :=
  map (merged_entry g) (omap (buffered_item download) ms).

(** A photo message of the album [g] whose download succeeds. *)
Definition is_album_photo (download : Message.t -> Outcome pystr) (g : pystr)
    (m : Message.t) : bool :=
  bool_decide (Message.media_group_id m = Some g)
  && Products.has_photo m
  && match download m with Ok _ => true | Raise _ => false end.

(** The events of one album: its photos arriving, its timer firing. *)
Definition album_event (download : Message.t -> Outcome pystr) (g : pystr)
    (e : Products.Event) : bool :=
  match e with
  | Products.photo_arrives m => is_album_photo download g m
  | Products.timer_fires g' => bool_decide (g' = g)
  end.

Definition arrivals (events : list Products.Event) : list Message.t :=
  omap (fun e => match e with
                 | Products.photo_arrives m => Some m
                 | Products.timer_fires _ => None
                 end) events.

(** The world around one album [g]: nothing of it is buffered and no
    timer is armed for it, or its items are buffered and exactly one timer
    is armed; [B0], [S0] and [T0] are what the buffer, the set of scheduled
    ids and the task list hold for the other albums. *)
Definition album_world
    (B0 : gmap pystr (list AlbumItem.t)) (S0 : gset pystr) (T0 : list pystr)
    (g : pystr) (pending : list AlbumItem.t)
    (ctx : Products.FSMContext) (out : list Products.Reply) : Products.World :=
  match pending with
  | [] => Products.mk_world B0 S0 T0 ctx out
  | _ :: _ =>
      Products.mk_world (<[g := pending]> B0) ({[g]} ∪ S0) (T0 ++ [g]) ctx out
  end.

(** The draft after the items were merged into it. *)
Definition merged_into (g : pystr) (pending : list AlbumItem.t)
    (ctx : Products.FSMContext) : Products.FSMContext :=
  Products.update_data
    (Products.with_collected_photos
       (Products.get_collected_photos (Products.data ctx)
        ++ map (merged_entry g) pending)) ctx.

(** An album of two photos. *)
Definition album_1337 : pystr := lit "1337".

Definition first_photo : Message.t := photo_message (Some album_1337) 1.

Definition second_photo : Message.t := photo_message (Some album_1337) 2.

Definition entry_of (m : Message.t) : list CollectedPhoto.t :=
  batch saved_as album_1337 [m].

(** A photo message outside any album whose download succeeds. *)
Definition is_standalone_photo (download : Message.t -> Outcome pystr)
    (m : Message.t) : bool :=
  Products.has_photo m
  && bool_decide (Message.media_group_id m = None)
  && match download m with Ok _ => true | Raise _ => false end.

End Spec.


(* ===================================================================== *)
(** * Vocabulary of the further properties                                *)
(* ===================================================================== *)

Module Vocabulary.
Import Py Helpers PyText.

(** The value of a string of decimal digits, read from the left. *)
Definition digits_value (s : pystr) (start : Z) : Z :=
  fold_left (fun a c => (10 * a + digit_val c)%Z) s start.

(** A character of a number as [str] writes it: an ASCII digit or the
    minus sign. *)
Definition plain (c : pychar) : bool := is_digit c || (c =? 45)%N.

(** A decimal numeral of an integer: a minus sign for a negative one, any
    number of leading zeros, and its digits. *)
Definition numeral (zeros : nat) (z : Z) : pystr :=
  (if (z <? 0)%Z then [45%N] else [])
    ++ repeat 48%N zeros ++ digits (Z.abs z).

(** Reading escaped text back: a backslash in front of a special
    character is dropped, everything else stays. *)
Fixpoint unescape (s : pystr) : pystr :=
  match s with
  | [] => []
  | c :: s' =>
      match s' with
      | d :: s'' =>
          if (c =? 92)%N && Spec.is_special d then d :: unescape s''
          else c :: unescape s'
      | [] => [c]
      end
  end.

(** The number of special characters of a text. *)
Definition count_special (s : pystr) : Z :=
  Z.of_nat (length (List.filter Spec.is_special s)).


(** The post that a schedule gets in a sweep, read off the database as
    it is before the sweep: the schedule is due, its product exists and
    is active, its seller exists, and the dispatch succeeds. *)
Definition post_of (send_photo : Z -> bool) (now : datetime)
    (db : Database.Db) (s : PostSchedule.t) : option Scheduler.Post :=
  if Scheduler.is_due now s then
    match Database.get_product (PostSchedule.product_id s) db,
          Database.get_user (PostSchedule.seller_id s) db with
    | Some product, Some _ =>
        if Product.is_active product && send_photo (PostSchedule.id s)
        then Some (PostSchedule.channel_username s,
                   Product.image_path product,
                   format_product_caption
                     (Product.title product) (Product.description product)
                     (Product.price product) (Product.category product)
                     None None (lit "standard") None false)
        else None
    | _, _ => None
    end
  else None.

(** A due schedule whose post time reads as hour 24, in a database of
    its own. *)
Definition hour_24_schedule : PostSchedule.t :=
  PostSchedule.mk 3 10 1 (lit "@shop") 2 (lit "24:00") true None
                  (Some (mk_datetime 738999 9 0 0 0)).

Definition hour_24_db : Database.Db :=
  Database.mk_db (Database.users Spec.two_schedules_db)
                 {[ 1%Z := Spec.sample_product ]} ∅
                 {[ 3%Z := hour_24_schedule ]}.

(** Two collected photos, a stamping that writes to the path it is
    asked to write to, and the album of [Spec.first_photo] waiting for
    its timer in the world of a user who is in the photo step. *)
Definition two_collected_photos : list CollectedPhoto.t :=
  [CollectedPhoto.mk (lit "a.jpg") (lit "large1") None;
   CollectedPhoto.mk (lit "b.jpg") (lit "large2") None].

Definition stamp_to (image_path output_path : pystr) : pystr := output_path.

Definition first_photo_item : AlbumItem.t :=
  AlbumItem.mk Spec.first_photo (lit "media/products/large1.jpg") (lit "large1").

Definition album_pending : Products.World :=
  Spec.album_world ∅ ∅ [] Spec.album_1337 [first_photo_item]
    (Products.mk_ctx (Some Products.waiting_photo)
       (Products.with_collected_photos two_collected_photos
          Products.empty_data))
    [].

(** The number of users who like, or have saved, a product, counted
    over the engagement rows. *)
Definition like_count (db : Database.Db) (product_id : Z) : Z :=
  Z.of_nat (size (filter (fun kv : Z * Z * Engagement.t =>
                            kv.1.2 = product_id
                            /\ Engagement.liked kv.2 = true)
                         (Database.engagements db))).

Definition save_count (db : Database.Db) (product_id : Z) : Z :=
  Z.of_nat (size (filter (fun kv : Z * Z * Engagement.t =>
                            kv.1.2 = product_id
                            /\ Engagement.saved kv.2 = true)
                         (Database.engagements db))).

(** The counters of every product agree with the engagement rows. *)
Definition counts_consistent (db : Database.Db) : Prop :=
  forall product_id product,
    Database.products db !! product_id = Some product ->
    Product.likes_count product = like_count db product_id
    /\ Product.saves_count product = save_count db product_id.

Definition saves_of (db : Database.Db) (product_id : Z) : option Z :=
  Product.saves_count <$> Database.products db !! product_id.

(** Whether the user has saved the product. *)
Definition saved_by (db : Database.Db) (user_id product_id : Z) : bool :=
  default false
    (Engagement.saved <$> Database.engagements db !! (user_id, product_id)).

(** The order counter of a product in a store. *)
Definition orders_of (st : DatabaseMore.Store) (product_id : Z) : option Z :=
  Product.orders_count
    <$> Database.products (DatabaseMore.tables st) !! product_id.

(** A shop with a seller, a product and no order yet. *)
Definition shop_store : DatabaseMore.Store :=
  DatabaseMore.mk_store
    (Database.mk_db
       {[ 1%Z := User.mk None (Some (lit "Shop")) None (Some (lit "@shop")) ]}
       {[ 1%Z := Spec.sample_product ]} ∅ ∅)
    [].

(** The user answers the questions about the category fields, one text
    after the other. *)
Definition answer_all (preview_sent : bool) (answers : list pystr)
    (s : Creation.Session) : Creation.Session :=
  fold_left
    (fun s text =>
       fst (Creation.category_field_received preview_sent
              (Spec.text_message text) s))
    answers s.

(** [d.get(key)] on a dict kept as the list of its items. *)
Definition dict_get {V} (key : pystr) (d : list (pystr * V)) : option V :=
  snd <$> List.find (fun kv => pystr_eqb (fst kv) key) d.

(** The gallery stored with a new product. *)
Definition gallery_of (extra : Creation.Extra) : option (list pystr) :=
  match Creation.extra_fields extra with
  | Some d =>
      match dict_get (lit "_gallery_images") d with
      | Some (Creation.paths_value gallery) => Some gallery
      | _ => None
      end
  | None => None
  end.

(** The session after [state.clear()]. *)
Definition cleared_session : Creation.Session :=
  Creation.mk_session (Products.mk_ctx None Products.empty_data) None None None.

(** A finished draft of a standard product with two images, of which
    the second is the main one. *)
Definition finished_draft : Creation.Session :=
  Creation.mk_session
    (Products.mk_ctx (Some Products.confirming)
       (Products.with_price (PyFinite 2500)
          (Products.with_title (lit "Phone")
             (Products.with_main_image (lit "b_watermarked.jpg") (lit "b.jpg") 1
                [lit "a_watermarked.jpg"; lit "b_watermarked.jpg"]
                [lit "a.jpg"; lit "b.jpg"]
                Products.empty_data))))
    None None (Some [(lit "brand", lit "Nokia")]).

End Vocabulary.

(* ===================================================================== *)
(** * Properties                                                          *)
(* ===================================================================== *)

Import Py Helpers Spec PyText Vocabulary.

(** Takes a membership in a keyboard apart, button by button. *)
Ltac pick_button :=
  repeat match goal with
         | H : _ ∈ [] |- _ => apply not_elem_of_nil in H; contradiction
         | H : _ ∈ _ :: _ |- _ => apply elem_of_cons in H as [H | H]
         | H : _ ∈ _ ++ _ |- _ => apply elem_of_app in H as [H | H]
         | H : Keyboards.callback_button _ _ = Keyboards.url_button _ _ |- _ =>
             discriminate H
         | H : Keyboards.callback_button _ _ = Keyboards.callback_button _ _ |- _ =>
             injection H as -> ->
         | H : ?row = _ :: _ |- _ => is_var row; subst row
         end.


(** ** Integers written and read back *)

Section IntRoundTrip.
Local Open Scope Z_scope.

Lemma digits_tail_digits (s r : pystr) (a : Z) (k : nat) :
  Forall (fun c => is_digit c = true) s ->
  match r with
  | [] => True
  | c :: _ => is_digit c = false /\ (c =? 95)%N = false
  end ->
  digits_tail a k (s ++ r) = (digits_value s a, (k + length s)%nat, r).
Proof.
  intros Hs Hr. revert a k.
  induction Hs as [ | c s Hc Hs IH]; intros a k.
  - simpl. rewrite Nat.add_0_r. destruct r as [ | c r]; [ reflexivity | ].
    destruct Hr as [Hd Hu]. simpl. rewrite Hd, Hu. reflexivity.
  - simpl. rewrite Hc. rewrite IH. unfold digits_value. simpl.
    repeat f_equal. lia.
Qed.

Lemma digitpart_digits (s r : pystr) :
  s <> [] ->
  Forall (fun c => is_digit c = true) s ->
  match r with
  | [] => True
  | c :: _ => is_digit c = false /\ (c =? 95)%N = false
  end ->
  digitpart (s ++ r) = Some (digits_value s 0, length s, r).
Proof.
  intros Hne Hs Hr. destruct s as [ | c s]; [ contradiction | ].
  apply Forall_cons in Hs as [Hc Hs].
  simpl. rewrite Hc. rewrite (digits_tail_digits s r _ 1 Hs Hr).
  unfold digits_value. simpl. reflexivity.
Qed.

Lemma digit_char (d : Z) :
  0 <= d < 10 ->
  is_digit (Z.to_N d + 48)%N = true /\ digit_val (Z.to_N d + 48)%N = d.
Proof.
  intros Hd. unfold is_digit, digit_val. split.
  - apply andb_true_iff. split; apply N.leb_le; lia.
  - lia.
Qed.

Lemma digits_fuel_spec (fuel : nat) (n : Z) (acc : pystr) :
  (1 <= fuel)%nat -> 0 <= n < 10 ^ Z.of_nat fuel ->
  Forall (fun c => is_digit c = true) acc ->
  Forall (fun c => is_digit c = true) (digits_fuel fuel n acc)
  /\ digits_fuel fuel n acc <> []
  /\ digits_value (digits_fuel fuel n acc) 0 = digits_value acc n.
Proof.
  revert n acc. induction fuel as [ | f IH]; intros n acc Hf Hn Hacc; [ lia | ].
  cbn [digits_fuel].
  assert (Hmod : 0 <= n mod 10 < 10) by (apply Z.mod_pos_bound; lia).
  destruct (digit_char (n mod 10) Hmod) as [Hd Hv].
  destruct (Z.ltb_spec n 10) as [Hsmall | Hbig].
  - split; [ constructor; assumption | ]. split; [ discriminate | ].
    unfold digits_value. simpl. rewrite Hv.
    rewrite Z.mod_small by lia. reflexivity.
  - assert (Hf1 : (1 <= f)%nat).
    { destruct f; [ | lia ]. simpl in Hn. lia. }
    assert (Hdiv : 0 <= n / 10 < 10 ^ Z.of_nat f).
    { split; [ apply Z.div_pos; lia | ].
      apply Z.div_lt_upper_bound; [ lia | ].
      rewrite Nat2Z.inj_succ, Z.pow_succ_r in Hn by lia. lia. }
    destruct (IH (n / 10) ((Z.to_N (n mod 10) + 48)%N :: acc) Hf1 Hdiv)
      as (Hall & Hne & Hval); [ constructor; assumption | ].
    split; [ exact Hall | ]. split; [ exact Hne | ].
    rewrite Hval. unfold digits_value. simpl. rewrite Hv.
    f_equal. pose proof (Z.div_mod n 10). lia.
Qed.

Lemma digits_spec (n : Z) :
  0 <= n ->
  Forall (fun c => is_digit c = true) (digits n)
  /\ digits n <> []
  /\ digits_value (digits n) 0 = n.
Proof.
  intros Hn. unfold digits.
  destruct (digits_fuel_spec (S (Z.to_nat (Z.log2 n))) n []) as (Ha & Hne & Hv).
  - lia.
  - split; [ exact Hn | ].
    destruct (Z.eq_dec n 0) as [-> | Hnz]; [ reflexivity | ].
    assert (Hpos : 0 < n) by lia.
    pose proof (Z.log2_spec n Hpos) as [_ Hlt].
    pose proof (Z.log2_nonneg n) as Hlog.
    rewrite Nat2Z.inj_succ, Z2Nat.id by lia.
    eapply Z.lt_le_trans; [ exact Hlt | ].
    apply Z.pow_le_mono_l. lia.
  - constructor.
  - split; [ exact Ha | ]. split; [ exact Hne | exact Hv ].
Qed.

Lemma digit_is_no_space (c : pychar) : is_digit c = true -> isspace c = false.
Proof.
  unfold is_digit. rewrite andb_true_iff, !N.leb_le. intros [Hlo Hhi].
  unfold isspace.
  repeat match goal with
         | |- context [(?a <=? ?b)%N] =>
             destruct (N.leb_spec a b); try lia
         | |- context [(?a =? ?b)%N] =>
             destruct (N.eqb_spec a b); try lia
         end; reflexivity.
Qed.

Lemma lstrip_head (c : pychar) (s : pystr) :
  isspace c = false -> lstrip (c :: s) = c :: s.
Proof. intros H. simpl. rewrite H. reflexivity. Qed.

(** Text that neither starts nor ends with whitespace is its own
    [strip]. *)
Lemma strip_clean (s : pystr) :
  match s with [] => True | c :: _ => isspace c = false end ->
  match rev s with [] => True | c :: _ => isspace c = false end ->
  strip s = s.
Proof.
  intros Hhead Hlast. unfold strip, rstrip.
  assert (Hl : lstrip s = s).
  { destruct s as [ | c s]; [ reflexivity | apply lstrip_head; exact Hhead ]. }
  rewrite Hl.
  assert (Hr : lstrip (rev s) = rev s).
  { destruct (rev s) as [ | c r]; [ reflexivity | apply lstrip_head; exact Hlast ]. }
  rewrite Hr. apply rev_involutive.
Qed.

Lemma strip_no_space (s : pystr) :
  Forall (fun c => isspace c = false) s -> strip s = s.
Proof.
  intros Hs. apply strip_clean.
  - destruct Hs; [ exact I | assumption ].
  - apply Forall_rev in Hs. destruct Hs; [ exact I | assumption ].
Qed.

Lemma digits_no_space (s : pystr) :
  Forall (fun c => is_digit c = true) s -> Forall (fun c => isspace c = false) s.
Proof.
  intros H. eapply Forall_impl; [ exact H | ].
  intros c. apply digit_is_no_space.
Qed.

Lemma sign_of_digit (c : pychar) (s : pystr) :
  is_digit c = true -> sign (c :: s) = (false, c :: s).
Proof.
  unfold is_digit. rewrite andb_true_iff, !N.leb_le. intros [Hlo Hhi].
  unfold sign.
  destruct (N.eqb_spec c 45); [ lia | ].
  destruct (N.eqb_spec c 43); [ lia | ]. reflexivity.
Qed.

Lemma lstrip_by_head (space : pychar -> bool) (c : pychar) (s : pystr) :
  space c = false -> lstrip_by space (c :: s) = c :: s.
Proof. intros H. simpl. rewrite H. reflexivity. Qed.

Lemma strip_by_no_space (space : pychar -> bool) (s : pystr) :
  Forall (fun c => space c = false) s -> strip_by space s = s.
Proof.
  intros Hs. unfold strip_by.
  assert (Hl : lstrip_by space s = s).
  { destruct Hs; [ reflexivity | apply lstrip_by_head; assumption ]. }
  rewrite Hl.
  assert (Hr : lstrip_by space (rev s) = rev s).
  { apply Forall_rev in Hs.
    destruct Hs; [ reflexivity | apply lstrip_by_head; assumption ]. }
  rewrite Hr. apply rev_involutive.
Qed.

Lemma plain_char (c : pychar) :
  plain c = true -> to_ascii_char c = Some c /\ number_space c = false.
Proof.
  unfold plain, is_digit. rewrite orb_true_iff, andb_true_iff, !N.leb_le.
  intros Hc.
  assert (Hrange : (45 <= c <= 57)%N)
    by (destruct Hc as [[Hlo Hhi] | Heq]; [ lia | apply N.eqb_eq in Heq; lia ]).
  split.
  - unfold to_ascii_char.
    destruct (N.ltb_spec c 127) as [_ | Hge]; [ reflexivity | lia ].
  - unfold number_space, isspace.
    repeat match goal with
           | |- context [(?a <=? ?b)%N] =>
               destruct (N.leb_spec a b); try lia
           | |- context [(?a =? ?b)%N] =>
               destruct (N.eqb_spec a b); try lia
           end; reflexivity.
Qed.

(** On such text [int] goes straight to the sign and the digits. *)
Lemma py_int_plain (s : pystr) :
  Forall (fun c => plain c = true) s ->
  py_int s
  = (let '(neg, s1) := sign s in
     match digitpart s1 with
     | Some (v, _, []) => Some (apply_sign neg v)
     | _ => None
     end).
Proof.
  intros Hs. unfold py_int.
  rewrite strip_by_no_space
    by (eapply Forall_impl; [ exact Hs | intros c Hc; apply (plain_char c Hc) ]).
  assert (Hascii : to_ascii s = Some s).
  { induction Hs as [ | c s Hc Hs IH]; [ reflexivity | ].
    simpl. rewrite (proj1 (plain_char c Hc)), IH. reflexivity. }
  rewrite Hascii. reflexivity.
Qed.

Lemma digits_are_plain (s : pystr) :
  Forall (fun c => is_digit c = true) s -> Forall (fun c => plain c = true) s.
Proof.
  intros H. eapply Forall_impl; [ exact H | ].
  intros c Hc. unfold plain. rewrite Hc. reflexivity.
Qed.

Lemma py_int_digits (s : pystr) :
  s <> [] -> Forall (fun c => is_digit c = true) s ->
  py_int s = Some (digits_value s 0)
  /\ py_int (45%N :: s) = Some (- digits_value s 0).
Proof.
  intros Hne Hs.
  pose proof (digitpart_digits s [] Hne Hs I) as Hpart.
  rewrite app_nil_r in Hpart.
  split.
  - rewrite py_int_plain by (apply digits_are_plain; exact Hs).
    destruct s as [ | c s]; [ contradiction | ].
    rewrite sign_of_digit by (apply Forall_cons in Hs as [Hc _]; exact Hc).
    rewrite Hpart. reflexivity.
  - rewrite py_int_plain
      by (constructor; [ reflexivity | apply digits_are_plain; exact Hs ]).
    cbn [sign N.eqb Pos.eqb]. rewrite Hpart. reflexivity.
Qed.

(** An integer written with [str] is read back by [int] as itself. *)
Lemma py_int_py_str (n : Z) : py_int (py_str n) = Some n.
Proof.
  unfold py_str. destruct (Z.ltb_spec n 0) as [Hneg | Hpos].
  - destruct (digits_spec (- n)) as (Ha & Hne & Hv); [ lia | ].
    destruct (py_int_digits _ Hne Ha) as [_ H]. rewrite H, Hv. f_equal. lia.
  - destruct (digits_spec n Hpos) as (Ha & Hne & Hv).
    destruct (py_int_digits _ Hne Ha) as [H _]. rewrite H, Hv. reflexivity.
Qed.

Lemma zeros_are_digits (k : nat) : Forall (fun c => is_digit c = true) (repeat 48%N k).
Proof. induction k; simpl; constructor; [ reflexivity | assumption ]. Qed.

Lemma digits_value_zeros (k : nat) (s : pystr) :
  digits_value (repeat 48%N k ++ s) 0 = digits_value s 0.
Proof.
  unfold digits_value. rewrite fold_left_app. f_equal.
  induction k as [ | k IH]; [ reflexivity | exact IH ].
Qed.

(** A numeral, with a sign and leading zeros or without, is read by
    [int] as its number. *)
Lemma py_int_numeral (zeros : nat) (z : Z) : py_int (numeral zeros z) = Some z.
Proof.
  unfold numeral.
  destruct (digits_spec (Z.abs z)) as (Ha & Hne & Hv); [ lia | ].
  assert (Hds : Forall (fun c => is_digit c = true)
                       (repeat 48%N zeros ++ digits (Z.abs z)))
    by (apply Forall_app; split; [ apply zeros_are_digits | exact Ha ]).
  assert (Hnonempty : repeat 48%N zeros ++ digits (Z.abs z) <> []).
  { intros Heq. apply app_eq_nil in Heq as [_ Heq]. contradiction. }
  destruct (py_int_digits _ Hnonempty Hds) as [Hpos Hneg].
  rewrite digits_value_zeros, Hv in Hpos, Hneg.
  destruct (Z.ltb_spec z 0) as [Hlt | Hge]; cbn [app].
  - rewrite Hneg. f_equal. lia.
  - rewrite Hpos. f_equal. lia.
Qed.

Lemma numeral_is_plain (zeros : nat) (z : Z) :
  Forall (fun c => plain c = true) (numeral zeros z).
Proof.
  unfold numeral. apply Forall_app. split.
  - destruct (z <? 0); constructor; [ reflexivity | constructor ].
  - apply digits_are_plain. apply Forall_app. split.
    + apply zeros_are_digits.
    + apply (digits_spec (Z.abs z)). lia.
Qed.

(** The part after the last separator is the last part of a split. *)
Lemma split_snoc (sep : pychar) (a b : pystr) :
  Forall (fun c => (c =? sep)%N = false) b ->
  exists front, front <> [] /\ split sep (a ++ sep :: b) = front ++ [b].
Proof.
  intros Hb.
  assert (Hsplit_b : split sep b = [b]).
  { induction Hb as [ | c b Hc Hb IH]; [ reflexivity | ].
    simpl. rewrite Hc, IH. reflexivity. }
  induction a as [ | x a IH].
  - exists [[]]. split; [ discriminate | ].
    simpl. rewrite N.eqb_refl, Hsplit_b. reflexivity.
  - destruct IH as (front & Hne & Hfront). simpl. rewrite Hfront.
    destruct (x =? sep)%N.
    + exists ([] :: front). split; [ discriminate | reflexivity ].
    + destruct front as [ | w f]; [ contradiction | ].
      exists ((x :: w) :: f). split; [ discriminate | reflexivity ].
Qed.

Lemma split_last (sep : pychar) (a b : pystr) :
  Forall (fun c => (c =? sep)%N = false) b ->
  last (split sep (a ++ sep :: b)) = Some b.
Proof.
  intros Hb. destruct (split_snoc sep a b Hb) as (front & _ & ->).
  apply last_snoc.
Qed.

Lemma py_str_no_underscore (n : Z) :
  Forall (fun c => (c =? 95)%N = false) (py_str n).
Proof.
  assert (Hd : forall s, Forall (fun c => is_digit c = true) s ->
                         Forall (fun c => (c =? 95)%N = false) s).
  { intros s H. eapply Forall_impl; [ exact H | ].
    intros c. unfold is_digit. rewrite andb_true_iff, !N.leb_le. intros [Hlo Hhi].
    apply N.eqb_neq. lia. }
  unfold py_str. destruct (Z.ltb_spec n 0) as [Hneg | Hpos].
  - constructor; [ reflexivity | ].
    apply Hd. apply (digits_spec (- n)). lia.
  - apply Hd. apply (digits_spec n Hpos).
Qed.

End IntRoundTrip.

(** ** Amounts as they are shown *)

Section Amounts.
Local Open Scope Z_scope.

Lemma digits_fuel_app (fuel : nat) (n : Z) (a b : pystr) :
  digits_fuel fuel n (a ++ b) = digits_fuel fuel n a ++ b.
Proof.
  revert n a. induction fuel as [ | f IH]; intros n a; [ reflexivity | ].
  cbn [digits_fuel]. destruct (n <? 10); [ reflexivity | ].
  rewrite app_comm_cons. apply IH.
Qed.

Lemma digits_fuel_enough (f1 f2 : nat) (n : Z) (acc : pystr) :
  (1 <= f1)%nat -> (1 <= f2)%nat ->
  0 <= n < 10 ^ Z.of_nat f1 -> 0 <= n < 10 ^ Z.of_nat f2 ->
  digits_fuel f1 n acc = digits_fuel f2 n acc.
Proof.
  revert f2 n acc. induction f1 as [ | f1 IH]; intros f2 n acc H1 H2 Hn1 Hn2;
    [ lia | ].
  destruct f2 as [ | f2]; [ lia | ].
  cbn [digits_fuel].
  destruct (Z.ltb_spec n 10) as [Hsmall | Hbig]; [ reflexivity | ].
  assert (Hdiv : forall f, 0 <= n < 10 ^ Z.of_nat (S f) ->
                           (1 <= f)%nat /\ 0 <= n / 10 < 10 ^ Z.of_nat f).
  { intros f Hf. split.
    - destruct f; [ simpl in Hf; lia | lia ].
    - split; [ apply Z.div_pos; lia | ].
      apply Z.div_lt_upper_bound; [ lia | ].
      rewrite Nat2Z.inj_succ, Z.pow_succ_r in Hf by lia. lia. }
  destruct (Hdiv f1 Hn1) as [Hf1 Hd1]. destruct (Hdiv f2 Hn2) as [Hf2 Hd2].
  apply IH; assumption.
Qed.

Lemma log2_fuel (n : Z) : 0 <= n -> n < 10 ^ Z.of_nat (S (Z.to_nat (Z.log2 n))).
Proof.
  intros Hn.
  destruct (Z.eq_dec n 0) as [-> | Hnz]; [ reflexivity | ].
  assert (Hpos : 0 < n) by lia.
  pose proof (Z.log2_spec n Hpos) as [_ Hlt].
  pose proof (Z.log2_nonneg n) as Hlog.
  rewrite Nat2Z.inj_succ, Z2Nat.id by lia.
  eapply Z.lt_le_trans; [ exact Hlt | ].
  apply Z.pow_le_mono_l. lia.
Qed.

(** The digits of a number are those of its tenth followed by its last
    digit. *)
Lemma digits_step (n : Z) :
  0 <= n ->
  digits n
  = (if n <? 10 then [] else digits (n / 10)) ++ [ascii_digit (n mod 10)].
Proof.
  intros Hn. unfold digits at 1. cbn [digits_fuel].
  assert (Hd : (Z.to_N (n mod 10) + 48)%N = ascii_digit (n mod 10)).
  { unfold ascii_digit. pose proof (Z.mod_pos_bound n 10). lia. }
  rewrite Hd.
  destruct (Z.ltb_spec n 10) as [Hsmall | Hbig]; [ reflexivity | ].
  etransitivity; [ exact (digits_fuel_app _ _ [] [_]) | ].
  f_equal.
  unfold digits.
  assert (Hdiv : 0 <= n / 10) by (apply Z.div_pos; lia).
  assert (Hlog : 3 <= Z.log2 n) by (apply Z.log2_le_pow2; simpl; lia).
  apply digits_fuel_enough.
  - lia.
  - lia.
  - split; [ exact Hdiv | ].
    apply Z.div_lt_upper_bound; [ lia | ].
    pose proof (log2_fuel n Hn) as Hf.
    rewrite Nat2Z.inj_succ, Z.pow_succ_r in Hf by lia. exact Hf.
  - split; [ exact Hdiv | apply log2_fuel; exact Hdiv ].
Qed.

Lemma digits_upto_999 (n : Z) : 0 <= n < 1000 -> digits n = upto_999 n.
Proof.
  intros Hn. unfold upto_999.
  rewrite (digits_step n) by lia.
  destruct (Z.ltb_spec n 10) as [H10 | H10];
    [ cbn [app]; rewrite Z.mod_small by lia; reflexivity | ].
  assert (Hd : 0 <= n / 10 < 100)
    by (split; [ apply Z.div_pos; lia | apply Z.div_lt_upper_bound; lia ]).
  rewrite (digits_step (n / 10)) by lia.
  destruct (Z.ltb_spec (n / 10) 10) as [H100 | H100].
  - destruct (Z.ltb_spec n 100) as [_ | Hc];
      [ | exfalso; Z.div_mod_to_equations; lia ].
    cbn [app]. rewrite (Z.mod_small (n / 10)) by lia. reflexivity.
  - destruct (Z.ltb_spec n 100) as [Hc | _];
      [ exfalso; Z.div_mod_to_equations; lia | ].
    assert (Hdd : 0 <= n / 10 / 10 < 10)
      by (split; [ apply Z.div_pos; lia | apply Z.div_lt_upper_bound; lia ]).
    rewrite (digits_step (n / 10 / 10)) by lia.
    destruct (Z.ltb_spec (n / 10 / 10) 10) as [_ | Hc]; [ | lia ].
    cbn [app].
    replace (n / 10 / 10 mod 10) with (n / 100) by (Z.div_mod_to_equations; lia).
    reflexivity.
Qed.

Lemma digits_thousand (n : Z) :
  1000 <= n -> digits n = digits (n / 1000) ++ three_digits (n mod 1000).
Proof.
  intros Hn. unfold three_digits.
  rewrite (digits_step n) by lia.
  destruct (Z.ltb_spec n 10) as [Hc | _]; [ lia | ].
  assert (H1 : 100 <= n / 10) by (apply Z.div_le_lower_bound; lia).
  rewrite (digits_step (n / 10)) by lia.
  destruct (Z.ltb_spec (n / 10) 10) as [Hc | _]; [ lia | ].
  assert (H2 : 10 <= n / 10 / 10) by (apply Z.div_le_lower_bound; lia).
  rewrite (digits_step (n / 10 / 10)) by lia.
  destruct (Z.ltb_spec (n / 10 / 10) 10) as [Hc | _]; [ lia | ].
  rewrite <- !app_assoc. cbn [app].
  replace (n / 10 / 10 / 10) with (n / 1000) by (Z.div_mod_to_equations; lia).
  replace (n / 10 / 10 mod 10) with (n mod 1000 / 100)
    by (Z.div_mod_to_equations; lia).
  replace (n / 10 mod 10) with (n mod 1000 / 10 mod 10)
    by (Z.div_mod_to_equations; lia).
  replace (n mod 10) with (n mod 1000 mod 10) by (Z.div_mod_to_equations; lia).
  reflexivity.
Qed.

Lemma group3_short (ds : pystr) : (length ds <= 3)%nat -> group3 ds = ds.
Proof.
  intros Hlen. unfold group3.
  assert (Hrev : group3_rev (rev ds) = rev ds).
  { rewrite <- length_rev in Hlen.
    destruct (rev ds) as [ | a [ | b [ | c [ | d r]]]]; try reflexivity.
    simpl in Hlen. lia. }
  rewrite Hrev. apply rev_involutive.
Qed.

Lemma group3_snoc3 (a : pystr) (x y z : pychar) :
  a <> [] -> group3 (a ++ [x; y; z]) = group3 a ++ [44%N; x; y; z].
Proof.
  intros Hne. unfold group3. rewrite rev_app_distr. cbn [rev app].
  destruct (rev a) as [ | r rs] eqn:Hrev.
  - exfalso. apply Hne. rewrite <- (rev_involutive a), Hrev. reflexivity.
  - cbn [group3_rev]. cbn [rev]. rewrite <- !app_assoc. reflexivity.
Qed.

Lemma digits_nonempty (n : Z) : 0 <= n -> digits n <> [].
Proof.
  intros Hn. rewrite (digits_step n Hn).
  destruct (if n <? 10 then [] else digits (n / 10)); discriminate.
Qed.

Lemma group3_thousands (groups : nat) (n : Z) :
  0 <= n < 1000 ^ Z.of_nat (S groups) ->
  group3 (digits n) = thousands groups n.
Proof.
  revert n. induction groups as [ | g IH]; intros n Hn.
  - cbn [thousands]. rewrite digits_upto_999 by (simpl in Hn; lia).
    apply group3_short. unfold upto_999.
    destruct (n <? 10); [ simpl; lia | ]. destruct (n <? 100); simpl; lia.
  - cbn [thousands]. destruct (Z.ltb_spec n 1000) as [Hsmall | Hbig].
    + rewrite digits_upto_999 by lia.
      apply group3_short. unfold upto_999.
      destruct (n <? 10); [ simpl; lia | ]. destruct (n <? 100); simpl; lia.
    + rewrite digits_thousand by lia. unfold three_digits.
      assert (Hdiv : 0 <= n / 1000 < 1000 ^ Z.of_nat (S g)).
      { split; [ apply Z.div_pos; lia | ].
        apply Z.div_lt_upper_bound; [ lia | ].
        rewrite (Nat2Z.inj_succ (S g)), Z.pow_succ_r in Hn by lia. lia. }
      rewrite group3_snoc3 by (apply digits_nonempty; lia).
      rewrite (IH _ Hdiv). reflexivity.
Qed.

Lemma group3_digits (n : Z) : 0 <= n -> group3 (digits n) = with_thousands n.
Proof.
  intros Hn. unfold with_thousands. apply group3_thousands.
  split; [ exact Hn | ].
  destruct (Z.eq_dec n 0) as [-> | Hnz]; [ reflexivity | ].
  assert (Hpos : 0 < n) by lia.
  pose proof (Z.log2_spec n Hpos) as [_ Hlt].
  pose proof (Z.log2_nonneg n) as Hlog.
  rewrite Nat2Z.inj_succ, Z2Nat.id by lia.
  eapply Z.lt_le_trans; [ exact Hlt | ].
  apply Z.pow_le_mono_l. lia.
Qed.

Lemma round_half_even_nonneg_any (q : Q) : (0 <= q)%Q -> 0 <= round_half_even q.
Proof.
  intros Hq. unfold round_half_even.
  assert (Hn : 0 <= Qnum q).
  { unfold Qle in Hq. simpl in Hq. lia. }
  assert (Hfl : 0 <= Qnum q / Z.pos (Qden q)) by (apply Z.div_pos; lia).
  destruct (_ <? _); [ exact Hfl | ].
  destruct (_ <? _); [ lia | ].
  destruct (Z.even _); lia.
Qed.

(** [format_price] shows a price as the captions are to show it. *)
Lemma format_price_shown (p : pyfloat) : format_price p = shown_price p.
Proof.
  unfold format_price, shown_price. f_equal.
  destruct p as [q | neg | ]; [ | reflexivity | reflexivity ].
  unfold format_2f, shown_amount.
  destruct (Qle_bool 0 q) eqn:Hsign; cbn [negb].
  - set (cents := round_half_even (q * 100)).
    assert (Hc : 0 <= cents).
    { apply round_half_even_nonneg_any. apply Qle_bool_iff in Hsign.
      apply Qmult_le_0_compat; [ exact Hsign | discriminate ]. }
    assert (Hd : 0 <= cents / 100) by (apply Z.div_pos; lia).
    rewrite group3_digits by exact Hd.
    cbn [app]. do 3 f_equal. unfold two_digits, ascii_digit.
    pose proof (Z.mod_pos_bound cents 100 ltac:(lia)).
    repeat f_equal; Z.div_mod_to_equations; lia.
  - set (cents := round_half_even (- q * 100)).
    assert (Hc : 0 <= cents).
    { apply round_half_even_nonneg_any.
      apply Qmult_le_0_compat; [ | discriminate ].
      destruct (Qlt_le_dec q 0) as [Hlt | Hge].
      - apply Qlt_le_weak. apply (Qopp_lt_compat q 0) in Hlt. exact Hlt.
      - apply Qle_bool_iff in Hge. congruence. }
    assert (Hd : 0 <= cents / 100) by (apply Z.div_pos; lia).
    rewrite group3_digits by exact Hd.
    cbn [app]. do 4 f_equal. unfold two_digits, ascii_digit.
    pose proof (Z.mod_pos_bound cents 100 ltac:(lia)).
    repeat f_equal; Z.div_mod_to_equations; lia.
Qed.

End Amounts.

(** ** The model of Python's strings and numbers on known values *)

Example strip_keeps_inner_space :
  strip (lit "  iPhone 15  ") = lit "iPhone 15".
Proof. reflexivity. Qed.

Example split_keeps_empty_parts :
  split 95%N (lit "select_main_") = [lit "select"; lit "main"; []].
Proof. reflexivity. Qed.

Example py_int_values :
  py_int (lit "09") = Some 9%Z /\ py_int (lit " -12 ") = Some (-12)%Z
  /\ py_int (lit "1_000") = Some 1000%Z /\ py_int (lit "") = None
  /\ py_int (lit "1__0") = None /\ py_int (lit "3.5") = None
  /\ py_int [0x661; 0x660]%N = Some 10%Z        (* ARABIC-INDIC DIGITS *)
  /\ py_int [0xA0; 53; 0x3000]%N = Some 5%Z     (* between two Unicode spaces *)
  /\ py_int [0x1C; 53]%N = None.  (* INFORMATION SEPARATOR FOUR is not skipped *)
Proof. repeat split; reflexivity. Qed.

Example py_float_values :
  py_float (lit "2500") = Some (PyFinite (inject_Z 2500))
  /\ py_float (lit " 1e3 ") = Some (PyFinite (inject_Z 1000))
  /\ py_float (lit "-1.5E-2")
     = Some (PyFinite (Qmake (-1080863910568919) 72057594037927936))
  /\ py_float (lit "0.1")
     = Some (PyFinite (Qmake 3602879701896397 36028797018963968))
  /\ py_float (lit "1e400") = Some (PyInf false)
  /\ py_float (lit "1e-400") = Some (PyFinite 0)
  /\ py_float [0x663; 46; 0x665]%N = Some (PyFinite (Qmake 7 2))
  /\ py_float (lit ".5") = Some (PyFinite (Qmake 1 2))
  /\ py_float (lit "1.") = Some (PyFinite (inject_Z 1))
  /\ py_float (lit "-Infinity") = Some (PyInf true)
  /\ py_float (lit "NaN") = Some PyNaN
  /\ py_float (lit "1e") = None /\ py_float (lit ".") = None
  /\ py_float (lit "abc") = None /\ py_float (lit "") = None.
Proof. repeat split; vm_compute; reflexivity. Qed.

Example format_price_values :
  format_price (PyFinite (inject_Z 2500)) = lit "2,500.00 Birr"
  /\ format_price (PyFinite (Qmake 1234567891 1000)) = lit "1,234,567.89 Birr"
  /\ format_price (PyFinite (Qmake 1 8)) = lit "0.12 Birr"
  /\ format_price PyNaN = lit "nan Birr".
Proof. repeat split; vm_compute; reflexivity. Qed.

Example escape_markdown_values :
  escape_markdown (Some (lit "a_b*c (d) - e!")) = lit "a\_b\*c (d) - e\!"
  /\ escape_markdown None = [].
Proof. repeat split; vm_compute; reflexivity. Qed.

Example splitext_values :
  Products.splitext (lit "media/products/7_1_abc.jpg")
  = (lit "media/products/7_1_abc", lit ".jpg")
  /\ Products.splitext (lit "media.d/photo") = (lit "media.d/photo", [])
  /\ Products.splitext (lit ".hidden") = (lit ".hidden", []).
Proof. repeat split; reflexivity. Qed.

(** ** Next fire time *)

Section NextFire.

Local Open Scope Z_scope.

Lemma replace_time_in_range (d : datetime) (h m : Z) :
  0 <= h < 24 -> 0 <= m < 60 ->
  replace_time d h m = Ok (mk_datetime (ordinal d) h m 0 0).
Proof.
  intros Hh Hm. unfold replace_time, fits_c_int.
  replace (-2147483648 <=? h) with true by (symmetry; apply Z.leb_le; lia).
  replace (h <=? 2147483647) with true by (symmetry; apply Z.leb_le; lia).
  replace (-2147483648 <=? m) with true by (symmetry; apply Z.leb_le; lia).
  replace (m <=? 2147483647) with true by (symmetry; apply Z.leb_le; lia).
  cbn [andb negb].
  replace (0 <=? h) with true by (symmetry; apply Z.leb_le; lia).
  replace (h <? 24) with true by (symmetry; apply Z.ltb_lt; lia).
  replace (0 <=? m) with true by (symmetry; apply Z.leb_le; lia).
  replace (m <? 60) with true by (symmetry; apply Z.ltb_lt; lia).
  reflexivity.
Qed.

Lemma add_days_in_range (d : datetime) (n : Z) :
  1 <= ordinal d + n <= MAXORDINAL ->
  add_days d n
  = Ok (mk_datetime (ordinal d + n) (hour d) (minute d) (second d)
                    (microsecond d)).
Proof.
  intros H. unfold add_days.
  replace (1 <=? ordinal d + n) with true by (symmetry; apply Z.leb_le; lia).
  replace (ordinal d + n <=? MAXORDINAL) with true
    by (symmetry; apply Z.leb_le; lia).
  reflexivity.
Qed.

Lemma calculate_next_post_time_value
    (now : datetime) (interval_days : Z) (post_time_str : pystr) (h m : Z) :
  valid_datetime now ->
  0 <= interval_days ->
  parse_post_time post_time_str = (h, m) ->
  0 <= h < 24 -> 0 <= m < 60 ->
  ordinal now + 1 + interval_days <= MAXORDINAL ->
  calculate_next_post_time now interval_days post_time_str
  = Ok (mk_datetime (ordinal now + roll now h m + interval_days) h m 0 0).
Proof.
  intros (Ho & _) Hi Hp Hh Hm Hmax.
  unfold calculate_next_post_time. rewrite Hp.
  rewrite replace_time_in_range by assumption.
  unfold roll, datetime_le.
  destruct (timestamp_us _ <=? timestamp_us now).
  - rewrite add_days_in_range by (simpl; lia). simpl.
    rewrite add_days_in_range by (simpl; lia). simpl. reflexivity.
  - rewrite add_days_in_range by (simpl; lia). simpl.
    do 2 f_equal. lia.
Qed.

Lemma roll_is_strictly_later (now : datetime) (h m : Z) :
  valid_datetime now -> 0 <= h < 24 -> 0 <= m < 60 ->
  timestamp_us now
  < timestamp_us (mk_datetime (ordinal now + roll now h m) h m 0 0).
Proof.
  intros (Ho & Hh' & Hm' & Hs' & Hu') Hh Hm. unfold roll.
  destruct (Z.leb_spec
              (timestamp_us (mk_datetime (ordinal now) h m 0 0))
              (timestamp_us now)) as [Hle | Hlt];
    unfold timestamp_us in *; simpl in *; lia.
Qed.

(** Every post time written as HH:MM is read back as its hour and
    minute; a text that is no post time is read as 09:00. *)
Lemma hhmm_is_parsed (h m : Z) :
  0 <= h < 24 -> 0 <= m < 60 -> parse_post_time (hhmm h m) = (h, m).
Proof.
  intros Hh Hm.
  assert (Hall :
    forallb (fun a =>
      forallb (fun b =>
        bool_decide (parse_post_time (hhmm (Z.of_nat a) (Z.of_nat b))
                     = (Z.of_nat a, Z.of_nat b)))
        (seq 0 60)) (seq 0 24) = true) by (vm_compute; reflexivity).
  rewrite forallb_forall in Hall.
  specialize (Hall (Z.to_nat h)). rewrite forallb_forall in Hall.
  specialize (Hall ltac:(apply in_seq; lia) (Z.to_nat m) ltac:(apply in_seq; lia)).
  apply bool_decide_eq_true in Hall.
  rewrite !Z2Nat.id in Hall by lia. exact Hall.
Qed.

Example unreadable_post_time_is_nine :
  parse_post_time (lit "morning") = (9, 0)
  /\ parse_post_time (lit "09:00:00") = (9, 0)
  /\ parse_post_time (lit "9") = (9, 0).
Proof. repeat split; reflexivity. Qed.

(** A post time in other digits, here ARABIC-INDIC, or with blanks
    around its numbers is read as well. *)
Example post_time_in_other_digits :
  parse_post_time [0x661; 0x660; 58; 0x663; 0x660]%N = (10, 30)
  /\ parse_post_time (lit " 7 : 05 ") = (7, 5).
Proof. split; reflexivity. Qed.

(** For interval 2 and "09:00", at 10:00 of any day D the next post is
    at 09:00 of day D+3. *)
Lemma next_post_two_days_at_nine (D sec us : Z) :
  1 <= D -> D + 3 <= MAXORDINAL -> 0 <= sec < 60 -> 0 <= us < 1000000 ->
  calculate_next_post_time (mk_datetime D 10 0 sec us) 2 (lit "09:00")
  = Ok (mk_datetime (D + 3) 9 0 0 0).
Proof.
  intros HD Hmax Hs Hu.
  rewrite (calculate_next_post_time_value _ 2 _ 9 0);
    [ | repeat split; simpl; lia | lia | reflexivity | lia | lia | simpl; lia ].
  unfold roll, timestamp_us. simpl ordinal. simpl hour. simpl minute.
  simpl second. simpl microsecond.
  destruct (Z.leb_spec ((((D * 24 + 9) * 60 + 0) * 60 + 0) * 1000000 + 0)
                       ((((D * 24 + 10) * 60 + 0) * 60 + sec) * 1000000 + us));
    [ do 2 f_equal; lia | lia ].
Qed.

(** C3. For every interval of at least one day, every post time
    hour:minute, written as the scheduler writes it (two digits, a colon,
    two digits), and every current time, [calculate_next_post_time]
    returns the post time on today's date, moved to tomorrow when today's
    occurrence is not strictly after the current time, plus the interval
    in days; the result is strictly after the current time. (The sum must
    stay within the dates a [datetime] can hold.) *)
Theorem calculate_next_post_time_spec
    (now : datetime) (interval_days h m : Z) :
  valid_datetime now ->
  1 <= interval_days ->
  0 <= h < 24 -> 0 <= m < 60 ->
  ordinal now + 1 + interval_days <= MAXORDINAL ->
  exists next,
    calculate_next_post_time now interval_days (hhmm h m) = Ok next
    /\ next = mk_datetime (ordinal now + roll now h m + interval_days) h m 0 0
    /\ (roll now h m = 1 <->
          timestamp_us (mk_datetime (ordinal now) h m 0 0) <= timestamp_us now)
    /\ (roll now h m = 0 <->
          timestamp_us now < timestamp_us (mk_datetime (ordinal now) h m 0 0))
    /\ timestamp_us now < timestamp_us next.
Proof.
  intros Hv Hi Hh Hm Hmax.
  eexists. split.
  { apply (calculate_next_post_time_value now interval_days (hhmm h m) h m);
      first [ assumption | lia | apply hhmm_is_parsed; assumption ]. }
  split; [ reflexivity | ].
  pose proof (roll_is_strictly_later now h m Hv Hh Hm) as Hlater.
  unfold roll in *.
  destruct (Z.leb_spec (timestamp_us (mk_datetime (ordinal now) h m 0 0))
                       (timestamp_us now)) as [Hle | Hlt].
  - repeat split; try lia; try (intros; lia).
    unfold timestamp_us in *; simpl in *; lia.
  - repeat split; try lia; try (intros; lia).
    unfold timestamp_us in *; simpl in *; lia.
Qed.

(** The example of the specification: interval 2, "09:00", evaluated at
    10:00 of day 739000, gives 09:00 of day 739003. And a post time that
    is still to come: interval 1, "18:30", evaluated at the same time,
    gives 18:30 of day 739001. *)
Lemma calculate_next_post_time_spec_witness :
  (exists next,
     calculate_next_post_time (mk_datetime 739000 10 0 0 0) 2 (lit "09:00")
     = Ok next
     /\ next = mk_datetime 739003 9 0 0 0
     /\ timestamp_us (mk_datetime 739000 10 0 0 0) < timestamp_us next)
  /\ (exists next,
        calculate_next_post_time (mk_datetime 739000 10 0 0 0) 1 (lit "18:30")
        = Ok next
        /\ next = mk_datetime 739001 18 30 0 0
        /\ timestamp_us (mk_datetime 739000 10 0 0 0) < timestamp_us next).
Proof.
  split.
  - destruct (calculate_next_post_time_spec
                (mk_datetime 739000 10 0 0 0) 2 9 0)
      as (next & Hcalc & Hnext & _ & _ & Hlater).
    + unfold valid_datetime, MAXORDINAL. simpl. lia.
    + lia.
    + lia.
    + lia.
    + unfold MAXORDINAL. simpl. lia.
    + exists next. split; [ exact Hcalc | ].
      split; [ exact Hnext | exact Hlater ].
  - destruct (calculate_next_post_time_spec
                (mk_datetime 739000 10 0 0 0) 1 18 30)
      as (next & Hcalc & Hnext & _ & _ & Hlater).
    + unfold valid_datetime, MAXORDINAL. simpl. lia.
    + lia.
    + lia.
    + lia.
    + unfold MAXORDINAL. simpl. lia.
    + exists next. split; [ exact Hcalc | ].
      split; [ exact Hnext | exact Hlater ].
Defined.

End NextFire.

(** ** Likes *)

Section Likes.
Import Database.
Local Open Scope Z_scope.

(** What one toggle does to a database in which the product exists. *)
Lemma toggle_like_found (user_id product_id : Z) (db : Db) (p : Product.t) :
  products db !! product_id = Some p ->
  let now_liked := negb (liked_by db user_id product_id) in
  let p' :=
    Product.set_likes_count
      (if now_liked then Product.likes_count p + 1
       else Z.max 0 (Product.likes_count p - 1)) p in
  exists db',
    toggle_like user_id product_id db = (Ok (now_liked, p'), db')
    /\ products db' = <[product_id := p']> (products db)
    /\ liked_by db' user_id product_id = now_liked.
Proof.
  intros Hp. unfold toggle_like, get_or_create_engagement, liked_by.
  destruct (engagements db !! (user_id, product_id)) as [[l s] | ] eqn:He;
    simpl; rewrite Hp; simpl.
  - eexists. split; [ destruct l; reflexivity | ].
    split; [ destruct l; reflexivity | ].
    unfold set_products, set_engagements. cbn [engagements].
    rewrite lookup_insert_eq. reflexivity.
  - eexists. split; [ reflexivity | ].
    split; [ reflexivity | ].
    unfold set_products, set_engagements. cbn [engagements].
    rewrite lookup_insert_eq. reflexivity.
Qed.

(** C9, as the code has it. For every product and user, when the
    product's [likes_count] is at least 1 if the user currently likes it,
    and at least 0 otherwise, toggling like twice in succession returns
    [likes_count] to its original value and the user's liked boolean to
    its original state; each toggle moves the counter by one. *)
Theorem toggle_like_twice_restores
    (user_id product_id : Z) (db : Db) (p : Product.t) :
  products db !! product_id = Some p ->
  (if liked_by db user_id product_id then 1 <= Product.likes_count p
   else 0 <= Product.likes_count p) ->
  exists p1 db1 db2,
    toggle_like user_id product_id db
    = (Ok (negb (liked_by db user_id product_id), p1), db1)
    /\ Product.likes_count p1
       = (if liked_by db user_id product_id then Product.likes_count p - 1
          else Product.likes_count p + 1)
    /\ toggle_like user_id product_id db1
       = (Ok (liked_by db user_id product_id, p), db2)
    /\ likes_of db2 product_id = likes_of db product_id
    /\ liked_by db2 user_id product_id = liked_by db user_id product_id
    /\ products db2 = products db.
Proof.
  intros Hp Hc.
  destruct (toggle_like_found user_id product_id db p Hp)
    as (db1 & H1 & Hprod1 & Hliked1).
  assert (Hp1 : products db1 !! product_id
                = Some (Product.set_likes_count
                          (if negb (liked_by db user_id product_id)
                           then Product.likes_count p + 1
                           else Z.max 0 (Product.likes_count p - 1)) p))
    by (rewrite Hprod1; apply lookup_insert_eq).
  destruct (toggle_like_found user_id product_id db1 _ Hp1)
    as (db2 & H2 & Hprod2 & Hliked2).
  rewrite Hliked1 in H2, Hliked2, Hprod2.
  rewrite negb_involutive in H2, Hliked2, Hprod2.
  assert (Hback :
    Product.set_likes_count
      (if liked_by db user_id product_id
       then Product.likes_count
              (Product.set_likes_count
                 (if negb (liked_by db user_id product_id)
                  then Product.likes_count p + 1
                  else Z.max 0 (Product.likes_count p - 1)) p) + 1
       else Z.max 0
              (Product.likes_count
                 (Product.set_likes_count
                    (if negb (liked_by db user_id product_id)
                     then Product.likes_count p + 1
                     else Z.max 0 (Product.likes_count p - 1)) p) - 1))
      (Product.set_likes_count
         (if negb (liked_by db user_id product_id)
          then Product.likes_count p + 1
          else Z.max 0 (Product.likes_count p - 1)) p) = p).
  { destruct (liked_by db user_id product_id); destruct p;
      unfold Product.set_likes_count; simpl in *; f_equal; lia. }
  rewrite Hback in H2, Hprod2.
  eexists; exists db1, db2. split; [ exact H1 | ].
  split; [ destruct (liked_by db user_id product_id); destruct p; simpl in *; lia | ].
  split; [ exact H2 | ].
  assert (Hprods : products db2 = products db).
  { rewrite Hprod2, Hprod1. rewrite insert_insert_eq. apply insert_id. exact Hp. }
  split; [ unfold likes_of; rewrite Hprods; reflexivity | ].
  split; [ exact Hliked2 | exact Hprods ].
Qed.

(** A product with no like yet: two toggles by user 7 bring the counter
    back to 0 and leave the product not liked. *)
Lemma toggle_like_twice_restores_witness :
  exists p1 db1 db2,
    toggle_like 7 1 one_product_db = (Ok (true, p1), db1)
    /\ Product.likes_count p1 = 1
    /\ toggle_like 7 1 db1 = (Ok (false, sample_product), db2)
    /\ likes_of db2 1 = Some 0
    /\ liked_by db2 7 1 = false.
Proof.
  destruct (toggle_like_twice_restores 7 1 one_product_db sample_product)
    as (p1 & db1 & db2 & H1 & Hc & H2 & Hl & Hb & _).
  - reflexivity.
  - vm_compute. discriminate.
  - exists p1, db1, db2. repeat split; assumption.
Defined.

(** C9 as stated fails: in a database this module's own operations
    reach (a like, then [update_product_engagement] with -1), the user
    likes the product and the counter is 0; two toggles leave the counter
    at 1. *)
Lemma toggle_like_twice_counterexample :
  ~ (forall (user_id product_id : Z) (db db1 db2 : Db) r1 r2,
        toggle_like user_id product_id db = (Ok r1, db1) ->
        toggle_like user_id product_id db1 = (Ok r2, db2) ->
        likes_of db2 product_id = likes_of db product_id
        /\ liked_by db2 user_id product_id = liked_by db user_id product_id).
Proof.
  intros H.
  destruct (H 7 1 liked_with_zero_count
              (snd (toggle_like 7 1 liked_with_zero_count))
              (snd (toggle_like 7 1 (snd (toggle_like 7 1 liked_with_zero_count))))
              (false, Product.set_likes_count 0 sample_product)
              (true, Product.set_likes_count 1 sample_product)) as [Hcount _].
  - vm_compute. reflexivity.
  - vm_compute. reflexivity.
  - vm_compute in Hcount. discriminate Hcount.
Qed.

End Likes.

(** ** Captions *)

Section Captions.

Lemma replace_app (c : pychar) (new a b : pystr) :
  replace c new (a ++ b) = replace c new a ++ replace c new b.
Proof. unfold replace. apply flat_map_app. Qed.

Lemma escape_all_app (chars : list pychar) (a b : pystr) :
  fold_left (fun acc char => replace char [92%N; char] acc) chars (a ++ b)
  = fold_left (fun acc char => replace char [92%N; char] acc) chars a
    ++ fold_left (fun acc char => replace char [92%N; char] acc) chars b.
Proof.
  revert a b. induction chars as [ | ch chars IH]; intros a b; simpl.
  - reflexivity.
  - rewrite replace_app. apply IH.
Qed.

(** The characters that the source escapes are the special ones. *)
Lemma special_chars_are_special (c : pychar) :
  is_special c = existsb (N.eqb c) special_chars.
Proof. reflexivity. Qed.

Lemma escape_one (c : pychar) :
  escape_markdown (Some [c]) = escape_char c.
Proof.
  unfold escape_char. rewrite special_chars_are_special.
  unfold escape_markdown, special_chars, replace.
  cbn -[N.eqb].
  repeat match goal with
         | |- context [(c =? ?k)%N] =>
             destruct (N.eqb_spec c k) as [-> | _];
             [ vm_compute; reflexivity | cbn -[N.eqb] ]
         end.
  reflexivity.
Qed.

(** The successive replacements of [escape_markdown] amount to escaping
    each character on its own: no replacement touches what an earlier one
    inserted. *)
Lemma escape_markdown_chars (text : option pystr) :
  escape_markdown text = escaped text.
Proof.
  destruct text as [t | ]; [ | reflexivity ].
  unfold escaped. simpl default.
  induction t as [ | c t IH].
  - reflexivity.
  - change (c :: t) with ([c] ++ t).
    unfold escape_markdown in *. rewrite escape_all_app.
    rewrite IH. rewrite flat_map_app. f_equal.
    pose proof (escape_one c) as H1. unfold escape_markdown in H1.
    rewrite H1. simpl. rewrite app_nil_r. reflexivity.
Qed.

Lemma float_truthy_not_zero (p : pyfloat) : float_truthy p = negb (is_zero p).
Proof. destruct p; reflexivity. Qed.

(** C8, as the code has it. For every custom-description product, the
    caption rendered for a channel is the escaped description and nothing
    else, whatever the title and the price are; rendered elsewhere it is
    the title header when the title is a string that is not empty, the
    price line when the price is a number other than zero, the escaped
    description, and the seller footer when a seller name or phone is a
    string that is not empty, in this order. *)
Theorem custom_description_caption
    (title description : option pystr) (price : option pyfloat)
    (category seller_name seller_phone : option pystr)
    (category_fields : option (list (pystr * pystr))) :
  format_product_caption title description price category seller_name
    seller_phone (lit "custom_description") category_fields true
  = escaped description
  /\ format_product_caption title description price category seller_name
       seller_phone (lit "custom_description") category_fields false
     = title_header title ++ price_line price ++ escaped description
       ++ seller_footer seller_name seller_phone.
Proof.
  unfold format_product_caption.
  replace (pystr_eqb (lit "custom_description") (lit "custom_description"))
    with true by (vm_compute; reflexivity).
  split; [ apply escape_markdown_chars | ].
  unfold title_header, price_line, seller_footer, seller_line, seller_lines,
    price_truthy, Helpers.price_text.
  rewrite !escape_markdown_chars.
  destruct title as [[ | c title] | ];
    destruct price as [p | ];
    try (rewrite float_truthy_not_zero, format_price_shown,
           escape_markdown_chars; destruct (is_zero p));
    destruct seller_name as [[ | n seller_name] | ];
    destruct seller_phone as [[ | f seller_phone] | ];
    cbn [str_truthy orb negb];
    rewrite ?app_nil_r, <- ?app_assoc; reflexivity.
Qed.

(** C8 as stated fails for a price of zero: it is present, and the
    caption shown outside a channel is the one of a product without a
    price, in which the price does not occur. *)
Lemma zero_price_is_left_out :
  ~ (forall (title description : option pystr) (p : pyfloat),
        occurs_in (escaped (Some (shown_price p)))
          (format_product_caption title description (Some p) None None None
             (lit "custom_description") None false) = true).
Proof.
  intros H.
  specialize (H (Some (lit "Phone")) (Some (lit "As new")) (PyFinite 0)).
  vm_compute in H. discriminate H.
Qed.

End Captions.

(** ** The scheduler sweep *)

Section SweepProperties.
Import Database Scheduler.

Variable send_photo : Z -> bool.
Variable clock : Z -> datetime.
Variable now : datetime.

Lemma update_schedule_post_time_lookup
    (i j : Z) (last next : option datetime) (db : Db) :
  schedules (snd (update_schedule_post_time i last next db)) !! j
  = if bool_decide (i = j)
    then PostSchedule.set_post_times last next <$> schedules db !! i
    else schedules db !! j.
Proof.
  unfold update_schedule_post_time.
  destruct (schedules db !! i) as [row | ] eqn:Hrow; simpl.
  - case_bool_decide as Hij.
    + subst j. rewrite lookup_insert_eq. reflexivity.
    + rewrite lookup_insert_ne by assumption. reflexivity.
  - case_bool_decide as Hij; [ subst j; rewrite Hrow | ]; reflexivity.
Qed.

Lemma update_schedule_post_time_frame
    (i : Z) (last next : option datetime) (db : Db) :
  users (snd (update_schedule_post_time i last next db)) = users db
  /\ products (snd (update_schedule_post_time i last next db)) = products db.
Proof.
  unfold update_schedule_post_time.
  destruct (schedules db !! i); simpl; split; reflexivity.
Qed.

(** Closes the cases in which a turn of the loop leaves the database as
    it was. *)
Ltac untouched := repeat split; intros; case_bool_decide; subst; reflexivity.

(** One turn of the loop leaves users and products alone, touches no
    other schedule, and changes the schedule's own row exactly when
    [advances] says so. *)
Lemma step_effect (db : Db) (sent : list Post) (s : PostSchedule.t) :
  let db' := fst (step send_photo clock now (db, sent) s) in
  users db' = users db
  /\ products db' = products db
  /\ forall j,
       schedules db' !! j
       = if bool_decide (PostSchedule.id s = j)
         then swept_row now (advances send_photo clock now s db)
                        (schedules db !! PostSchedule.id s)
         else schedules db !! j.
Proof.
  unfold step, advances, post_one.
  destruct (is_due now s); simpl;
    [ | untouched ].
  destruct (get_product (PostSchedule.product_id s) db) as [product | ]; simpl;
    [ | untouched ].
  destruct (Product.is_active product); simpl;
    [ | destruct (get_user (PostSchedule.seller_id s) db);
        untouched ].
  destruct (get_user (PostSchedule.seller_id s) db) as [seller | ]; simpl;
    [ | untouched ].
  destruct (send_photo (PostSchedule.id s)); simpl;
    [ | untouched ].
  destruct (calculate_next_post_time _ _ _) as [next | e]; simpl;
    [ | untouched ].
  pose proof (update_schedule_post_time_frame
                (PostSchedule.id s) (Some now) (Some next) db) as [Hu Hp].
  pose proof (update_schedule_post_time_lookup
                (PostSchedule.id s)) as Hl.
  specialize (Hl) with (last := Some now) (next := Some next) (db := db).
  destruct (update_schedule_post_time _ _ _ db) as [row db']. simpl in *.
  repeat split; first [ assumption | intros j; apply Hl ].
Qed.

Lemma advances_frame (s : PostSchedule.t) (db db' : Db) :
  users db' = users db -> products db' = products db ->
  advances send_photo clock now s db' = advances send_photo clock now s db.
Proof.
  intros Hu Hp. unfold advances, get_product, get_user. rewrite Hu, Hp.
  reflexivity.
Qed.

(** The whole sweep, schedule by schedule. *)
Lemma sweep_effect (l : list PostSchedule.t) (db : Db) (sent : list Post) :
  NoDup (map PostSchedule.id l) ->
  let db' := fst (fold_left (step send_photo clock now) l (db, sent)) in
  users db' = users db
  /\ products db' = products db
  /\ (forall j, j ∉ map PostSchedule.id l ->
                schedules db' !! j = schedules db !! j)
  /\ (forall s, s ∈ l ->
                schedules db' !! PostSchedule.id s
                = swept_row now (advances send_photo clock now s db)
                            (schedules db !! PostSchedule.id s)).
Proof.
  revert db sent. induction l as [ | s0 l IH]; intros db sent Hnd; cbn [fold_left fst].
  - repeat split; try reflexivity. intros s Hs. inversion Hs.
  - simpl in Hnd. apply NoDup_cons in Hnd as [Hnotin Hnd].
    destruct (step_effect db sent s0) as (Hu0 & Hp0 & Hs0).
    destruct (step send_photo clock now (db, sent) s0) as [db0 sent0] eqn:Hstep.
    simpl in Hu0, Hp0, Hs0.
    destruct (IH db0 sent0 Hnd) as (Hu & Hp & Hout & Hin).
    split; [ congruence | ]. split; [ congruence | ]. split.
    + intros j Hj. rewrite Hout by (intros Hj'; apply Hj; right; exact Hj').
      rewrite Hs0. case_bool_decide as Heq; [ | reflexivity ].
      exfalso. apply Hj. rewrite <- Heq. simpl. left.
    + intros s Hs. apply elem_of_cons in Hs as [-> | Hs].
      * rewrite Hout by exact Hnotin. rewrite Hs0.
        rewrite bool_decide_eq_true_2 by reflexivity. reflexivity.
      * rewrite Hin by exact Hs.
        rewrite (advances_frame s db db0) by assumption.
        rewrite Hs0. case_bool_decide as Heq; [ | reflexivity ].
        exfalso. apply Hnotin. rewrite Heq.
        apply list_elem_of_fmap. exists s. split; [ reflexivity | exact Hs ].
Qed.


End SweepProperties.


(** ** Main image selection *)

Section MainImage.
Import Products.
Local Open Scope Z_scope.

(** The index that the handler reads from the data of an image button
    is the index the button was made for. *)
Lemma selected_index_read (i : Z) :
  selected_index (lit "select_main_" ++ py_str i) = Some i.
Proof.
  unfold selected_index.
  change (lit "select_main_" ++ py_str i)
    with (lit "select_main" ++ 95%N :: py_str i).
  rewrite split_last by apply py_str_no_underscore.
  apply py_int_py_str.
Qed.

Lemma is_custom_description_iff (d : Data) :
  is_custom_description d = true
  <-> product_type d = Some (lit "custom_description").
Proof.
  unfold is_custom_description, pystr_eqb.
  rewrite bool_decide_eq_true.
  destruct (product_type d) as [t | ]; simpl.
  - split; [ intros ->; reflexivity | intros [= ->]; reflexivity ].
  - split; [ intros H; vm_compute in H; discriminate H | discriminate ].
Qed.

(** C7. Given the data of an image button, "select_main_" and an index:
    when the index is not within [0, count) of the draft's images,
    [handle_main_image_selection] answers with the invalid-selection
    notice and leaves the draft and the conversation state unchanged; when
    it is within range, the handler records the index as
    [main_image_index], the stamped and the unstamped image at that index
    as the main image paths, and moves to the description step when the
    draft's product type is "custom_description" and to the title step
    whenever it is anything else or not set. (The draft holds as many
    unstamped as stamped images.) *)
Theorem main_image_selection
  (message : Message.t) (ctx : FSMContext) (main_index : Z) :
  length (get_all_original_images (data ctx))
  = length (get_all_images (data ctx)) ->
  let count := Z.of_nat (length (get_all_images (data ctx))) in
  let callback :=
    CallbackQuery.mk (lit "select_main_" ++ py_str main_index) message in
  let result := handle_main_image_selection callback ctx in
  (~ (0 <= main_index < count) ->
   result = (ctx, [callback_answer (Some invalid_selection) true]))
  /\ (0 <= main_index < count ->
      exists main_image_path main_original_path,
        get_all_images (data ctx) !! Z.to_nat main_index = Some main_image_path
        /\ get_all_original_images (data ctx) !! Z.to_nat main_index
           = Some main_original_path
        /\ data (fst result)
           = with_main_image main_image_path main_original_path main_index
               (get_all_images (data ctx)) (get_all_original_images (data ctx))
               (data ctx)
        /\ main_image_index (data (fst result)) = Some main_index
        /\ photo_path (data (fst result)) = Some main_image_path
        /\ original_photo_path (data (fst result)) = Some main_original_path
        /\ (product_type (data ctx) = Some (lit "custom_description") ->
            state (fst result) = Some waiting_description)
        /\ (product_type (data ctx) <> Some (lit "custom_description") ->
            state (fst result) = Some waiting_title)).
Proof.
  intros Hlen count callback result. subst result callback.
  unfold handle_main_image_selection. cbn [CallbackQuery.data].
  rewrite selected_index_read. fold count.
  split.
  - intros Hout.
    destruct (Z.ltb_spec main_index 0) as [Hneg | Hnonneg]; [ reflexivity | ].
    destruct (Z.leb_spec count main_index) as [Hbig | Hsmall]; [ reflexivity | ].
    exfalso. apply Hout. lia.
  - intros [Hlo Hhi].
    destruct (Z.ltb_spec main_index 0) as [Hneg | _]; [ lia | ].
    destruct (Z.leb_spec count main_index) as [Hbig | _]; [ lia | ].
    simpl orb. cbv iota.
    destruct (lookup_lt_is_Some_2 (get_all_images (data ctx))
                (Z.to_nat main_index)) as [main_image_path Hmain];
      [ subst count; lia | ].
    destruct (lookup_lt_is_Some_2 (get_all_original_images (data ctx))
                (Z.to_nat main_index)) as [main_original_path Horig];
      [ rewrite Hlen; subst count; lia | ].
    exists main_image_path, main_original_path.
    rewrite Hmain, Horig.
    pose proof (is_custom_description_iff (data ctx)) as Hcustom.
    destruct (is_custom_description (data ctx)); simpl;
      repeat split; try reflexivity; intros Htype; try reflexivity; exfalso.
    + apply Htype. apply Hcustom. reflexivity.
    + apply Hcustom in Htype. discriminate Htype.
Qed.

(** The second of two images is picked for a product with a custom
    description: the dialogue goes on to the description. *)
Lemma main_image_selection_witness :
  let result :=
    handle_main_image_selection
      (CallbackQuery.mk (lit "select_main_1") (answered 1 (lit "Select Main Image")))
      two_image_custom_draft in
  main_image_index (data (fst result)) = Some 1
  /\ photo_path (data (fst result)) = Some (lit "b_watermarked.jpg")
  /\ original_photo_path (data (fst result)) = Some (lit "b.jpg")
  /\ state (fst result) = Some waiting_description.
Proof.
  destruct (main_image_selection (answered 1 (lit "Select Main Image"))
              two_image_custom_draft 1) as [_ Hin].
  - reflexivity.
  - destruct Hin as (a & b & Ha & Hb & _ & Hi & Hp & Ho & Hs & _).
    + simpl. lia.
    + simpl in Ha, Hb. injection Ha as <-. injection Hb as <-.
      cbv zeta.
      split; [ exact Hi | ]. split; [ exact Hp | ]. split; [ exact Ho | ].
      apply Hs. reflexivity.
Defined.

(** The same for a standard product: the dialogue goes on to the
    title. *)
Example main_image_selection_standard :
  let result :=
    handle_main_image_selection
      (CallbackQuery.mk (lit "select_main_1") (answered 1 (lit "Select Main Image")))
      two_image_draft in
  main_image_index (data (fst result)) = Some 1
  /\ photo_path (data (fst result)) = Some (lit "b_watermarked.jpg")
  /\ state (fst result) = Some waiting_title.
Proof. repeat split; vm_compute; reflexivity. Qed.

(** An index out of range, and callback data that hold no integer, leave
    the draft where it is. *)
Lemma main_image_selection_out_of_range :
  handle_main_image_selection
    (CallbackQuery.mk (lit "select_main_2") (answered 1 (lit "Select Main Image")))
    two_image_draft
  = (two_image_draft, [callback_answer (Some invalid_selection) true])
  /\ handle_main_image_selection
       (CallbackQuery.mk (lit "select_main_-1") (answered 1 (lit "Select Main Image")))
       two_image_draft
     = (two_image_draft, [callback_answer (Some invalid_selection) true])
  /\ handle_main_image_selection
       (CallbackQuery.mk (lit "select_main_x") (answered 1 (lit "Select Main Image")))
       two_image_draft
     = (two_image_draft, [callback_answer (Some error_selecting_main_image) true]).
Proof. repeat split; vm_compute; reflexivity. Qed.

End MainImage.

(** ** Text fields *)

Section TextFields.
Import Products.
Local Open Scope Z_scope.

(** A reply list of one other notice does not hold the notice looked
    for. *)
Ltac other_notice :=
  first [ apply not_elem_of_nil
        | let Hin := fresh "Hin" in
          intros Hin; apply list_elem_of_singleton in Hin; discriminate Hin ].

(** *** Title and description *)

(** The title step accepts the stripped text exactly when its length is
    within [3, 200]; a rejected text changes neither the state nor the
    draft and is answered with the notice for its defect. *)
Lemma title_step (message : Message.t) (text : pystr) (ctx : FSMContext) :
  Message.text message = Some text ->
  (3 <= len (strip text) <= 200 ->
   exists replies,
     product_title_received message ctx
     = Ok (mk_ctx (Some (if is_custom_description (data ctx)
                         then waiting_price else waiting_description))
                  (with_title (strip text) (data ctx)), replies))
  /\ (len (strip text) < 3 ->
      product_title_received message ctx
      = Ok (ctx, [message_answer title_too_short no_keyboard]))
  /\ (200 < len (strip text) ->
      product_title_received message ctx
      = Ok (ctx, [message_answer title_too_long no_keyboard])).
Proof.
  intros Htext. unfold product_title_received. rewrite Htext.
  split; [ | split ].
  - intros [Hlo Hhi].
    destruct (Z.ltb_spec (len (strip text)) 3); [ lia | ].
    destruct (Z.ltb_spec 200 (len (strip text))); [ lia | ].
    unfold update_data, set_state, is_custom_description. simpl.
    destruct (pystr_eqb _ _); eexists; reflexivity.
  - intros Hshort.
    destruct (Z.ltb_spec (len (strip text)) 3); [ reflexivity | lia ].
  - intros Hlong.
    destruct (Z.ltb_spec (len (strip text)) 3); [ lia | ].
    destruct (Z.ltb_spec 200 (len (strip text))); [ reflexivity | lia ].
Qed.

(** The description step accepts the stripped text exactly when its
    length is at most 1000. *)
Lemma description_step (message : Message.t) (text : pystr) (ctx : FSMContext) :
  Message.text message = Some text ->
  (len (strip text) <= 1000 ->
   exists replies,
     product_description_received message ctx
     = Ok (mk_ctx (Some (if is_custom_description (data ctx)
                         then waiting_title else waiting_price))
                  (with_description (strip text) (data ctx)), replies))
  /\ (1000 < len (strip text) ->
      product_description_received message ctx
      = Ok (ctx, [message_answer description_too_long no_keyboard])).
Proof.
  intros Htext. unfold product_description_received. rewrite Htext.
  split.
  - intros Hok.
    destruct (Z.ltb_spec 1000 (len (strip text))); [ lia | ].
    unfold update_data, set_state, is_custom_description. simpl.
    destruct (pystr_eqb _ _); eexists; reflexivity.
  - intros Hlong.
    destruct (Z.ltb_spec 1000 (len (strip text))); [ reflexivity | lia ].
Qed.

(** *** Price *)

(** The price step stores the parsed value exactly when the text parses
    and the value is neither [<= 0] nor [> 10000000]; every other text is
    answered with a notice and changes neither the state nor the draft. *)
Lemma price_step (message : Message.t) (text : pystr) (ctx : FSMContext) :
  Message.text message = Some text ->
  (forall price,
      parse_price text = Some price ->
      float_le_int price 0 = false ->
      float_gt_int price 10000000 = false ->
      exists st replies continuation,
        product_price_received message ctx
        = Ok (mk_ctx st (with_price price (data ctx)), replies, continuation))
  /\ (parse_price text = None ->
      product_price_received message ctx
      = Ok (ctx, [message_answer invalid_price no_keyboard], None))
  /\ (forall price,
        parse_price text = Some price ->
        float_le_int price 0 = true ->
        product_price_received message ctx
        = Ok (ctx, [message_answer price_not_positive no_keyboard], None))
  /\ (forall price,
        parse_price text = Some price ->
        float_le_int price 0 = false ->
        float_gt_int price 10000000 = true ->
        product_price_received message ctx
        = Ok (ctx, [message_answer price_too_high no_keyboard], None)).
Proof.
  intros Htext. unfold product_price_received. rewrite Htext.
  split; [ | split; [ | split ] ].
  - intros price Hp Hle Hgt. rewrite Hp, Hle, Hgt.
    unfold update_data, set_state. simpl.
    destruct (is_custom_description _); [ do 3 eexists; reflexivity | ].
    destruct (category (data ctx)) as [[ | c cs] | ];
      do 3 eexists; reflexivity.
  - intros Hp. rewrite Hp. reflexivity.
  - intros price Hp Hle. rewrite Hp, Hle. reflexivity.
  - intros price Hp Hle Hgt. rewrite Hp, Hle, Hgt. reflexivity.
Qed.

(** A finite value passes the two comparisons exactly when it is positive
    and at most 10,000,000. *)
Lemma finite_price_in_range (q : Q) :
  (float_le_int (PyFinite q) 0 = false
   /\ float_gt_int (PyFinite q) 10000000 = false)
  <-> (0 < q /\ q <= inject_Z 10000000)%Q.
Proof.
  unfold float_le_int, float_gt_int. rewrite negb_false_iff.
  rewrite Qle_bool_iff. split.
  - intros [Hpos Hmax]. split; [ | exact Hmax ].
    apply Qnot_le_lt. intros Hle. apply Qle_bool_iff in Hle.
    change (inject_Z 0) with 0%Q in Hpos. congruence.
  - intros [Hpos Hmax]. split; [ | exact Hmax ].
    destruct (Qle_bool q (inject_Z 0)) eqn:Hle; [ | reflexivity ].
    apply Qle_bool_iff in Hle. change (inject_Z 0) with 0%Q in Hle.
    exfalso. apply (Qlt_not_le _ _ Hpos Hle).
Qed.

(** C6 fails at the price step. The text "nan" parses, as a float that is
    not a number; it is neither [<= 0] nor [> 10000000], so the step, run in
    its state [waiting_price], stores it as the price and goes on (to the
    preview, to the category fields or to the category question) instead of
    asking again. *)
Theorem price_step_accepts_nan (d : Data) :
  parse_price (lit "nan") = Some PyNaN
  /\ exists st replies continuation,
       product_price_received (text_message (lit "nan"))
                              (mk_ctx (Some waiting_price) d)
       = Ok (mk_ctx st (with_price PyNaN d), replies, continuation)
       /\ (st <> Some waiting_price \/ continuation <> None)
       /\ price (with_price PyNaN d) = Some PyNaN
       /\ message_answer invalid_price no_keyboard ∉ replies.
Proof.
  split; [ vm_compute; reflexivity | ].
  unfold product_price_received, text_message. cbn [Message.text].
  replace (parse_price (lit "nan")) with (Some PyNaN) by (vm_compute; reflexivity).
  cbn [float_le_int float_gt_int].
  unfold update_data, set_state. simpl.
  destruct (is_custom_description _).
  - do 3 eexists. split; [ reflexivity | ].
    split; [ right; discriminate | ]. split; [ reflexivity | ].
    apply not_elem_of_nil.
  - destruct (category d) as [[ | c cs] | ];
      (do 3 eexists; split; [ reflexivity | ];
       split; [ first [ left; discriminate | right; discriminate ] | ];
       split; [ reflexivity | ]).
    + other_notice.
    + other_notice.
    + other_notice.
Qed.

(** *** Commas in a price *)

Lemma replace_cons (c : pychar) (new : pystr) (x : pychar) (s : pystr) :
  replace c new (x :: s) = (if (x =? c)%N then new else [x]) ++ replace c new s.
Proof. reflexivity. Qed.



Lemma replace_comma_rev (s : pystr) :
  replace 44%N [] (rev s) = rev (replace 44%N [] s).
Proof.
  induction s as [ | c s IH]; [ reflexivity | ].
  simpl rev. rewrite replace_app, IH, !replace_cons.
  destruct (c =? 44)%N; simpl; rewrite ?app_nil_r; reflexivity.
Qed.








End TextFields.

(** ** Done adding photos *)

Section PhotosDone.
Import Products.

Variable download : Message.t -> Outcome pystr.
Variable add_watermark : pystr -> pystr -> pystr.
Variable path_exists : pystr -> bool.
Variable media_group_ok : list pystr -> bool.

(** Without a collected photo the operation answers that no photo was
    sent and changes nothing. *)
Lemma photos_done_without_photos (callback : CallbackQuery.t) (ctx : FSMContext) :
  get_collected_photos (data ctx) = [] ->
  handle_photos_done download add_watermark path_exists media_group_ok callback ctx
  = (ctx, [callback_answer (Some no_photos_yet) true]).
Proof. intros H. unfold handle_photos_done. rewrite H. reflexivity. Qed.

Lemma watermark_all_paths (photos : list CollectedPhoto.t) :
  length (map fst (watermark_all add_watermark path_exists photos))
  = length (map snd (watermark_all add_watermark path_exists photos)).
Proof. rewrite !length_map. reflexivity. Qed.

(** With more than one collected photo, as soon as one stamped file
    exists and the media group goes out, the draft holds the stamped and
    the unstamped paths, as many of the one as of the other, and the state
    is the main-image selection. *)
Lemma photos_done_with_many_photos
  (callback : CallbackQuery.t) (ctx : FSMContext)
  (p1 p2 : CollectedPhoto.t) (rest : list CollectedPhoto.t) :
  get_collected_photos (data ctx) = p1 :: p2 :: rest ->
  watermark_all add_watermark path_exists (p1 :: p2 :: rest) <> [] ->
  media_group_ok
    (map fst (watermark_all add_watermark path_exists (p1 :: p2 :: rest))) = true ->
  let ctx' :=
    fst (handle_photos_done download add_watermark path_exists media_group_ok
           callback ctx) in
  state ctx' = Some waiting_main_image
  /\ all_images (data ctx')
     = Some (map fst (watermark_all add_watermark path_exists (p1 :: p2 :: rest)))
  /\ all_original_images (data ctx')
     = Some (map snd (watermark_all add_watermark path_exists (p1 :: p2 :: rest))).
Proof.
  intros Hc Hw Hm. unfold handle_photos_done. rewrite Hc.
  cbn [length Nat.eqb]. unfold process_multiple_photos.
  destruct (watermark_all add_watermark path_exists (p1 :: p2 :: rest))
    as [ | [wm orig] stamped] eqn:Hall; [ contradiction | ].
  cbn [map fst] in *. rewrite Hm. simpl. repeat split; reflexivity.
Qed.

(** C4 fails for a single photo. The "Done adding photos" button is under
    a text message of the bot, and that message is what the handler passes
    to [process_single_photo], which reads the photo of the message it is
    given: with exactly one collected photo the operation ends in the error
    notice, and the state stays [waiting_photo] with the draft as it was,
    instead of moving to the text-field phase. *)
Theorem photos_done_with_one_photo_fails
  (bot_id : Z) (prompt : pystr) (d : Data) (photo : CollectedPhoto.t) :
  let ctx := mk_ctx (Some waiting_photo) (with_collected_photos [photo] d) in
  process_single_photo download add_watermark (answered bot_id prompt) ctx
  = Raise TypeError
  /\ handle_photos_done download add_watermark path_exists media_group_ok
       (CallbackQuery.mk (lit "photos_done") (answered bot_id prompt)) ctx
     = (ctx, [callback_answer (Some error_processing_photos) true]).
Proof. split; reflexivity. Qed.

End PhotosDone.

(** The whole exchange: one photo arrives, the bot answers with the prompt
    that carries the button, the user presses it. *)
Lemma one_photo_then_done :
  let w := Products.product_photo_received saved_as (photo_message None 1)
             waiting_for_photos in
  Products.outbox w
  = [Products.message_answer (Products.photo_received 7) Products.done_keyboard]
  /\ length (Products.get_collected_photos (Products.data (Products.fsm w))) = 1%nat
  /\ forall add_watermark path_exists media_group_ok prompt,
       Products.handle_photos_done saved_as add_watermark path_exists media_group_ok
         (CallbackQuery.mk (lit "photos_done") (Products.answered 1 prompt))
         (Products.fsm w)
       = (Products.fsm w,
          [Products.callback_answer (Some Products.error_processing_photos) true]).
Proof. repeat split; reflexivity. Qed.

(** ** The cap of eight photos *)

Section Capacity.
Import Products.

Variable download : Message.t -> Outcome pystr.

(** Every photo that arrives on its own is appended, whatever the draft
    already holds. *)
Lemma standalone_photo_is_appended (m : Message.t) (w : World) (path : pystr) :
  has_photo m = true ->
  Message.media_group_id m = None ->
  download m = Ok path ->
  exists file_id,
    get_collected_photos (data (fsm (product_photo_received download m w)))
    = get_collected_photos (data (fsm w)) ++ [CollectedPhoto.mk path file_id None].
Proof.
  intros Hp Hg Hd. unfold product_photo_received, has_photo, last_item in *.
  destruct (Message.photo m) as [[ | x l] | ]; try discriminate Hp.
  destruct (last (x :: l)) as [fid | ] eqn:Hlast.
  - rewrite Hd, Hg. exists fid.
    destruct (length _ =? 1)%nat; reflexivity.
  - apply last_None in Hlast. discriminate Hlast.
Qed.

Lemma product_photo_received_state (m : Message.t) (w : World) :
  state (fsm (product_photo_received download m w)) = state (fsm w).
Proof.
  unfold product_photo_received.
  destruct (last_item (Message.photo m)) as [photo | e]; [ | reflexivity ].
  destruct (download m) as [path | e]; [ | reflexivity ].
  destruct (Message.media_group_id m) as [[ | c g] | ].
  - destruct (length _ =? 1)%nat; reflexivity.
  - destruct (bool_decide _); reflexivity.
  - destruct (length _ =? 1)%nat; reflexivity.
Qed.

(** However many photos arrive one by one, all of them are collected:
    the draft grows by one entry per photo, beyond eight as well. *)
Lemma standalone_photos_are_all_appended (ms : list Message.t) (w : World) :
  state (fsm w) = Some waiting_photo ->
  forallb (is_standalone_photo download) ms = true ->
  length (get_collected_photos
            (data (fsm (fst (run download (map photo_arrives ms) w)))))
  = (length (get_collected_photos (data (fsm w))) + length ms)%nat.
Proof.
  revert w. induction ms as [ | m ms IH]; intros w Hstate Hms.
  - simpl. lia.
  - cbn [forallb] in Hms. apply andb_true_iff in Hms as [Hm Hms].
    unfold is_standalone_photo in Hm.
    rewrite !andb_true_iff, bool_decide_eq_true in Hm.
    destruct Hm as [[Hp Hg] Hd].
    destruct (download m) as [path | e] eqn:Hdl; [ | discriminate Hd ].
    destruct (standalone_photo_is_appended m w path Hp Hg Hdl) as [fid Hfid].
    cbn [map run handle]. rewrite Hstate, Hp.
    specialize (IH (product_photo_received download m w)).
    rewrite product_photo_received_state in IH. specialize (IH Hstate Hms).
    destruct (run download (map photo_arrives ms) _) as [w' merges].
    cbn [fst] in *. rewrite IH, Hfid, length_app. simpl. lia.
Qed.

End Capacity.

(** C2 fails. Nine photos sent one by one to a user in [waiting_photo]
    are all collected: the draft ends with nine photos, and every photo is
    answered with a confirmation, none with a capacity notice. An album of
    nine photos is merged whole as well. *)
Theorem ninth_photo_is_collected :
  let singles :=
    fst (Products.run saved_as
           (map (fun n => Products.photo_arrives (photo_message None n)) (one_to 9))
           waiting_for_photos) in
  let album :=
    fst (Products.run saved_as
           (map (fun n => Products.photo_arrives
                            (photo_message (Some (lit "1337")) n)) (one_to 9)
            ++ [Products.timer_fires (lit "1337")])
           waiting_for_photos) in
  length (Products.get_collected_photos (Products.data (Products.fsm singles)))
  = 9%nat
  /\ Products.outbox singles
     = Products.message_answer (Products.photo_received 7) Products.done_keyboard
       :: repeat (Products.message_answer Products.additional_photo_received
                                          Products.cancel_keyboard) 8
  /\ length (Products.get_collected_photos (Products.data (Products.fsm album)))
     = 9%nat
  /\ Products.outbox album
     = [Products.message_answer (Products.photo_received 0) Products.done_keyboard].
Proof. vm_compute. repeat split; reflexivity. Qed.

(** ** The album buffer *)

Section Album.
Import Products.

Variable download : Message.t -> Outcome pystr.
Variable g : pystr.
Hypothesis g_not_empty : g <> [].

Variable B0 : gmap pystr (list AlbumItem.t).
Variable S0 : gset pystr.
Variable T0 : list pystr.
Hypothesis B0_free : B0 !! g = None.
Hypothesis S0_free : g ∉ S0.
Hypothesis T0_free : g ∉ T0.

Lemma album_photo_item (m : Message.t) :
  is_album_photo download g m = true ->
  Message.media_group_id m = Some g
  /\ has_photo m = true
  /\ exists photo file_path,
       last_item (Message.photo m) = Ok photo
       /\ download m = Ok file_path
       /\ buffered_item download m = Some (AlbumItem.mk m file_path photo).
Proof.
  unfold is_album_photo. rewrite !andb_true_iff, bool_decide_eq_true.
  intros [[Hg Hp] Hd]. split; [ exact Hg | ]. split; [ exact Hp | ].
  unfold buffered_item, has_photo, last_item in *.
  destruct (Message.photo m) as [[ | x l] | ]; try discriminate Hp.
  destruct (last (x :: l)) as [fid | ] eqn:Hlast.
  - destruct (download m) as [path | e]; [ | discriminate Hd ].
    exists fid, path. repeat split; reflexivity.
  - apply last_None in Hlast. discriminate Hlast.
Qed.

Lemma remove_first_snoc (l : list pystr) :
  g ∉ l -> remove_first g (l ++ [g]) = l.
Proof.
  induction l as [ | x l IH]; intros Hl; simpl.
  - rewrite bool_decide_eq_true_2 by reflexivity. reflexivity.
  - apply not_elem_of_cons in Hl as [Hx Hl].
    rewrite bool_decide_eq_false_2 by (intros ->; apply Hx; reflexivity).
    rewrite IH by exact Hl. reflexivity.
Qed.

(** A photo of the album arrives: it joins the buffered items, and a
    timer is armed if none is. *)
Lemma album_photo_arrives
  (m : Message.t) (item : AlbumItem.t) (pending : list AlbumItem.t)
  (ctx : FSMContext) (out : list Reply) :
  state ctx = Some waiting_photo ->
  is_album_photo download g m = true ->
  buffered_item download m = Some item ->
  handle download (photo_arrives m) (album_world B0 S0 T0 g pending ctx out)
  = (album_world B0 S0 T0 g (pending ++ [item]) ctx out, None).
Proof.
  intros Hstate Hm Hitem.
  destruct (album_photo_item m Hm) as (Hg & Hp & photo & path & Hl & Hd & Hi).
  rewrite Hi in Hitem. injection Hitem as <-.
  unfold handle.
  assert (Hfsm : fsm (album_world B0 S0 T0 g pending ctx out) = ctx)
    by (destruct pending; reflexivity).
  rewrite Hfsm, Hstate, Hp. f_equal.
  unfold product_photo_received. rewrite Hl, Hd, Hg.
  destruct g as [ | c g'] eqn:Hgeq; [ contradiction | ]. rewrite <- Hgeq in *.
  destruct pending as [ | p ps]; cbn [album_world album_buffer
    album_tasks_scheduled tasks fsm outbox app].
  - rewrite B0_free. cbn [default app].
    rewrite bool_decide_eq_false_2 by exact S0_free. rewrite Hgeq. reflexivity.
  - rewrite lookup_insert_eq. cbn [default].
    rewrite bool_decide_eq_true_2
      by (apply elem_of_union_l, elem_of_singleton; reflexivity).
    rewrite insert_insert_eq. rewrite Hgeq. reflexivity.
Qed.

(** The timer of the album fires: with nothing buffered nothing happens;
    otherwise all buffered items are merged, in their order, and the buffer
    and the flag of the album are cleared. *)
Lemma album_timer_fires
  (pending : list AlbumItem.t) (ctx : FSMContext) (out : list Reply) :
  handle download (timer_fires g) (album_world B0 S0 T0 g pending ctx out)
  = match pending with
    | [] => (album_world B0 S0 T0 g [] ctx out, None)
    | _ :: _ =>
        (album_world B0 S0 T0 g [] (merged_into g pending ctx)
           (out ++ [message_answer
                      (photo_received
                         (remaining_capacity
                            (get_collected_photos (data ctx)
                             ++ map (merged_entry g) pending)))
                      done_keyboard]),
         Some (map (merged_entry g) pending))
    end.
Proof.
  unfold handle. destruct pending as [ | p ps];
    cbn [album_world album_buffer album_tasks_scheduled tasks fsm outbox].
  - rewrite bool_decide_eq_false_2 by exact T0_free. reflexivity.
  - rewrite bool_decide_eq_true_2
      by (apply elem_of_app; right; apply list_elem_of_singleton; reflexivity).
    rewrite remove_first_snoc by exact T0_free.
    unfold _process_album_later.
    cbn [album_buffer album_tasks_scheduled tasks fsm outbox].
    rewrite lookup_insert_eq.
    rewrite delete_insert_eq, delete_id by exact B0_free.
    assert (({[g]} ∪ S0) ∖ {[g]} = S0) as ->.
    { apply set_eq. intros x.
      rewrite elem_of_difference, elem_of_union, !elem_of_singleton.
      split.
      - intros [[Hx | Hx] Hne]; [ contradiction | exact Hx ].
      - intros Hx. split; [ right; exact Hx | intros ->; exact (S0_free Hx) ]. }
    reflexivity.
Qed.

(** A timer that fires once more, after the album was merged, finds
    nothing and changes nothing. *)
Lemma album_timer_fires_again (ctx : FSMContext) (out : list Reply) :
  _process_album_later g (album_world B0 S0 T0 g [] ctx out)
  = (album_world B0 S0 T0 g [] ctx out, None).
Proof.
  unfold _process_album_later. cbn [album_world album_buffer
    album_tasks_scheduled tasks fsm outbox].
  rewrite B0_free.
  assert (S0 ∖ {[g]} = S0) as ->.
  { apply set_eq. intros x. rewrite elem_of_difference, elem_of_singleton.
    split; [ intros [Hx _]; exact Hx | ].
    intros Hx. split; [ exact Hx | intros ->; exact (S0_free Hx) ]. }
  reflexivity.
Qed.

Lemma omap_cons_eq {A B} (f : A -> option B) (x : A) (l : list A) :
  omap f (x :: l)
  = match f x with Some y => y :: omap f l | None => omap f l end.
Proof. reflexivity. Qed.

(** Photos of the album arriving one after the other, with no timer in
    between: they pile up in the buffer and nothing is merged. *)
Lemma album_photos_arrive
  (ms : list Message.t) (pending : list AlbumItem.t)
  (ctx : FSMContext) (out : list Reply) :
  state ctx = Some waiting_photo ->
  forallb (is_album_photo download g) ms = true ->
  run download (map photo_arrives ms) (album_world B0 S0 T0 g pending ctx out)
  = (album_world B0 S0 T0 g (pending ++ omap (buffered_item download) ms) ctx out,
     []).
Proof.
  intros Hstate. revert pending.
  induction ms as [ | m ms IH]; intros pending Hms.
  - simpl. rewrite app_nil_r. reflexivity.
  - cbn [forallb] in Hms. apply andb_true_iff in Hms as [Hm Hms].
    destruct (album_photo_item m Hm) as (_ & _ & photo & path & _ & _ & Hi).
    cbn [map run]. rewrite omap_cons_eq, Hi.
    rewrite (album_photo_arrives m _ pending ctx out Hstate Hm Hi).
    rewrite IH by exact Hms. cbn [app]. rewrite <- app_assoc. reflexivity.
Qed.

Lemma merged_into_photos (pending : list AlbumItem.t) (ctx : FSMContext) :
  get_collected_photos (data (merged_into g pending ctx))
  = get_collected_photos (data ctx) ++ map (merged_entry g) pending.
Proof. reflexivity. Qed.

(** Any interleaving of the album's photos and timers, closed by a timer:
    what was merged, batch after batch, is what was pending and what
    arrived, in order; no batch is empty; nothing stays buffered and no
    timer stays armed. *)
Lemma album_events
  (events : list Event) (pending : list AlbumItem.t)
  (ctx : FSMContext) (out : list Reply) :
  state ctx = Some waiting_photo ->
  forallb (album_event download g) events = true ->
  exists ctx' out',
    fst (run download (events ++ [timer_fires g])
           (album_world B0 S0 T0 g pending ctx out))
    = album_world B0 S0 T0 g [] ctx' out'
    /\ state ctx' = Some waiting_photo
    /\ concat (snd (run download (events ++ [timer_fires g])
                      (album_world B0 S0 T0 g pending ctx out)))
       = map (merged_entry g)
             (pending ++ omap (buffered_item download) (arrivals events))
    /\ get_collected_photos (data ctx')
       = get_collected_photos (data ctx)
         ++ concat (snd (run download (events ++ [timer_fires g])
                           (album_world B0 S0 T0 g pending ctx out)))
    /\ Forall (fun b => b <> [])
              (snd (run download (events ++ [timer_fires g])
                      (album_world B0 S0 T0 g pending ctx out))).
Proof.
  revert pending ctx out.
  induction events as [ | e events IH]; intros pending ctx out Hstate Hev.
  - cbn [app run]. change (arrivals []) with (@nil Message.t).
    change (omap (buffered_item download) []) with (@nil AlbumItem.t).
    rewrite album_timer_fires.
    destruct pending as [ | p ps].
    + exists ctx, out. cbn. rewrite app_nil_r.
      repeat split; try reflexivity; try assumption. constructor.
    + eexists _, _. cbn [fst snd concat]. rewrite !app_nil_r.
      split; [ reflexivity | ]. split; [ exact Hstate | ].
      split; [ reflexivity | ]. split; [ reflexivity | ].
      repeat constructor. discriminate.
  - cbn [forallb] in Hev. apply andb_true_iff in Hev as [He Hev].
    destruct e as [m | g'].
    + cbn [album_event] in He.
      destruct (album_photo_item m He) as (_ & _ & photo & path & _ & _ & Hi).
      cbn [app run]. rewrite (album_photo_arrives m _ pending ctx out Hstate He Hi).
      destruct (IH (pending ++ [AlbumItem.mk m path photo]) ctx out Hstate Hev)
        as (ctx' & out' & Hw & Hs & Hc & Hp & Hne).
      destruct (run download (events ++ [timer_fires g]) _) as [w ms] eqn:Hrun.
      exists ctx', out'. cbn [fst snd] in *.
      split; [ exact Hw | ]. split; [ exact Hs | ].
      split; [ | split; [ exact Hp | exact Hne ] ].
      rewrite Hc. unfold arrivals. rewrite !omap_cons_eq, Hi.
      rewrite <- app_assoc. reflexivity.
    + cbn [album_event] in He. apply bool_decide_eq_true in He. subst g'.
      cbn [app run]. rewrite album_timer_fires.
      destruct pending as [ | p ps].
      * destruct (IH [] ctx out Hstate Hev) as (ctx' & out' & Hw & Hs & Hc & Hp & Hne).
        destruct (run download (events ++ [timer_fires g]) _) as [w ms] eqn:Hrun.
        exists ctx', out'. cbn [fst snd] in *.
        split; [ exact Hw | ]. split; [ exact Hs | ].
        split; [ exact Hc | split; [ exact Hp | exact Hne ] ].
      * destruct (IH [] (merged_into g (p :: ps) ctx)
                    (out ++ [message_answer
                               (photo_received
                                  (remaining_capacity
                                     (get_collected_photos (data ctx)
                                      ++ map (merged_entry g) (p :: ps))))
                               done_keyboard])
                    Hstate Hev) as (ctx' & out' & Hw & Hs & Hc & Hp & Hne).
        destruct (run download (events ++ [timer_fires g]) _) as [w ms] eqn:Hrun.
        exists ctx', out'. cbn [fst snd] in *.
        split; [ exact Hw | ]. split; [ exact Hs | ].
        split; [ | split ].
        -- cbn [app] in Hc. cbn [concat]. rewrite Hc, <- map_app. reflexivity.
        -- rewrite Hp, merged_into_photos. cbn [concat].
           rewrite <- app_assoc. reflexivity.
        -- constructor; [ discriminate | exact Hne ].
Qed.

End Album.

Section AlbumClaim.
Import Products.

(** C1, as the code has it. For photos that share one batch id and a user
    in [waiting_photo] for whom nothing of that batch is buffered or armed:
    - when all N >= 1 photos arrive before the timer of the batch fires,
      exactly one timer is armed and its firing produces exactly one merge
      into the draft's collected photos, holding all N photos in arrival
      order;
    - in every interleaving of arrivals and timer firings, once the last
      armed timer has fired, the merges taken together hold every photo
      exactly once and in arrival order, no merge is empty, and the draft's
      collected photos are the earlier ones followed by all N photos;
    - in both cases, firing the timer again finds nothing buffered and
      changes nothing. *)
Theorem album_photos_are_merged_in_order
  (download : Message.t -> Outcome pystr) (g : pystr) (w0 : World) :
  g <> [] ->
  state (fsm w0) = Some waiting_photo ->
  album_buffer w0 !! g = None ->
  g ∉ album_tasks_scheduled w0 ->
  g ∉ tasks w0 ->
  (forall ms,
      ms <> [] ->
      forallb (is_album_photo download g) ms = true ->
      let armed := run download (map photo_arrives ms) w0 in
      let fired := run download [timer_fires g] (fst armed) in
      snd armed = []
      /\ tasks (fst armed) = tasks w0 ++ [g]
      /\ snd fired = [batch download g ms]
      /\ length (batch download g ms) = length ms
      /\ get_collected_photos (data (fsm (fst fired)))
         = get_collected_photos (data (fsm w0)) ++ batch download g ms
      /\ album_buffer (fst fired) !! g = None
      /\ _process_album_later g (fst fired) = (fst fired, None))
  /\ (forall events,
        forallb (album_event download g) events = true ->
        let done := run download (events ++ [timer_fires g]) w0 in
        concat (snd done) = batch download g (arrivals events)
        /\ Forall (fun b => b <> []) (snd done)
        /\ get_collected_photos (data (fsm (fst done)))
           = get_collected_photos (data (fsm w0))
             ++ batch download g (arrivals events)
        /\ album_buffer (fst done) !! g = None
        /\ (g ∉ tasks (fst done))
        /\ _process_album_later g (fst done) = (fst done, None)).
Proof.
  intros Hg Hstate HB HS HT.
  destruct w0 as [B0 S0 T0 ctx out].
  cbn [album_buffer album_tasks_scheduled tasks fsm outbox] in *.
  change (mk_world B0 S0 T0 ctx out) with (album_world B0 S0 T0 g [] ctx out).
  split.
  - intros ms Hne Hms.
    rewrite (album_photos_arrive download g Hg B0 S0 T0 HB HS HT ms [] ctx out
               Hstate Hms).
    cbn [fst snd app].
    assert (Hlen : length (omap (buffered_item download) ms) = length ms).
    { clear Hne. induction ms as [ | m ms IH]; [ reflexivity | ].
      cbn [forallb] in Hms. apply andb_true_iff in Hms as [Hm Hms].
      destruct (album_photo_item download g m Hm) as (_ & _ & ph & pa & _ & _ & Hi).
      rewrite omap_cons_eq, Hi. simpl. rewrite IH by exact Hms. reflexivity. }
    destruct (omap (buffered_item download) ms) as [ | p ps] eqn:Hitems.
    { destruct ms; [ contradiction | discriminate Hlen ]. }
    cbn [run].
    rewrite (album_timer_fires download g B0 S0 T0 HB HS HT (p :: ps) ctx out).
    cbn [fst snd album_world tasks fsm album_buffer].
    unfold batch. rewrite Hitems, length_map, Hlen.
    split; [ reflexivity | ]. split; [ reflexivity | ].
    split; [ reflexivity | ]. split; [ reflexivity | ].
    split; [ reflexivity | ]. split; [ exact HB | ].
    apply (album_timer_fires_again g B0 S0 T0 HB HS).
  - intros events Hev.
    destruct (album_events download g Hg B0 S0 T0 HB HS HT events [] ctx out
                Hstate Hev) as (ctx' & out' & Hw & _ & Hc & Hp & Hne).
    cbv zeta.
    destruct (run download (events ++ [timer_fires g]) _) as [w ms] eqn:Hrun.
    cbn [fst snd app] in *. subst w.
    cbn [album_world tasks fsm album_buffer].
    unfold batch. rewrite <- Hc.
    split; [ reflexivity | ]. split; [ exact Hne | ].
    split; [ exact Hp | ]. split; [ exact HB | ]. split; [ exact HT | ].
    apply (album_timer_fires_again g B0 S0 T0 HB HS).
Qed.

(** Two photos of album 1337 arrive and the timer fires: one merge with
    both photos in their order, and arrivals on both sides of a timer are
    all collected, in order. *)
Lemma album_photos_are_merged_in_order_witness :
  snd (run saved_as [timer_fires album_1337]
         (fst (run saved_as [photo_arrives first_photo; photo_arrives second_photo]
                 waiting_for_photos)))
  = [entry_of first_photo ++ entry_of second_photo]
  /\ get_collected_photos
       (data (fsm (fst (run saved_as
                          [photo_arrives first_photo; timer_fires album_1337;
                           photo_arrives second_photo; timer_fires album_1337]
                          waiting_for_photos))))
     = entry_of first_photo ++ entry_of second_photo.
Proof.
  destruct (album_photos_are_merged_in_order saved_as album_1337 waiting_for_photos)
    as [Hfirst Hany].
  - discriminate.
  - reflexivity.
  - reflexivity.
  - apply not_elem_of_empty.
  - apply not_elem_of_nil.
  - split.
    + destruct (Hfirst [first_photo; second_photo]) as (_ & _ & Hm & _).
      * discriminate.
      * reflexivity.
      * exact Hm.
    + destruct (Hany [photo_arrives first_photo; timer_fires album_1337;
                      photo_arrives second_photo]) as (_ & _ & Hp & _).
      * reflexivity.
      * exact Hp.
Defined.

(** C1 as stated fails: the timer is armed by the first photo and is not
    re-armed by the next ones, so a photo of the batch that arrives after
    the timer fired arms a second timer, and the batch is merged in two
    parts. *)
Lemma album_split_by_early_timer :
  snd (run saved_as
         [photo_arrives first_photo; timer_fires album_1337;
          photo_arrives second_photo; timer_fires album_1337]
         waiting_for_photos)
  = [entry_of first_photo; entry_of second_photo]
  /\ length (snd (run saved_as
                    [photo_arrives first_photo; timer_fires album_1337;
                     photo_arrives second_photo; timer_fires album_1337]
                    waiting_for_photos)) <> 1%nat.
Proof. split; [ vm_compute; reflexivity | vm_compute; discriminate ]. Qed.

End AlbumClaim.

(* ===================================================================== *)
(** * Further properties                                                  *)
(* ===================================================================== *)

(** ** Buttons and the handlers they reach *)

Section Buttons.
Import Database Keyboards Dispatch MyProducts.
Local Open Scope Z_scope.

Lemma split_no_sep (sep : pychar) (b : pystr) :
  Forall (fun c => (c =? sep)%N = false) b -> split sep b = [b].
Proof.
  induction 1 as [ | c b Hc Hb IH]; [ reflexivity | ].
  simpl. rewrite Hc, IH. reflexivity.
Qed.

(** The first handler of the table that accepts the query gets it. *)
Lemma route_at (state : option string) (data : pystr)
    (n : nat) (h : Handler) (name : string) :
  callback_handlers !! n = Some h ->
  handler_name h = name ->
  forallb (fun h' => negb (accepts state data h')) (take n callback_handlers)
  = true ->
  accepts state data h = true ->
  route state data = Some name.
Proof.
  intros Hn <- Hbefore Hh. unfold route.
  rewrite <- (take_drop_middle _ _ _ Hn).
  revert Hbefore. generalize (take n callback_handlers) as before.
  induction before as [ | h0 before IH]; simpl; intros Hbefore.
  - rewrite Hh. reflexivity.
  - apply andb_true_iff in Hbefore as [H0 Hrest].
    apply negb_true_iff in H0. rewrite H0. apply IH. exact Hrest.
Qed.

Lemma route_none (state : option string) (data : pystr) :
  forallb (fun h => negb (accepts state data h)) callback_handlers = true ->
  route state data = None.
Proof.
  unfold route. induction callback_handlers as [ | h l IH]; simpl; intros H.
  - reflexivity.
  - apply andb_true_iff in H as [H0 Hrest]. apply negb_true_iff in H0.
    rewrite H0. apply IH. exact Hrest.
Qed.

Lemma digit_is_decimal (c : pychar) : is_digit c = true -> is_decimal c = true.
Proof.
  unfold is_digit. rewrite andb_true_iff, !N.leb_le. intros [Hlo Hhi].
  unfold is_decimal, decimal, decimal_zeros. cbn [List.find].
  replace (48 <=? c)%N with true by (symmetry; apply N.leb_le; lia).
  replace (c <? 48 + 10)%N with true by (symmetry; apply N.ltb_lt; lia).
  reflexivity.
Qed.

Lemma digits_to_end_digits (s : pystr) (seen : bool) :
  Forall (fun c => is_digit c = true) s ->
  s <> [] \/ seen = true ->
  digits_to_end seen s = true.
Proof.
  intros Hs. revert seen. induction Hs as [ | c s Hc Hs IH]; intros seen Hne.
  - destruct Hne as [Hne | ->]; [ contradiction | reflexivity ].
  - simpl. rewrite (digit_is_decimal c Hc). apply IH. right. reflexivity.
Qed.

Lemma py_str_digits (n : Z) :
  0 <= n -> py_str n <> [] /\ Forall (fun c => is_digit c = true) (py_str n).
Proof.
  intros Hn. unfold py_str.
  destruct (Z.ltb_spec n 0) as [Hneg | _]; [ lia | ].
  destruct (digits_spec n Hn) as (Ha & Hne & _). split; assumption.
Qed.

(** A button whose data is a prefix that ends in an underscore followed
    by the id: the handler at place [n] of the table gets it, whatever
    the state, when no earlier filter matches the prefix. *)
Ltac routed n :=
  match goal with
  | |- route ?st (?prefix ++ py_str ?id) = Some ?name =>
      generalize (py_str id); intros s;
      eapply (route_at st (prefix ++ s) n);
      [ reflexivity | reflexivity | reflexivity | reflexivity ]
  end.

Lemma route_like (state : option string) (id : Z) :
  route state (lit "like_" ++ py_str id) = Some "handle_like"%string.
Proof. routed 31%nat. Qed.

Lemma route_save (state : option string) (id : Z) :
  route state (lit "save_" ++ py_str id) = Some "handle_save"%string.
Proof. routed 32%nat. Qed.

Lemma route_order (state : option string) (id : Z) :
  route state (lit "order_" ++ py_str id) = Some "handle_order_start"%string.
Proof. routed 33%nat. Qed.

Lemma route_post_channel (state : option string) (id : Z) :
  route state (lit "post_channel_" ++ py_str id)
  = Some "handle_post_to_channel"%string.
Proof. routed 14%nat. Qed.

Lemma route_mark_sold (state : option string) (id : Z) :
  route state (lit "mark_sold_" ++ py_str id) = Some "handle_mark_sold"%string.
Proof. routed 15%nat. Qed.

Lemma route_stats (state : option string) (id : Z) :
  route state (lit "stats_" ++ py_str id) = Some "handle_product_stats"%string.
Proof. routed 16%nat. Qed.


Lemma route_edit (state : option string) (id : Z) :
  0 <= id ->
  route state (lit "edit_" ++ py_str id) = Some "handle_edit_product"%string.
Proof.
  intros Hid. destruct (py_str_digits id Hid) as [Hne Hds].
  revert Hne Hds. generalize (py_str id). intros s Hne Hds.
  eapply (route_at state (lit "edit_" ++ s) 17%nat);
    [ reflexivity | reflexivity | reflexivity | ].
  unfold accepts. cbn [data_filter state_filter callback_handlers].
  rewrite andb_true_r. change (regexp_edit (lit "edit_" ++ s))
    with (digits_to_end false s).
  apply digits_to_end_digits; [ exact Hds | left; exact Hne ].
Qed.

(** The handler reads the id back from the part of the data it
    indexes. *)
Ltac reads :=
  match goal with
  | |- product_id_read _ (_ ++ py_str ?id) = Some ?id =>
      unfold product_id_read; cbn [existsb String.eqb Ascii.eqb Bool.eqb orb];
      unfold id_part;
      pose proof (split_no_sep 95%N _ (py_str_no_underscore id)) as Hsplit;
      pose proof (py_int_py_str id) as Hint;
      revert Hsplit Hint; generalize (py_str id); intros s Hsplit Hint;
      simpl; rewrite Hsplit; simpl; exact Hint
  end.

Lemma read_like (id : Z) :
  product_id_read "handle_like" (lit "like_" ++ py_str id) = Some id.
Proof. reads. Qed.

Lemma read_save (id : Z) :
  product_id_read "handle_save" (lit "save_" ++ py_str id) = Some id.
Proof. reads. Qed.

Lemma read_order (id : Z) :
  product_id_read "handle_order_start" (lit "order_" ++ py_str id) = Some id.
Proof. reads. Qed.

Lemma read_post_channel (id : Z) :
  product_id_read "handle_post_to_channel" (lit "post_channel_" ++ py_str id)
  = Some id.
Proof. reads. Qed.

Lemma read_mark_sold (id : Z) :
  product_id_read "handle_mark_sold" (lit "mark_sold_" ++ py_str id) = Some id.
Proof. reads. Qed.

Lemma read_stats (id : Z) :
  product_id_read "handle_product_stats" (lit "stats_" ++ py_str id) = Some id.
Proof. reads. Qed.

Lemma read_edit (id : Z) :
  product_id_read "handle_edit_product" (lit "edit_" ++ py_str id) = Some id.
Proof. reads. Qed.

(** Where the buttons of the shared rows lead. *)
Lemma engagement_rows_buttons
    (product_id : Z) (custom_button : option (pystr * pystr))
    (show_post_button : bool) (likes_count saves_count : Z)
    (like_enabled save_enabled order_enabled : bool)
    (state : option string) (row : list Button) (text data : pystr) :
  row ∈ engagement_rows product_id custom_button show_post_button
          likes_count saves_count like_enabled save_enabled order_enabled ->
  callback_button text data ∈ row ->
  exists handler,
    route state data = Some handler
    /\ product_id_read handler data = Some product_id.
Proof.
  unfold engagement_rows. intros Hrow Hbutton.
  destruct like_enabled, save_enabled, order_enabled, show_post_button,
    custom_button as [[custom_text custom_url] | ]; simpl in Hrow;
    pick_button;
    first [ exists "handle_like"%string; split; [ apply route_like | apply read_like ]
          | exists "handle_save"%string; split; [ apply route_save | apply read_save ]
          | exists "handle_order_start"%string;
            split; [ apply route_order | apply read_order ]
          | exists "handle_post_to_channel"%string;
            split; [ apply route_post_channel | apply read_post_channel ] ].
Qed.

(** X1. Every callback button of the keyboard under a product post
    reaches, in whatever FSM state the user is, the handler registered
    for it, and that handler reads back from the callback data the id of
    the product the keyboard was made for. *)
Theorem product_buttons_reach_their_handler
    (product_id : Z) (custom_button : option (pystr * pystr))
    (show_admin_buttons show_post_button : bool) (likes_count saves_count : Z)
    (like_enabled save_enabled order_enabled : bool)
    (state : option string) (row : list Button) (text data : pystr) :
  0 <= product_id ->
  row ∈ create_product_keyboard product_id custom_button show_admin_buttons
          show_post_button likes_count saves_count
          like_enabled save_enabled order_enabled ->
  callback_button text data ∈ row ->
  exists handler,
    route state data = Some handler
    /\ product_id_read handler data = Some product_id.
Proof.
  intros Hid Hrow Hbutton. unfold create_product_keyboard in Hrow.
  apply elem_of_app in Hrow as [Hrow | Hrow].
  - eapply engagement_rows_buttons; eassumption.
  - destruct show_admin_buttons; pick_button;
      first [ exists "handle_product_stats"%string;
              split; [ apply route_stats | apply read_stats ]
            | exists "handle_edit_product"%string;
              split; [ apply route_edit; exact Hid | apply read_edit ]
            | exists "handle_mark_sold"%string;
              split; [ apply route_mark_sold | apply read_mark_sold ] ].
Qed.

Lemma product_buttons_reach_their_handler_witness :
  exists handler,
    route (Some "ProductStates:waiting_photo"%string) (lit "edit_42")
    = Some handler
    /\ product_id_read handler (lit "edit_42") = Some 42.
Proof.
  apply (product_buttons_reach_their_handler
           42 None true true 3 1 true true true
           (Some "ProductStates:waiting_photo"%string)
           [callback_button (bar_chart ++ lit " Stats") (lit "stats_42");
            callback_button (pencil ++ lit " Edit") (lit "edit_42")]
           (pencil ++ lit " Edit") (lit "edit_42")).
  - lia.
  - vm_compute. do 3 apply list_elem_of_further. apply list_elem_of_here.
  - apply list_elem_of_further. apply list_elem_of_here.
Defined.





(** X3. Some buttons that the bot sends are answered by no handler, in
    whatever FSM state the user is: the position indicator of the
    carousel and of the pagination keyboard ("noop"), "Done" after a
    product is created, "Edit Details" and "Edit Description" under the
    previews, and "Scheduled Autoposting" ("schedule_" and the product
    id) after a product is saved. *)
Theorem buttons_without_handler
    (state : option string) (product_id : Z) (data : pystr) :
  data ∈ [lit "noop"; lit "done"; lit "edit_product"; lit "edit_description";
          lit "schedule_" ++ py_str product_id] ->
  route state data = None.
Proof.
  intros Hdata. pick_button; subst data; apply route_none; reflexivity.
Qed.

Lemma buttons_without_handler_witness :
  route (Some "ProductStates:post_action"%string) (lit "schedule_12") = None.
Proof.
  apply (buttons_without_handler
           (Some "ProductStates:post_action"%string) 12 (lit "schedule_12")).
  do 4 apply list_elem_of_further. apply list_elem_of_here.
Defined.

End Buttons.

(** ** Escaping and truncating text *)

Section Texts.
Import Keyboards.
Local Open Scope Z_scope.

(** Escaped text never starts with a special character. *)
Lemma escaped_head (t : pystr) :
  match flat_map escape_char t with
  | [] => True
  | d :: _ => is_special d = false
  end.
Proof.
  destruct t as [ | c t]; [ exact I | ].
  cbn [flat_map]. unfold escape_char at 1.
  destruct (is_special c) eqn:Hc; simpl; [ reflexivity | exact Hc ].
Qed.

Lemma unescape_escaped (t : pystr) : unescape (flat_map escape_char t) = t.
Proof.
  induction t as [ | c t IH]; [ reflexivity | ].
  cbn [flat_map]. unfold escape_char at 1.
  destruct (is_special c) eqn:Hc.
  - cbn [app unescape N.eqb Pos.eqb andb]. rewrite Hc, IH. reflexivity.
  - pose proof (escaped_head t) as Hhead.
    cbn [app]. destruct (flat_map escape_char t) as [ | d rest].
    + simpl in IH. subst t. reflexivity.
    + change (unescape (c :: d :: rest))
        with (if (c =? 92)%N && is_special d then d :: unescape rest
              else c :: unescape (d :: rest)).
      rewrite Hhead, andb_false_r, IH. reflexivity.
Qed.

(** X4. Escaping loses nothing: dropping the backslashes that stand in
    front of special characters gives the text back, so different texts
    have different escaped forms. *)
Theorem escape_markdown_is_lossless (text : pystr) :
  unescape (escape_markdown (Some text)) = text.
Proof. rewrite escape_markdown_chars. apply unescape_escaped. Qed.

Lemma guarded_escaped (t : pystr) (i : nat) (c : pychar) :
  flat_map escape_char t !! i = Some c ->
  is_special c = true ->
  exists j, i = S j /\ flat_map escape_char t !! j = Some 92%N.
Proof.
  revert i. induction t as [ | c0 t IH]; intros i Hi Hc; [ discriminate | ].
  cbn [flat_map] in *. unfold escape_char at 1 in Hi. unfold escape_char at 1.
  destruct (is_special c0) eqn:Hc0; cbn [app] in *.
  - destruct i as [ | [ | k]]; simpl in Hi.
    + injection Hi as <-. discriminate Hc.
    + exists 0%nat. split; reflexivity.
    + destruct (IH k Hi Hc) as (j & -> & Hj).
      exists (S (S j)). split; [ reflexivity | exact Hj ].
  - destruct i as [ | k]; simpl in Hi.
    + injection Hi as <-. congruence.
    + destruct (IH k Hi Hc) as (j & -> & Hj).
      exists (S j). split; [ reflexivity | exact Hj ].
Qed.

(** X5. In escaped text every special character stands directly behind
    a backslash; in particular the text never starts with one. *)
Theorem escaped_specials_are_guarded (text : pystr) (i : nat) (c : pychar) :
  escape_markdown (Some text) !! i = Some c ->
  is_special c = true ->
  exists j, i = S j /\ escape_markdown (Some text) !! j = Some 92%N.
Proof. rewrite escape_markdown_chars. apply guarded_escaped. Qed.

Lemma escaped_specials_are_guarded_witness :
  exists j, 2%nat = S j /\ escape_markdown (Some (lit "a_b*")) !! j = Some 92%N.
Proof.
  apply (escaped_specials_are_guarded (lit "a_b*") 2 95%N); reflexivity.
Defined.

Lemma escaped_length (t : pystr) :
  len (flat_map escape_char t) = len t + count_special t.
Proof.
  unfold len, count_special. induction t as [ | c t IH]; [ reflexivity | ].
  cbn [flat_map List.filter]. unfold escape_char at 1.
  destruct (is_special c); cbn [app length]; lia.
Qed.

(** X6. Escaping makes a text longer by the number of its special
    characters, and a text comes out unchanged exactly when it has
    none. *)
Theorem escape_markdown_length (text : pystr) :
  len (escape_markdown (Some text)) = len text + count_special text
  /\ (escape_markdown (Some text) = text <-> count_special text = 0).
Proof.
  rewrite escape_markdown_chars. change (escaped (Some text))
    with (flat_map escape_char text).
  split; [ apply escaped_length | ].
  split.
  - intros Heq. pose proof (escaped_length text) as Hlen.
    rewrite Heq in Hlen. lia.
  - unfold count_special. intros Hnone.
    induction text as [ | c t IH]; [ reflexivity | ].
    cbn [flat_map List.filter] in *. unfold escape_char at 1.
    destruct (is_special c); cbn [length] in Hnone; [ lia | ].
    cbn [app]. f_equal. apply IH. exact Hnone.
Qed.

(** X7. With a limit of at least three characters, [truncate_text]
    returns a text of at most that length: the text itself when it fits,
    and otherwise its first [max_length - 3] characters followed by three
    dots, which is exactly [max_length] characters. *)
Theorem truncate_text_length (text : pystr) (max_length : Z) :
  3 <= max_length ->
  len (truncate_text text max_length) = Z.min (len text) max_length
  /\ (len text <= max_length -> truncate_text text max_length = text)
  /\ (max_length < len text ->
      truncate_text text max_length
      = take (Z.to_nat (max_length - 3)) text ++ lit "...").
Proof.
  intros Hmax. unfold truncate_text, slice_to, len.
  destruct (Z.leb_spec (Z.of_nat (length text)) max_length) as [Hfits | Hlong].
  - split; [ lia | ]. split; [ reflexivity | lia ].
  - destruct (Z.ltb_spec (max_length - 3) 0) as [ | _]; [ lia | ].
    split; [ | split; [ lia | reflexivity ] ].
    rewrite length_app, length_take. simpl length. lia.
Qed.

Lemma truncate_text_length_witness :
  len (truncate_text (lit "Samsung Galaxy") 10) = Z.min (len (lit "Samsung Galaxy")) 10
  /\ (len (lit "Samsung Galaxy") <= 10 ->
      truncate_text (lit "Samsung Galaxy") 10 = lit "Samsung Galaxy")
  /\ (10 < len (lit "Samsung Galaxy") ->
      truncate_text (lit "Samsung Galaxy") 10
      = take (Z.to_nat (10 - 3)) (lit "Samsung Galaxy") ++ lit "...").
Proof. apply (truncate_text_length (lit "Samsung Galaxy") 10). lia. Defined.

(** Below three, the limit is not kept: the dots alone are longer. *)
Example truncate_text_short_limit :
  truncate_text (lit "abcd") 2 = lit "abc...".
Proof. reflexivity. Qed.

End Texts.

(** ** The next post time *)

Section NextPostTime.
Local Open Scope Z_scope.

Lemma replace_time_ok (d next : datetime) (h m : Z) :
  replace_time d h m = Ok next ->
  0 <= h < 24 /\ 0 <= m < 60 /\ next = mk_datetime (ordinal d) h m 0 0.
Proof.
  unfold replace_time.
  destruct (negb (fits_c_int h && fits_c_int m)); [ discriminate | ].
  destruct (Z.leb_spec 0 h); destruct (Z.ltb_spec h 24);
    destruct (Z.leb_spec 0 m); destruct (Z.ltb_spec m 60);
    simpl; intros Heq; try discriminate Heq.
  injection Heq as <-. repeat split; assumption.
Qed.

Lemma add_days_ok (d next : datetime) (n : Z) :
  add_days d n = Ok next ->
  1 <= ordinal d + n <= MAXORDINAL
  /\ next = mk_datetime (ordinal d + n) (hour d) (minute d) (second d)
                        (microsecond d).
Proof.
  unfold add_days.
  destruct (Z.leb_spec 1 (ordinal d + n));
    destruct (Z.leb_spec (ordinal d + n) MAXORDINAL);
    simpl; intros Heq; try discriminate Heq.
  injection Heq as <-. split; [ lia | reflexivity ].
Qed.

Lemma next_post_time_is_later_helper
    (now next : datetime) (interval_days : Z) (post_time_str : pystr) :
  valid_datetime now ->
  0 <= interval_days ->
  calculate_next_post_time now interval_days post_time_str = Ok next ->
  timestamp_us now < timestamp_us next.
Proof.
  intros (Ho & Hh & Hm & Hs & Hu) Hi. unfold calculate_next_post_time.
  destruct (parse_post_time post_time_str) as [h m].
  destruct (replace_time now h m) as [today | e] eqn:Htoday; [ | discriminate ].
  apply replace_time_ok in Htoday as (Hh' & Hm' & ->).
  unfold datetime_le.
  destruct (Z.leb_spec (timestamp_us (mk_datetime (ordinal now) h m 0 0))
                       (timestamp_us now)) as [Hpast | Hfuture].
  - destruct (add_days _ 1) as [tomorrow | e] eqn:Htomorrow; [ | discriminate ].
    apply add_days_ok in Htomorrow as (Hrange & ->). simpl in Hrange.
    intros Hnext. apply add_days_ok in Hnext as (Hrange' & ->).
    unfold timestamp_us in *. simpl in *. lia.
  - intros Hnext. apply add_days_ok in Hnext as (Hrange' & ->).
    unfold timestamp_us in *. simpl in *. lia.
Qed.

(** X8. Whenever [calculate_next_post_time] returns, for an interval that
    is not negative, the time it returns is a valid datetime on the
    minute, strictly after the current time, and between [interval_days]
    and [interval_days + 1] days after today's date; this holds for every
    post time text, readable or not. *)
Theorem next_post_time_is_later
    (now next : datetime) (interval_days : Z) (post_time_str : pystr) :
  valid_datetime now ->
  0 <= interval_days ->
  calculate_next_post_time now interval_days post_time_str = Ok next ->
  valid_datetime next
  /\ timestamp_us now < timestamp_us next
  /\ second next = 0 /\ microsecond next = 0
  /\ ordinal now + interval_days <= ordinal next
     <= ordinal now + interval_days + 1.
Proof.
  intros (Ho & Hh & Hm & Hs & Hu) Hi. unfold calculate_next_post_time.
  destruct (parse_post_time post_time_str) as [h m].
  destruct (replace_time now h m) as [today | e] eqn:Htoday; [ | discriminate ].
  apply replace_time_ok in Htoday as (Hh' & Hm' & ->).
  unfold datetime_le.
  destruct (Z.leb_spec (timestamp_us (mk_datetime (ordinal now) h m 0 0))
                       (timestamp_us now)) as [Hpast | Hfuture].
  - destruct (add_days _ 1) as [tomorrow | e] eqn:Htomorrow; [ | discriminate ].
    apply add_days_ok in Htomorrow as (Hrange & ->). simpl in Hrange.
    intros Hnext. apply add_days_ok in Hnext as (Hrange' & ->).
    simpl in Hrange'. unfold valid_datetime, timestamp_us in *. simpl in *.
    repeat split; lia.
  - intros Hnext. apply add_days_ok in Hnext as (Hrange' & ->).
    simpl in Hrange'. unfold valid_datetime, timestamp_us in *. simpl in *.
    repeat split; lia.
Qed.

Lemma next_post_time_is_later_witness :
  valid_datetime (mk_datetime 739000 0 0 0 0)
  /\ timestamp_us (mk_datetime 738999 23 59 30 0)
     < timestamp_us (mk_datetime 739000 0 0 0 0)
  /\ second (mk_datetime 739000 0 0 0 0) = 0
  /\ microsecond (mk_datetime 739000 0 0 0 0) = 0
  /\ 738999 + 0 <= ordinal (mk_datetime 739000 0 0 0 0) <= 738999 + 0 + 1.
Proof.
  apply (next_post_time_is_later
           (mk_datetime 738999 23 59 30 0) (mk_datetime 739000 0 0 0 0)
           0 (lit "00:00")).
  - unfold valid_datetime, MAXORDINAL. simpl. lia.
  - lia.
  - vm_compute. reflexivity.
Defined.

Lemma plain_is_no_colon (s : pystr) :
  Forall (fun c => plain c = true) s -> Forall (fun c => (c =? 58)%N = false) s.
Proof.
  intros H. eapply Forall_impl; [ exact H | ].
  intros c. unfold plain, is_digit.
  rewrite orb_true_iff, andb_true_iff, !N.leb_le, N.eqb_eq.
  intros Hc. apply N.eqb_neq. lia.
Qed.

(** A post time written as two numerals with a colon between them is
    read as these two numbers. *)
Lemma numerals_are_parsed (zeros_h zeros_m : nat) (h m : Z) :
  parse_post_time (numeral zeros_h h ++ lit ":" ++ numeral zeros_m m) = (h, m).
Proof.
  unfold parse_post_time.
  change (numeral zeros_h h ++ lit ":" ++ numeral zeros_m m)
    with (numeral zeros_h h ++ 58%N :: numeral zeros_m m).
  assert (Hsplit : split 58%N (numeral zeros_h h ++ 58%N :: numeral zeros_m m)
                   = [numeral zeros_h h; numeral zeros_m m]).
  { pose proof (plain_is_no_colon _ (numeral_is_plain zeros_h h)) as Hh.
    pose proof (plain_is_no_colon _ (numeral_is_plain zeros_m m)) as Hm.
    generalize dependent (numeral zeros_m m). intros b Hb.
    induction Hh as [ | c a Hc Ha IH].
    - cbn [app split]. rewrite N.eqb_refl.
      assert (Hone : split 58%N b = [b]).
      { induction Hb as [ | x b Hx Hb IHb]; [ reflexivity | ].
        simpl. rewrite Hx, IHb. reflexivity. }
      rewrite Hone. reflexivity.
    - cbn [app split]. rewrite Hc, IH. reflexivity. }
  rewrite Hsplit, !py_int_numeral. reflexivity.
Qed.

(** X9. The fallback to 09:00 covers only text that cannot be read as
    two integers. A post time of two numerals and a colon, with signs and
    leading zeros or without, of which the hour or the minute is out of
    range, as in "24:00" or "9:75", makes the function raise at every time
    of day and for every interval: [ValueError] when both numbers fit a C
    [int], [OverflowError] when one does not. (The numerals are within
    the 4300 digits that [int] reads.) *)
Theorem post_time_out_of_range_raises
    (now : datetime) (interval_days : Z) (zeros_h zeros_m : nat) (h m : Z) :
  ~ (0 <= h < 24 /\ 0 <= m < 60) ->
  (zeros_h + length (digits (Z.abs h)) <= 4300)%nat ->
  (zeros_m + length (digits (Z.abs m)) <= 4300)%nat ->
  calculate_next_post_time now interval_days
    (numeral zeros_h h ++ lit ":" ++ numeral zeros_m m)
  = Raise (if fits_c_int h && fits_c_int m then ValueError else OverflowError).
Proof.
  intros Hrange _ _. unfold calculate_next_post_time.
  rewrite numerals_are_parsed. unfold replace_time.
  destruct (fits_c_int h && fits_c_int m); cbn [negb]; [ | reflexivity ].
  destruct (Z.leb_spec 0 h); destruct (Z.ltb_spec h 24);
    destruct (Z.leb_spec 0 m); destruct (Z.ltb_spec m 60);
    simpl; try reflexivity.
  exfalso. apply Hrange. lia.
Qed.

Lemma post_time_out_of_range_raises_witness :
  calculate_next_post_time (mk_datetime 739000 10 0 0 0) 2 (lit "24:00")
  = Raise ValueError.
Proof.
  apply (post_time_out_of_range_raises
           (mk_datetime 739000 10 0 0 0) 2 0 1 24 0).
  - lia.
  - vm_compute. lia.
  - vm_compute. lia.
Defined.

(** An hour too large for a C [int] is another exception, and a
    negative minute is out of range as well. *)
Example post_time_far_out_of_range :
  calculate_next_post_time (mk_datetime 739000 10 0 0 0) 2
    (lit "2147483648:00") = Raise OverflowError
  /\ calculate_next_post_time (mk_datetime 739000 10 0 0 0) 2
       (lit "09:-5") = Raise ValueError.
Proof. split; vm_compute; reflexivity. Qed.

End NextPostTime.

(** ** More on the scheduler sweep *)

Section SweepMore.
Import Database Scheduler.
Local Open Scope Z_scope.

Variable send_photo : Z -> bool.
Variable clock : Z -> datetime.
Variable now : datetime.

Lemma update_schedule_post_time_engagements
    (i : Z) (last next : option datetime) (db : Db) :
  engagements (snd (update_schedule_post_time i last next db)) = engagements db.
Proof.
  unfold update_schedule_post_time. destruct (schedules db !! i); reflexivity.
Qed.

Ltac no_post := simpl; rewrite ?app_nil_r; split; reflexivity.

(** One turn of the loop: the engagements stay, and the post is the one
    that [post_of] reads off the database. *)
Lemma step_posts (db : Db) (sent : list Post) (s : PostSchedule.t) :
  engagements (fst (step send_photo clock now (db, sent) s)) = engagements db
  /\ snd (step send_photo clock now (db, sent) s)
     = sent ++ option_list (post_of send_photo now db s).
Proof.
  unfold step, post_of, post_one.
  destruct (is_due now s); simpl; [ | no_post ].
  destruct (get_product (PostSchedule.product_id s) db) as [product | ]; simpl;
    [ | no_post ].
  destruct (Product.is_active product); simpl;
    [ | destruct (get_user (PostSchedule.seller_id s) db); no_post ].
  destruct (get_user (PostSchedule.seller_id s) db) as [seller | ]; simpl;
    [ | no_post ].
  destruct (send_photo (PostSchedule.id s)); simpl; [ | no_post ].
  destruct (calculate_next_post_time _ _ _) as [next | e]; simpl;
    [ | split; reflexivity ].
  pose proof (update_schedule_post_time_engagements
                (PostSchedule.id s) (Some now) (Some next) db) as He.
  destruct (update_schedule_post_time _ _ _ db) as [row db']. simpl in *.
  split; [ exact He | reflexivity ].
Qed.

Lemma post_of_frame (s : PostSchedule.t) (db db' : Db) :
  users db' = users db -> products db' = products db ->
  post_of send_photo now db' s = post_of send_photo now db s.
Proof.
  intros Hu Hp. unfold post_of, get_product, get_user. rewrite Hu, Hp.
  reflexivity.
Qed.

Lemma omap_pointwise {A B} (f g : A -> option B) (l : list A) :
  (forall x, f x = g x) -> omap f l = omap g l.
Proof.
  intros Hfg. induction l as [ | x l IH]; [ reflexivity | ].
  rewrite !omap_cons_eq, Hfg, IH. reflexivity.
Qed.

Lemma sweep_posts_from (l : list PostSchedule.t) (db : Db) (sent : list Post) :
  engagements (fst (fold_left (step send_photo clock now) l (db, sent)))
  = engagements db
  /\ snd (fold_left (step send_photo clock now) l (db, sent))
     = sent ++ omap (post_of send_photo now db) l.
Proof.
  revert db sent. induction l as [ | s l IH]; intros db sent; cbn [fold_left].
  - simpl. rewrite app_nil_r. split; reflexivity.
  - destruct (step_posts db sent s) as [He Hs].
    destruct (step_effect send_photo clock now db sent s) as (Hu & Hp & _).
    destruct (step send_photo clock now (db, sent) s) as [db0 sent0].
    simpl in He, Hs, Hu, Hp.
    destruct (IH db0 sent0) as [He' Hs'].
    split; [ congruence | ].
    rewrite Hs', Hs, <- app_assoc. f_equal.
    rewrite omap_cons_eq.
    rewrite (omap_pointwise (post_of send_photo now db0)
                            (post_of send_photo now db) l)
      by (intros; apply post_of_frame; assumption).
    destruct (post_of send_photo now db s); reflexivity.
Qed.

(** X10. The posts of a sweep are, in the order of the snapshot, one
    for each schedule that is due, has an active product and a seller,
    and whose dispatch succeeds, whether or not the schedule can then be
    advanced; photo and caption are those of the product as it was
    before the sweep. *)
Theorem sweep_posts (l : list PostSchedule.t) (db : Db) :
  snd (check_and_post_scheduled send_photo clock now l db)
  = omap (post_of send_photo now db) l.
Proof.
  unfold check_and_post_scheduled.
  destruct (sweep_posts_from l db []) as [_ Hposts]. exact Hposts.
Qed.

(** X11. A sweep changes nothing but the two time stamps of schedules
    of its snapshot: users, products and engagements are as before, no
    schedule is created or deleted, and every schedule row is either
    untouched or has [last_posted_at] set to the time of the sweep and a
    new [next_post_at]. *)
Theorem sweep_changes_only_post_times (l : list PostSchedule.t) (db : Db) :
  NoDup (map PostSchedule.id l) ->
  let db' := fst (check_and_post_scheduled send_photo clock now l db) in
  users db' = users db
  /\ products db' = products db
  /\ engagements db' = engagements db
  /\ forall j,
       schedules db' !! j = schedules db !! j
       \/ (j ∈ map PostSchedule.id l
           /\ exists row next,
                schedules db !! j = Some row
                /\ schedules db' !! j
                   = Some (PostSchedule.set_post_times
                             (Some now) (Some next) row)).
Proof.
  intros Hnd db'.
  destruct (sweep_effect send_photo clock now l db [] Hnd)
    as (Hu & Hp & Hout & Hin).
  destruct (sweep_posts_from l db []) as [He _].
  fold (check_and_post_scheduled send_photo clock now l db) in Hu, Hp, Hout, Hin, He.
  fold db' in Hu, Hp, Hout, Hin, He.
  split; [ exact Hu | ]. split; [ exact Hp | ]. split; [ exact He | ].
  intros j. destruct (decide (j ∈ map PostSchedule.id l)) as [Hj | Hj].
  - apply list_elem_of_fmap in Hj as (s & -> & Hs).
    rewrite (Hin s Hs).
    destruct (advances send_photo clock now s db) as [next | ];
      [ | left; reflexivity ].
    destruct (schedules db !! PostSchedule.id s) as [row | ] eqn:Hrow;
      [ | left; reflexivity ].
    right. split.
    + apply list_elem_of_fmap. exists s. split; [ reflexivity | exact Hs ].
    + exists row, next. split; reflexivity.
  - left. apply Hout. exact Hj.
Qed.

(** X12. A schedule that a sweep has advanced is no longer due at the
    time of that sweep, so an immediate second sweep passes over it:
    provided the clock does not run backwards and the interval is not
    negative, its new [next_post_at] is later than the sweep, and its
    [last_posted_at] is the time of the sweep. *)
Theorem advanced_schedule_is_not_due
    (l : list PostSchedule.t) (db : Db) (s row' : PostSchedule.t) :
  is_snapshot db l ->
  s ∈ l ->
  valid_datetime (clock (PostSchedule.id s)) ->
  timestamp_us now <= timestamp_us (clock (PostSchedule.id s)) ->
  0 <= PostSchedule.interval_days s ->
  schedules (fst (check_and_post_scheduled send_photo clock now l db))
    !! PostSchedule.id s = Some row' ->
  row' <> s ->
  is_due now row' = false
  /\ PostSchedule.last_posted_at row' = Some now.
Proof.
  intros [Hnd Hrows] Hs Hvalid Hclock Hinterval Hrow' Hchanged.
  destruct (sweep_effect send_photo clock now l db [] Hnd) as (_ & _ & _ & Hin).
  specialize (Hin s Hs).
  fold (check_and_post_scheduled send_photo clock now l db) in Hin.
  rewrite Forall_forall in Hrows. destruct (Hrows s Hs) as [Hrow _].
  rewrite Hrow, Hrow' in Hin.
  destruct (advances send_photo clock now s db) as [next | ] eqn:Hadv;
    simpl in Hin; [ | congruence ].
  injection Hin as ->. split; [ | reflexivity ].
  unfold advances in Hadv.
  destruct (is_due now s); [ | discriminate ].
  destruct (get_product _ db); [ | discriminate ].
  destruct (get_user _ db); [ | discriminate ].
  destruct (_ && _); [ | discriminate ].
  destruct (calculate_next_post_time _ _ _) as [next' | e] eqn:Hnext;
    [ | discriminate ].
  injection Hadv as ->.
  apply next_post_time_is_later_helper in Hnext; [ | assumption .. ].
  unfold is_due, datetime_le. simpl. apply Z.leb_gt. lia.
Qed.

(** X13. When the dispatch of a due schedule succeeds but its next post
    time cannot be computed (a post time such as "24:00"), the post has
    gone out and the row is left as it was: the schedule is still due,
    and every later sweep posts it again. *)
Theorem posted_schedule_that_cannot_advance_stays_due
    (l : list PostSchedule.t) (db : Db) (s : PostSchedule.t)
    (product : Product.t) (seller : User.t) (e : PyExc) :
  is_snapshot db l ->
  s ∈ l ->
  is_due now s = true ->
  get_product (PostSchedule.product_id s) db = Some product ->
  Product.is_active product = true ->
  get_user (PostSchedule.seller_id s) db = Some seller ->
  send_photo (PostSchedule.id s) = true ->
  calculate_next_post_time (clock (PostSchedule.id s))
    (PostSchedule.interval_days s) (PostSchedule.post_time s) = Raise e ->
  let result := check_and_post_scheduled send_photo clock now l db in
  (exists caption,
     (PostSchedule.channel_username s, Product.image_path product, caption)
     ∈ snd result)
  /\ schedules (fst result) !! PostSchedule.id s = Some s.
Proof.
  intros [Hnd Hrows] Hs Hdue Hproduct Hactive Hseller Hsend Hnext result.
  split.
  - eexists. unfold result, check_and_post_scheduled.
    destruct (sweep_posts_from l db []) as [_ Hposts]. rewrite Hposts.
    cbn [app]. apply list_elem_of_omap. exists s. split; [ exact Hs | ].
    unfold post_of. rewrite Hdue, Hproduct, Hseller, Hactive, Hsend.
    reflexivity.
  - destruct (sweep_effect send_photo clock now l db [] Hnd) as (_ & _ & _ & Hin).
    specialize (Hin s Hs).
    fold (check_and_post_scheduled send_photo clock now l db) in Hin.
    fold result in Hin. rewrite Hin.
    rewrite Forall_forall in Hrows. destruct (Hrows s Hs) as [Hrow _].
    rewrite Hrow. unfold advances.
    rewrite Hdue, Hproduct, Hseller, Hactive, Hsend, Hnext. reflexivity.
Qed.

End SweepMore.

Lemma sweep_changes_only_post_times_witness :
  let db' :=
    fst (Scheduler.check_and_post_scheduled only_second_succeeds
           (fun _ => ten_o_clock) ten_o_clock
           [due_schedule 1; due_schedule 2] two_schedules_db) in
  Database.users db' = Database.users two_schedules_db
  /\ Database.products db' = Database.products two_schedules_db
  /\ Database.engagements db' = Database.engagements two_schedules_db
  /\ forall j,
       Database.schedules db' !! j = Database.schedules two_schedules_db !! j
       \/ (j ∈ map PostSchedule.id [due_schedule 1; due_schedule 2]
           /\ exists row next,
                Database.schedules two_schedules_db !! j = Some row
                /\ Database.schedules db' !! j
                   = Some (PostSchedule.set_post_times
                             (Some ten_o_clock) (Some next) row)).
Proof.
  apply (sweep_changes_only_post_times only_second_succeeds
           (fun _ => ten_o_clock) ten_o_clock
           [due_schedule 1; due_schedule 2] two_schedules_db).
  simpl. apply NoDup_cons. split; [ | apply NoDup_singleton ].
  intros Hin. apply list_elem_of_singleton in Hin. discriminate Hin.
Defined.

Lemma advanced_schedule_is_not_due_witness :
  Scheduler.is_due ten_o_clock
    (PostSchedule.set_post_times
       (Some ten_o_clock) (Some (mk_datetime 739003 9 0 0 0)) (due_schedule 2))
  = false
  /\ PostSchedule.last_posted_at
       (PostSchedule.set_post_times
          (Some ten_o_clock) (Some (mk_datetime 739003 9 0 0 0)) (due_schedule 2))
     = Some ten_o_clock.
Proof.
  apply (advanced_schedule_is_not_due only_second_succeeds
           (fun _ => ten_o_clock) ten_o_clock
           [due_schedule 1; due_schedule 2] two_schedules_db (due_schedule 2)).
  - split.
    + simpl. apply NoDup_cons. split; [ | apply NoDup_singleton ].
      intros Hin. apply list_elem_of_singleton in Hin. discriminate Hin.
    + repeat constructor.
  - apply list_elem_of_further. apply list_elem_of_here.
  - unfold valid_datetime, MAXORDINAL. simpl. lia.
  - simpl. lia.
  - simpl. lia.
  - vm_compute. reflexivity.
  - intros Heq. apply (f_equal PostSchedule.last_posted_at) in Heq.
    discriminate Heq.
Defined.

Lemma posted_schedule_that_cannot_advance_stays_due_witness :
  let result :=
    Scheduler.check_and_post_scheduled (fun _ => true)
      (fun _ => ten_o_clock) ten_o_clock [hour_24_schedule] hour_24_db in
  (exists caption,
     (PostSchedule.channel_username hour_24_schedule,
      Product.image_path sample_product, caption) ∈ snd result)
  /\ Database.schedules (fst result) !! PostSchedule.id hour_24_schedule
     = Some hour_24_schedule.
Proof.
  apply (posted_schedule_that_cannot_advance_stays_due (fun _ => true)
           (fun _ => ten_o_clock) ten_o_clock [hour_24_schedule] hour_24_db
           hour_24_schedule sample_product
           (User.mk None (Some (lit "Shop")) None (Some (lit "@shop")))
           ValueError).
  - split; [ simpl; apply NoDup_singleton | repeat constructor ].
  - apply list_elem_of_here.
  - reflexivity.
  - reflexivity.
  - reflexivity.
  - reflexivity.
  - reflexivity.
  - reflexivity.
Defined.

(** ** The intake dialogue: buttons, restarts and cancellation *)

Section IntakeDialogue.
Import Products Intake Dispatch Keyboards.
Local Open Scope Z_scope.

Variable download : Message.t -> Outcome pystr.
Variable add_watermark : pystr -> pystr -> pystr.
Variable path_exists : pystr -> bool.
Variable media_group_ok : list pystr -> bool.

Lemma route_select_main (i : Z) :
  route (Some (state_name waiting_main_image)) (lit "select_main_" ++ py_str i)
  = Some "handle_main_image_selection"%string.
Proof.
  generalize (py_str i). intros s.
  eapply (route_at _ (lit "select_main_" ++ s) 7%nat);
    [ reflexivity | reflexivity | reflexivity | reflexivity ].
Qed.

(** X14. After "Done adding photos" with several photos, every image
    button that the bot offers works: pressed in the state the dialogue
    is then in, it reaches [handle_main_image_selection], which makes
    the image of that button the main image, keeps the list of images as
    it was sent, and moves on to the description when the product type
    of the draft is "custom_description" and to the title otherwise; it
    never answers "Invalid selection". *)
Theorem main_image_buttons_select
    (message answer : Message.t) (ctx ctx' : FSMContext)
    (collected_photos : list CollectedPhoto.t)
    (media : list pystr) (count i : nat) :
  process_multiple_photos add_watermark path_exists media_group_ok
    message ctx collected_photos
  = (ctx', [message_answer_media_group media;
            message_answer (select_main_image count)
                           (select_main_keyboard count)]) ->
  (i < count)%nat ->
  let data := lit "select_main_" ++ py_str (Z.of_nat i) in
  let result := handle_main_image_selection (CallbackQuery.mk data answer) ctx' in
  (exists text, [callback_button text data] ∈ select_main_buttons count)
  /\ route (state_name <$> state ctx') data
     = Some "handle_main_image_selection"%string
  /\ exists path,
       media !! i = Some path
       /\ photo_path (Products.data (fst result)) = Some path
       /\ main_image_index (Products.data (fst result)) = Some (Z.of_nat i)
       /\ all_images (Products.data (fst result)) = Some media
       /\ state (fst result)
          = Some (if is_custom_description (Products.data ctx)
                  then waiting_description else waiting_title)
       /\ (product_type (Products.data ctx) = Some (lit "custom_description") ->
           state (fst result) = Some waiting_description)
       /\ (product_type (Products.data ctx) <> Some (lit "custom_description") ->
           state (fst result) = Some waiting_title).
Proof.
  intros Hdone Hi data result.
  unfold process_multiple_photos in Hdone.
  set (stamped := watermark_all add_watermark path_exists collected_photos) in *.
  destruct (map fst stamped) as [ | p ps] eqn:Hpaths; [ discriminate Hdone | ].
  destruct (media_group_ok (p :: ps)); [ | discriminate Hdone ].
  injection Hdone as <- <- <-.
  assert (Hlen : length (map snd stamped) = length (p :: ps)).
  { rewrite <- Hpaths, !length_map. reflexivity. }
  split; [ | split ].
  - eexists. unfold select_main_buttons. apply elem_of_app. left.
    apply list_elem_of_fmap. exists i. split; [ reflexivity | ].
    apply elem_of_seq. lia.
  - apply route_select_main.
  - destruct (lookup_lt_is_Some_2 (p :: ps) i Hi) as [path Hpath].
    destruct (lookup_lt_is_Some_2 (map snd stamped) i) as [orig Horig];
      [ rewrite Hlen; exact Hi | ].
    exists path. split; [ exact Hpath | ].
    subst result. unfold handle_main_image_selection.
    cbn [CallbackQuery.data]. subst data. rewrite selected_index_read.
    cbn [set_state update_data Products.data get_all_images
         get_all_original_images with_all_images all_images
         all_original_images default from_option id].
    destruct (Z.ltb_spec (Z.of_nat i) 0) as [ | _]; [ lia | ].
    destruct (Z.leb_spec (Z.of_nat (length (p :: ps))) (Z.of_nat i)) as [Hle | _];
      [ cbn [length] in Hle; lia | ].
    cbn [orb]. rewrite Nat2Z.id, Hpath, Horig.
    assert (Hcustom :
      is_custom_description
        (with_all_images (p :: ps) (map snd stamped) (Products.data ctx))
      = is_custom_description (Products.data ctx)) by reflexivity.
    rewrite Hcustom.
    pose proof (is_custom_description_iff (Products.data ctx)) as Htype.
    destruct (is_custom_description (Products.data ctx));
      cbn [fst Products.data Products.state set_state update_data with_main_image
           photo_path main_image_index all_images];
      (split; [ reflexivity | ]); (split; [ reflexivity | ]);
      (split; [ reflexivity | ]); (split; [ reflexivity | ]);
      split; intros Hgiven; try reflexivity; exfalso.
    + apply Hgiven. apply Htype. reflexivity.
    + apply Htype in Hgiven. discriminate Hgiven.
Qed.

(** X15. Cancelling does not drop an album that is still waiting for
    its timer: when the timer fires after "Cancel", the photos of the
    album are merged into the draft that the cancellation emptied, and
    the user is prompted with "Done adding photos" although no state is
    set, so that the button of the prompt reaches no handler. *)
Theorem cancel_keeps_pending_album
    (edit_ok : bool) (w : World) (g : pystr)
    (item : AlbumItem.t) (items : list AlbumItem.t) :
  album_buffer w !! g = Some (item :: items) ->
  g ∈ tasks w ->
  let cancelled := set_fsm (fst (handle_cancel_fsm edit_ok (fsm w))) w in
  let after := handle download (timer_fires g) cancelled in
  fsm cancelled = mk_ctx None empty_data
  /\ state (fsm (fst after)) = None
  /\ get_collected_photos (Products.data (fsm (fst after)))
     = map (merged_entry g) (item :: items)
  /\ snd after = Some (map (merged_entry g) (item :: items))
  /\ last (outbox (fst after))
     = Some (message_answer
               (photo_received (remaining_capacity
                                  (map (merged_entry g) (item :: items))))
               done_keyboard)
  /\ album_buffer (fst after) !! g = None
  /\ route (state_name <$> state (fsm (fst after))) (lit "photos_done") = None.
Proof.
  intros Hbuffer Htask cancelled after. subst after cancelled.
  unfold handle. cbn [set_fsm handle_cancel_fsm fst clear tasks album_buffer
                      album_tasks_scheduled fsm outbox].
  rewrite bool_decide_eq_true_2 by exact Htask.
  unfold _process_album_later.
  cbn [album_buffer album_tasks_scheduled tasks fsm outbox].
  rewrite Hbuffer. cbn [fst snd fsm outbox album_buffer state update_data
                        Products.data get_collected_photos with_collected_photos
                        collected_photos empty_data default app].
  split; [ reflexivity | ]. split; [ reflexivity | ].
  split; [ reflexivity | ]. split; [ reflexivity | ].
  split; [ apply last_snoc | ].
  split; [ apply lookup_delete_eq | ].
  apply route_none. reflexivity.
Qed.

(** X16. Starting a new product without cancelling the old draft keeps
    the old draft: /addproduct, "Standard Product" and a category lead
    to the photo step with the photos, title, description and price that
    the draft already held, and the next photo is appended to the old
    photos. *)
Theorem new_draft_inherits_photos
    (is_premium : bool) (product_count max_free_products : Z)
    (callback_data : pystr) (w : World) (m : Message.t) (path : pystr) :
  is_premium = true \/ product_count < max_free_products ->
  has_photo m = true ->
  Message.media_group_id m = None ->
  download m = Ok path ->
  let ctx1 :=
    fst (cmd_add_product true is_premium product_count max_free_products (fsm w)) in
  let ctx2 := fst (handle_standard_product true ctx1) in
  let ctx3 := fst (handle_category_selection true callback_data ctx2) in
  let w' := fst (handle download (photo_arrives m) (set_fsm ctx3 w)) in
  state ctx3 = Some waiting_photo
  /\ collected_photos (Products.data ctx3)
     = collected_photos (Products.data (fsm w))
  /\ title (Products.data ctx3) = title (Products.data (fsm w))
  /\ description (Products.data ctx3) = description (Products.data (fsm w))
  /\ price (Products.data ctx3) = price (Products.data (fsm w))
  /\ photo_path (Products.data ctx3) = photo_path (Products.data (fsm w))
  /\ exists file_id,
       get_collected_photos (Products.data (fsm w'))
       = get_collected_photos (Products.data (fsm w))
         ++ [CollectedPhoto.mk path file_id None].
Proof.
  intros Hguard Hphoto Hgroup Hdownload ctx1 ctx2 ctx3 w'.
  assert (H1 : ctx1 = set_state waiting_product_type (fsm w)).
  { subst ctx1. unfold cmd_add_product. cbn [negb].
    destruct Hguard as [-> | Hless]; [ reflexivity | ].
    replace (max_free_products <=? product_count) with false
      by (symmetry; apply Z.leb_gt; exact Hless).
    rewrite andb_false_r. reflexivity. }
  subst w' ctx3 ctx2. rewrite !H1.
  cbn [handle_standard_product handle_category_selection fst set_state
       update_data state Products.data with_category with_product_type
       collected_photos title description price photo_path].
  do 6 (split; [ reflexivity | ]).
  unfold handle.
  cbn [set_fsm fsm state handle_standard_product handle_category_selection fst
       set_state update_data].
  rewrite Hphoto. cbn [fst].
  destruct (standalone_photo_is_appended download m
              (set_fsm
                 (fst (handle_category_selection true callback_data
                         (fst (handle_standard_product true
                                 (set_state waiting_product_type (fsm w))))))
                 w)
              path Hphoto Hgroup Hdownload) as [file_id Happended].
  exists file_id. exact Happended.
Qed.

End IntakeDialogue.

Lemma main_image_buttons_select_witness :
  let data := lit "select_main_" ++ py_str (Z.of_nat 1) in
  let result :=
    Products.handle_main_image_selection
      (CallbackQuery.mk data (Products.answered 1 (lit "Select Main Image")))
      two_image_draft in
  (exists text,
     [Keyboards.callback_button text data] ∈ Intake.select_main_buttons 2)
  /\ Dispatch.route (Intake.state_name <$> Products.state two_image_draft) data
     = Some "handle_main_image_selection"%string
  /\ exists path,
       [lit "a_watermarked.jpg"; lit "b_watermarked.jpg"] !! 1%nat = Some path
       /\ Products.photo_path (Products.data (fst result)) = Some path
       /\ Products.main_image_index (Products.data (fst result))
          = Some (Z.of_nat 1)
       /\ Products.all_images (Products.data (fst result))
          = Some [lit "a_watermarked.jpg"; lit "b_watermarked.jpg"]
       /\ Products.state (fst result)
          = Some (if Products.is_custom_description
                       (Products.data
                          (Products.mk_ctx (Some Products.waiting_photo)
                                           Products.empty_data))
                  then Products.waiting_description
                  else Products.waiting_title)
       /\ (Products.product_type Products.empty_data
           = Some (lit "custom_description") ->
           Products.state (fst result) = Some Products.waiting_description)
       /\ (Products.product_type Products.empty_data
           <> Some (lit "custom_description") ->
           Products.state (fst result) = Some Products.waiting_title).
Proof.
  apply (main_image_buttons_select stamp_to (fun _ => true) (fun _ => true)
           (Products.answered 1 (lit "Photo received"))
           (Products.answered 1 (lit "Select Main Image"))
           (Products.mk_ctx (Some Products.waiting_photo) Products.empty_data)
           two_image_draft two_collected_photos
           [lit "a_watermarked.jpg"; lit "b_watermarked.jpg"] 2 1).
  - vm_compute. reflexivity.
  - lia.
Defined.

Lemma cancel_keeps_pending_album_witness :
  let cancelled :=
    Products.set_fsm
      (fst (Intake.handle_cancel_fsm true (Products.fsm album_pending)))
      album_pending in
  let after := Products.handle saved_as (Products.timer_fires album_1337)
                               cancelled in
  Products.fsm cancelled = Products.mk_ctx None Products.empty_data
  /\ Products.state (Products.fsm (fst after)) = None
  /\ Products.get_collected_photos (Products.data (Products.fsm (fst after)))
     = map (merged_entry album_1337) [first_photo_item]
  /\ snd after = Some (map (merged_entry album_1337) [first_photo_item])
  /\ last (Products.outbox (fst after))
     = Some (Products.message_answer
               (Products.photo_received
                  (Products.remaining_capacity
                     (map (merged_entry album_1337) [first_photo_item])))
               Products.done_keyboard)
  /\ Products.album_buffer (fst after) !! album_1337 = None
  /\ Dispatch.route
       (Intake.state_name <$> Products.state (Products.fsm (fst after)))
       (lit "photos_done") = None.
Proof.
  apply (cancel_keeps_pending_album saved_as true album_pending album_1337
           first_photo_item []).
  - vm_compute. reflexivity.
  - vm_compute. apply list_elem_of_here.
Defined.

Lemma new_draft_inherits_photos_witness :
  let ctx1 :=
    fst (Intake.cmd_add_product true false 2 30 (Products.fsm album_pending)) in
  let ctx2 := fst (Intake.handle_standard_product true ctx1) in
  let ctx3 :=
    fst (Intake.handle_category_selection true (lit "category_phones") ctx2) in
  let w' :=
    fst (Products.handle saved_as (Products.photo_arrives (photo_message None 3))
           (Products.set_fsm ctx3 album_pending)) in
  Products.state ctx3 = Some Products.waiting_photo
  /\ Products.collected_photos (Products.data ctx3)
     = Products.collected_photos (Products.data (Products.fsm album_pending))
  /\ Products.title (Products.data ctx3)
     = Products.title (Products.data (Products.fsm album_pending))
  /\ Products.description (Products.data ctx3)
     = Products.description (Products.data (Products.fsm album_pending))
  /\ Products.price (Products.data ctx3)
     = Products.price (Products.data (Products.fsm album_pending))
  /\ Products.photo_path (Products.data ctx3)
     = Products.photo_path (Products.data (Products.fsm album_pending))
  /\ exists file_id,
       Products.get_collected_photos (Products.data (Products.fsm w'))
       = Products.get_collected_photos
           (Products.data (Products.fsm album_pending))
         ++ [CollectedPhoto.mk (lit "media/products/large3.jpg") file_id None].
Proof.
  apply (new_draft_inherits_photos saved_as false 2 30 (lit "category_phones")
           album_pending (photo_message None 3)
           (lit "media/products/large3.jpg")).
  - right. lia.
  - reflexivity.
  - reflexivity.
  - vm_compute. reflexivity.
Defined.

(** ** Likes, saves and their counters *)

Section Counters.
Import Database DatabaseMore.
Local Open Scope Z_scope.

(** What a toggle does to a database in which the product exists: one
    engagement row and one product row are written. *)
Lemma toggle_like_effect (user_id product_id : Z) (db : Db) (p : Product.t) :
  products db !! product_id = Some p ->
  let now_liked := negb (liked_by db user_id product_id) in
  snd (toggle_like user_id product_id db)
  = mk_db (users db)
      (<[product_id :=
           Product.set_likes_count
             (if now_liked then Product.likes_count p + 1
              else Z.max 0 (Product.likes_count p - 1)) p]> (products db))
      (<[(user_id, product_id) :=
           Engagement.mk now_liked (saved_by db user_id product_id)]>
         (engagements db))
      (schedules db).
Proof.
  intros Hp. unfold toggle_like, get_or_create_engagement, liked_by, saved_by.
  destruct (engagements db !! (user_id, product_id)) as [[l s] | ] eqn:He;
    simpl; rewrite Hp; simpl.
  - unfold set_products, set_engagements. simpl. destruct l; reflexivity.
  - unfold set_products, set_engagements. simpl.
    rewrite insert_insert_eq. reflexivity.
Qed.

Lemma toggle_save_effect (user_id product_id : Z) (db : Db) (p : Product.t) :
  products db !! product_id = Some p ->
  let now_saved := negb (saved_by db user_id product_id) in
  snd (toggle_save user_id product_id db)
  = mk_db (users db)
      (<[product_id :=
           Product.set_saves_count
             (if now_saved then Product.saves_count p + 1
              else Z.max 0 (Product.saves_count p - 1)) p]> (products db))
      (<[(user_id, product_id) :=
           Engagement.mk (liked_by db user_id product_id) now_saved]>
         (engagements db))
      (schedules db).
Proof.
  intros Hp. unfold toggle_save, get_or_create_engagement, liked_by, saved_by.
  destruct (engagements db !! (user_id, product_id)) as [[l s] | ] eqn:He;
    simpl; rewrite Hp; simpl.
  - unfold set_products, set_engagements. simpl. destruct s; reflexivity.
  - unfold set_products, set_engagements. simpl.
    rewrite insert_insert_eq. reflexivity.
Qed.

Lemma toggle_missing_product (user_id product_id : Z) (db : Db) :
  products db !! product_id = None ->
  toggle_like user_id product_id db = (Raise DoesNotExist, db)
  /\ toggle_save user_id product_id db = (Raise DoesNotExist, db).
Proof.
  intros Hp. unfold toggle_like, toggle_save, get_or_create_engagement.
  destruct (engagements db !! (user_id, product_id)) as [[l s] | ];
    simpl; rewrite Hp; split; reflexivity.
Qed.

(** How many rows satisfy a predicate after one row is written. *)
Lemma size_filter_insert
    (P : Z * Z * Engagement.t -> Prop) `{!forall x, Decision (P x)}
    (m : gmap (Z * Z) Engagement.t) (k : Z * Z) (e : Engagement.t) :
  Z.of_nat (size (filter P (<[k := e]> m)))
  = Z.of_nat (size (filter P m))
    + (if decide (P (k, e)) then 1 else 0)
    - match m !! k with
      | Some e0 => if decide (P (k, e0)) then 1 else 0
      | None => 0
      end.
Proof.
  rewrite map_filter_insert.
  assert (Hlookup : filter P m !! k
                    = match m !! k with
                      | Some e0 => if decide (P (k, e0)) then Some e0 else None
                      | None => None
                      end).
  { rewrite map_lookup_filter. destruct (m !! k) as [e0 | ]; simpl; [ | reflexivity ].
    destruct (decide (P (k, e0))) as [Hyes | Hno].
    - rewrite option_guard_True by exact Hyes. reflexivity.
    - rewrite option_guard_False by exact Hno. reflexivity. }
  destruct (decide (P (k, e))) as [Hnew | Hnew].
  - rewrite map_size_insert, Hlookup.
    destruct (m !! k) as [e0 | ]; [ | simpl; lia ].
    destruct (decide (P (k, e0))); simpl; lia.
  - rewrite map_filter_delete, map_size_delete, Hlookup.
    destruct (m !! k) as [e0 | ]; [ | simpl; lia ].
    destruct (decide (P (k, e0))) as [Hold | Hold]; simpl; [ | lia ].
    assert (Hpos : size (filter P m) <> 0%nat).
    { intros Hzero. apply map_size_empty_inv in Hzero.
      rewrite Hzero, lookup_empty in Hlookup.
      destruct (decide (P (k, e0))); [ discriminate Hlookup | contradiction ]. }
    lia.
Qed.

Lemma size_filter_lookup
    (P : Z * Z * Engagement.t -> Prop) `{!forall x, Decision (P x)}
    (m : gmap (Z * Z) Engagement.t) (k : Z * Z) :
  match m !! k with
  | Some e0 => if decide (P (k, e0)) then 1 else 0
  | None => 0
  end <= Z.of_nat (size (filter P m)).
Proof.
  destruct (m !! k) as [e0 | ] eqn:Hk; [ | lia ].
  destruct (decide (P (k, e0))) as [Hyes | Hno]; [ | lia ].
  assert (Hin : filter P m !! k = Some e0)
    by (apply map_lookup_filter_Some; split; assumption).
  destruct (size (filter P m)) eqn:Hsize; [ | lia ].
  apply map_size_empty_inv in Hsize. rewrite Hsize, lookup_empty in Hin.
  discriminate Hin.
Qed.

(** Decides the membership tests of the counting predicates. *)
Ltac count_cases :=
  repeat match goal with
         | |- context [decide ?X] => destruct (decide X)
         end;
  simpl in *; intros;
  first [ lia | exfalso; intuition congruence ].

(** The two counters of a product after a row of the engagements is
    written, against the counters before. *)
Ltac count_after_write Hc user_id product_id :=
  match goal with
  | Hq : <[product_id := _]> (products ?db) !! ?q = Some ?rowq |- _ =>
      unfold like_count, save_count; cbn [engagements];
      rewrite !size_filter_insert;
      unfold liked_by, saved_by in *;
      destruct (decide (q = product_id)) as [-> | ?];
      [ rewrite lookup_insert_eq in Hq; injection Hq as <-;
        match goal with
        | Hp : products _ !! product_id = Some ?row |- _ =>
            generalize (Hc product_id row Hp)
        end
      | rewrite lookup_insert_ne in Hq by congruence;
        generalize (Hc q rowq Hq) ];
      unfold like_count, save_count;
      match goal with
      | |- context [filter ?P (engagements db)] =>
          match P with
          | context [Engagement.liked] =>
              generalize (size_filter_lookup P (engagements db)
                                             (user_id, product_id))
          end
      end;
      match goal with
      | |- context [filter ?P (engagements db)] =>
          match P with
          | context [Engagement.saved] =>
              generalize (size_filter_lookup P (engagements db)
                                             (user_id, product_id))
          end
      end;
      destruct (engagements db !! (user_id, product_id)) as [[[] []] | ];
      simpl; intros ? ? [? ?]; split; count_cases
  end.

Lemma toggle_like_consistent (user_id product_id : Z) (db : Db) :
  counts_consistent db ->
  counts_consistent (snd (toggle_like user_id product_id db)).
Proof.
  intros Hc. destruct (products db !! product_id) as [row | ] eqn:Hp.
  2: { destruct (toggle_missing_product user_id product_id db Hp) as [-> _].
       exact Hc. }
  rewrite (toggle_like_effect user_id product_id db row Hp).
  intros q rowq Hq. cbn [products] in Hq.
  count_after_write Hc user_id product_id.
Qed.

Lemma toggle_save_consistent (user_id product_id : Z) (db : Db) :
  counts_consistent db ->
  counts_consistent (snd (toggle_save user_id product_id db)).
Proof.
  intros Hc. destruct (products db !! product_id) as [row | ] eqn:Hp.
  2: { destruct (toggle_missing_product user_id product_id db Hp) as [_ ->].
       exact Hc. }
  rewrite (toggle_save_effect user_id product_id db row Hp).
  intros q rowq Hq. cbn [products] in Hq.
  count_after_write Hc user_id product_id.
Qed.

(** X17. Likes and saves keep the counters true: in a database in
    which the like and save counters of every product equal the numbers
    of users who like and have saved it, they still do after any
    [toggle_like] and any [toggle_save], by any user on any product,
    existing or not. *)
Theorem toggles_keep_counts_consistent (user_id product_id : Z) (db : Db) :
  counts_consistent db ->
  counts_consistent (snd (toggle_like user_id product_id db))
  /\ counts_consistent (snd (toggle_save user_id product_id db)).
Proof.
  intros Hc. split;
    [ apply toggle_like_consistent | apply toggle_save_consistent ]; exact Hc.
Qed.

Lemma one_product_db_consistent : counts_consistent one_product_db.
Proof.
  intros q row Hq. unfold one_product_db in Hq. cbn [products] in Hq.
  apply lookup_singleton_Some in Hq as [<- <-].
  unfold like_count, save_count, one_product_db. cbn [engagements].
  rewrite !map_filter_empty. split; reflexivity.
Qed.

Lemma toggles_keep_counts_consistent_witness :
  counts_consistent (snd (toggle_like 7 1 one_product_db))
  /\ counts_consistent (snd (toggle_save 7 1 one_product_db)).
Proof.
  apply (toggles_keep_counts_consistent 7 1 one_product_db).
  exact one_product_db_consistent.
Defined.

(** X18. Likes and saves do not touch each other: a [toggle_save]
    changes nobody's like and no product's like counter, and a
    [toggle_like] changes nobody's save and no product's save counter. *)
Theorem like_and_save_are_independent
    (user_id product_id other_user other_product : Z) (db : Db) :
  (liked_by (snd (toggle_save user_id product_id db)) other_user other_product
   = liked_by db other_user other_product
   /\ likes_of (snd (toggle_save user_id product_id db)) other_product
      = likes_of db other_product)
  /\ (saved_by (snd (toggle_like user_id product_id db)) other_user other_product
      = saved_by db other_user other_product
      /\ saves_of (snd (toggle_like user_id product_id db)) other_product
         = saves_of db other_product).
Proof.
  destruct (products db !! product_id) as [row | ] eqn:Hp.
  2: { destruct (toggle_missing_product user_id product_id db Hp) as [-> ->].
       repeat split; reflexivity. }
  rewrite (toggle_like_effect user_id product_id db row Hp).
  rewrite (toggle_save_effect user_id product_id db row Hp).
  unfold liked_by, saved_by, likes_of, saves_of. cbn [engagements products].
  destruct (decide ((other_user, other_product) = (user_id, product_id)))
    as [Hsame | Hother].
  - injection Hsame as -> ->. rewrite !lookup_insert_eq. simpl.
    rewrite Hp. simpl.
    destruct (engagements db !! (user_id, product_id)) as [[l s] | ];
      repeat split; reflexivity.
  - rewrite !(lookup_insert_ne (engagements db)) by congruence.
    destruct (decide (other_product = product_id)) as [-> | Hne].
    + rewrite !lookup_insert_eq, Hp. repeat split; reflexivity.
    + rewrite !(lookup_insert_ne (products db)) by congruence.
      repeat split; reflexivity.
Qed.

End Counters.

(** ** Orders *)

Section Ordering.
Import Database DatabaseMore Dispatch EngagementHandlers.
Local Open Scope Z_scope.

(** The store in which the order is created: the buyer is there. *)
Lemma buyer_is_registered
    (from_user_id : Z) (from_username : option pystr) (st : Store) :
  let st1 :=
    match get_user from_user_id (tables st) with
    | Some _ => st
    | None =>
        mk_store (snd (create_user from_user_id from_username (tables st)))
                 (orders st)
    end in
  is_Some (get_user from_user_id (tables st1))
  /\ products (tables st1) = products (tables st)
  /\ orders st1 = orders st
  /\ forall other, other <> from_user_id ->
       get_user other (tables st1) = get_user other (tables st).
Proof.
  unfold get_user, create_user.
  destruct (users (tables st) !! from_user_id) as [user | ] eqn:Hu; simpl.
  - rewrite Hu. split; [ eexists; reflexivity | ].
    repeat split; reflexivity.
  - rewrite lookup_insert_eq. split; [ eexists; reflexivity | ].
    split; [ reflexivity | ]. split; [ reflexivity | ].
    intros other Hother. apply lookup_insert_ne. congruence.
Qed.

(** What the handler does with an order for a product that is there and
    active, whose seller is there and whose price is set: the order is
    recorded before anything is sent, and counted once more after
    everything was sent. *)
Lemma order_outcome
    (chat_known confirmation_delivered : bool)
    (data : pystr) (product_id : Z) (product : Product.t) (seller : User.t)
    (amount : pyfloat)
    (from_user_id : Z) (from_username : option pystr) (st : Store) :
  id_part data 1 = Some product_id ->
  get_product product_id (tables st) = Some product ->
  Product.is_active product = true ->
  get_user (Product.seller_id product) (tables st) = Some seller ->
  Product.price product = Some amount ->
  let result :=
    handle_order_start chat_known confirmation_delivered data from_user_id
      from_username st in
  fst result
  = (if chat_known
     then if confirmation_delivered
          then [alert_order_confirmed; confirmation_to_buyer;
                notification_to_seller]
          else [alert_order_confirmed; alert_error_processing_order]
     else [alert_error_processing_order])
  /\ orders (snd result)
     = orders st ++ [Order.mk from_user_id (Product.seller_id product)
                              product_id 1 (lit "pending")]
  /\ orders_of (snd result) product_id
     = Some (Product.orders_count product
             + (if chat_known && confirmation_delivered then 2 else 1)).
Proof.
  intros Hid Hproduct Hactive Hseller Hprice result. subst result.
  unfold handle_order_start. rewrite Hid, Hproduct, Hactive, Hseller.
  cbn [negb].
  destruct (buyer_is_registered from_user_id from_username st)
    as ([buyer Hbuyer] & Hproducts & Horders & Hothers).
  revert Hbuyer Hproducts Horders Hothers.
  generalize (match get_user from_user_id (tables st) with
              | Some _ => st
              | None =>
                  mk_store (snd (create_user from_user_id from_username
                                             (tables st)))
                           (orders st)
              end).
  intros st1 Hbuyer Hproducts Horders Hothers.
  assert (Hseller1 : is_Some (get_user (Product.seller_id product) (tables st1))).
  { destruct (decide (Product.seller_id product = from_user_id)) as [-> | Hne].
    - eexists. exact Hbuyer.
    - rewrite Hothers by exact Hne. eexists. exact Hseller. }
  destruct Hseller1 as [seller1 Hseller1].
  unfold create_order. rewrite Hbuyer, Hseller1.
  unfold get_product in *. rewrite Hproducts, Hproduct, Hprice.
  destruct chat_known, confirmation_delivered; cbn [negb andb fst snd orders];
    rewrite Horders;
    (split; [ reflexivity | ]); (split; [ reflexivity | ]);
    unfold orders_of, update_product_engagement, set_products;
    cbn [tables products]; rewrite ?lookup_insert_eq;
    cbn [products fold_left]; rewrite ?lookup_insert_eq; simpl;
    f_equal; lia.
Qed.

(** X19. An order for a product that can be ordered adds exactly one
    order row, for one piece and pending, whatever happens to the
    messages. The order counter of the product rises by two when the
    confirmation message reaches the buyer, once in [create_order] and
    once more in [update_product_engagement], and by one when it does not
    reach the buyer; in that case the buyer gets the error alert, after
    the alert "Order confirmed!" if the chat of the button is known. *)
Theorem order_is_counted_twice
    (chat_known confirmation_delivered : bool)
    (product_id : Z) (product : Product.t) (seller : User.t)
    (amount : pyfloat)
    (from_user_id : Z) (from_username : option pystr) (st : Store) :
  get_product product_id (tables st) = Some product ->
  Product.is_active product = true ->
  get_user (Product.seller_id product) (tables st) = Some seller ->
  Product.price product = Some amount ->
  let result :=
    handle_order_start chat_known confirmation_delivered
      (lit "order_" ++ py_str product_id) from_user_id from_username st in
  orders (snd result)
  = orders st ++ [Order.mk from_user_id (Product.seller_id product)
                           product_id 1 (lit "pending")]
  /\ (chat_known = true -> confirmation_delivered = true ->
      fst result = [alert_order_confirmed; confirmation_to_buyer;
                    notification_to_seller]
      /\ orders_of (snd result) product_id
         = Some (Product.orders_count product + 2))
  /\ (chat_known = true -> confirmation_delivered = false ->
      fst result = [alert_order_confirmed; alert_error_processing_order]
      /\ orders_of (snd result) product_id
         = Some (Product.orders_count product + 1))
  /\ (chat_known = false ->
      fst result = [alert_error_processing_order]
      /\ orders_of (snd result) product_id
         = Some (Product.orders_count product + 1)).
Proof.
  intros Hproduct Hactive Hseller Hprice result.
  assert (Hid : id_part (lit "order_" ++ py_str product_id) 1 = Some product_id)
    by apply read_order.
  destruct (order_outcome chat_known confirmation_delivered _ _ _ _ _
              from_user_id from_username st
              Hid Hproduct Hactive Hseller Hprice) as (Hreplies & Horders & Hcount).
  fold result in Hreplies, Horders, Hcount.
  split; [ exact Horders | ].
  split; [ intros -> ->; split; [ exact Hreplies | exact Hcount ] | ].
  split; [ intros -> ->; split; [ exact Hreplies | exact Hcount ] | ].
  intros ->. split; [ exact Hreplies | exact Hcount ].
Qed.

Lemma order_is_counted_twice_witness :
  let result := handle_order_start true true (lit "order_1") 7 None shop_store in
  fst result = [alert_order_confirmed; confirmation_to_buyer;
                notification_to_seller]
  /\ orders (snd result)
     = orders shop_store ++ [Order.mk 7 1 1 1 (lit "pending")]
  /\ orders_of (snd result) 1 = Some 2.
Proof.
  destruct (order_is_counted_twice true true 1 sample_product
              (User.mk None (Some (lit "Shop")) None (Some (lit "@shop")))
              (PyFinite 2500) 7 None shop_store)
    as (Horders & Hdelivered & _); try reflexivity.
  destruct (Hdelivered eq_refl eq_refl) as [Hreplies Hcount].
  cbv zeta. split; [ exact Hreplies | ]. split; [ exact Horders | exact Hcount ].
Defined.

(** X20. An order for a product that does not exist or is not active
    changes nothing: no user, no order row and no counter. For an
    inactive product the buyer is told that it is no longer available;
    for a missing one the handler fails on [product.seller_id] and the
    buyer gets the general error. *)
Theorem order_for_unavailable_product_changes_nothing
    (chat_known confirmation_delivered : bool) (data : pystr) (product_id : Z)
    (from_user_id : Z) (from_username : option pystr) (st : Store) :
  id_part data 1 = Some product_id ->
  match get_product product_id (tables st) with
  | None =>
      handle_order_start chat_known confirmation_delivered data from_user_id
        from_username st = ([alert_error_processing_order], st)
  | Some product =>
      Product.is_active product = false ->
      handle_order_start chat_known confirmation_delivered data from_user_id
        from_username st = ([alert_no_longer_available], st)
  end.
Proof.
  intros Hid. unfold handle_order_start. rewrite Hid.
  destruct (get_product product_id (tables st)) as [product | ];
    [ | reflexivity ].
  intros ->. reflexivity.
Qed.

Lemma order_for_unavailable_product_changes_nothing_witness :
  handle_order_start true true (lit "order_5") 7 None shop_store
  = ([alert_error_processing_order], shop_store).
Proof.
  apply (order_for_unavailable_product_changes_nothing
           true true (lit "order_5") 5 7 None shop_store).
  reflexivity.
Defined.

(** X21. When the confirmation cannot be delivered to the buyer (the
    chat of the button is not known, or the message is refused), the last
    thing the buyer is shown is the general error, and no confirmation
    message; yet the order has been recorded: the order row is there and
    the counter of the product has gone up by one. *)
Theorem undelivered_order_is_still_recorded
    (chat_known confirmation_delivered : bool)
    (data : pystr) (product_id : Z) (product : Product.t) (seller : User.t)
    (amount : pyfloat)
    (from_user_id : Z) (from_username : option pystr) (st : Store) :
  id_part data 1 = Some product_id ->
  get_product product_id (tables st) = Some product ->
  Product.is_active product = true ->
  get_user (Product.seller_id product) (tables st) = Some seller ->
  Product.price product = Some amount ->
  chat_known && confirmation_delivered = false ->
  let result :=
    handle_order_start chat_known confirmation_delivered data from_user_id
      from_username st in
  last (fst result) = Some alert_error_processing_order
  /\ (confirmation_to_buyer ∉ fst result)
  /\ orders (snd result)
     = orders st ++ [Order.mk from_user_id (Product.seller_id product)
                              product_id 1 (lit "pending")]
  /\ orders_of (snd result) product_id
     = Some (Product.orders_count product + 1).
Proof.
  intros Hid Hproduct Hactive Hseller Hprice Hfailed result.
  destruct (order_outcome chat_known confirmation_delivered _ _ _ _ _
              from_user_id from_username st
              Hid Hproduct Hactive Hseller Hprice) as (Hreplies & Horders & Hcount).
  fold result in Hreplies, Horders, Hcount.
  rewrite Hfailed in Hcount.
  split; [ | split; [ | split; [ exact Horders | exact Hcount ] ] ];
    rewrite Hreplies;
    destruct chat_known, confirmation_delivered; try discriminate Hfailed;
    try reflexivity;
    intros Hin; pick_button; discriminate.
Qed.

Lemma undelivered_order_is_still_recorded_witness :
  let result := handle_order_start true false (lit "order_1") 7 None shop_store in
  last (fst result) = Some alert_error_processing_order
  /\ (confirmation_to_buyer ∉ fst result)
  /\ orders (snd result)
     = orders shop_store
       ++ [Order.mk 7 (Product.seller_id sample_product) 1 1 (lit "pending")]
  /\ orders_of (snd result) 1
     = Some (Product.orders_count sample_product + 1).
Proof.
  apply (undelivered_order_is_still_recorded
           true false (lit "order_1") 1 sample_product
           (User.mk None (Some (lit "Shop")) None (Some (lit "@shop")))
           (PyFinite 2500) 7 None shop_store); reflexivity.
Defined.

End Ordering.

(** ** The dialogue that creates a schedule *)

Section ScheduleCreation.
Import Database DatabaseMore Dispatch Keyboards ScheduleDialog.
Local Open Scope Z_scope.

(** The last step with a readable post time: the schedule is created
    and its first post time set. *)
Lemma schedule_time_selected_creates
    (now : datetime) (new_id : Z) (data : pystr) (from_user_id : Z) (db : Db)
    (st : option ScheduleStates) (id days : Z) (post_time : pystr) (h m : Z)
    (product : Product.t) (user : User.t) (channel : pystr) :
  py_index (split 95%N data) 1 = Ok post_time ->
  parse_post_time post_time = (h, m) ->
  0 <= h < 24 -> 0 <= m < 60 -> 0 <= days ->
  valid_datetime now ->
  ordinal now + 1 + days <= MAXORDINAL ->
  get_product id db = Some product ->
  get_user from_user_id db = Some user ->
  User.channel_username user = Some channel ->
  schedule_time_selected now new_id data from_user_id db
    (mk_context st (Some id) (Some days))
  = (mk_context None None None,
     set_schedules
       (insert new_id
          (PostSchedule.mk new_id from_user_id id channel days post_time true
             None (Some (mk_datetime (ordinal now + roll now h m + days)
                                     h m 0 0))))
       db,
     None).
Proof.
  intros Hdata Hparse Hh Hm Hdays Hvalid Hmax Hproduct Huser Hchannel.
  unfold schedule_time_selected. rewrite Hdata. cbn [product_id interval_days].
  rewrite (calculate_next_post_time_value now days post_time h m)
    by assumption.
  rewrite Hproduct, Huser, Hchannel.
  unfold create_schedule. rewrite Hproduct, Huser.
  unfold update_schedule_post_time, set_schedules.
  cbn [PostSchedule.id schedules users products engagements].
  rewrite lookup_insert_eq. cbn [users products engagements schedules].
  rewrite insert_insert_eq. reflexivity.
Qed.

Lemma schedule_product_selected_ok
    (id : Z) (db : Db) (product : Product.t) (ctx : Context) :
  get_product id db = Some product ->
  schedule_product_selected (lit "sched_prod_" ++ py_str id) db ctx
  = (mk_context (Some setting_interval) (Some id) (interval_days ctx), None).
Proof.
  intros Hproduct. unfold schedule_product_selected.
  pose proof (split_no_sep 95%N _ (py_str_no_underscore id)) as Hsplit.
  pose proof (py_int_py_str id) as Hint.
  revert Hsplit Hint. generalize (py_str id). intros s Hsplit Hint.
  simpl. rewrite Hsplit. simpl. rewrite Hint, Hproduct. reflexivity.
Qed.

(** What is left to show once the buttons are known. *)
Lemma dialogue_with_known_buttons
    (now : datetime) (new_id from_user_id id : Z) (db : Db)
    (product : Product.t) (user : User.t) (channel : pystr)
    (data_i data_t post_time : pystr) (days h m : Z) :
  schedule_interval_selected data_i
    (mk_context (Some setting_interval) (Some id) None)
  = (mk_context (Some setting_time) (Some id) (Some days), None) ->
  py_index (split 95%N data_t) 1 = Ok post_time ->
  parse_post_time post_time = (h, m) ->
  0 <= h < 24 -> 0 <= m < 60 ->
  days ∈ [1; 2; 3; 7] ->
  valid_datetime now ->
  ordinal now + 8 <= MAXORDINAL ->
  get_product id db = Some product ->
  get_user from_user_id db = Some user ->
  User.channel_username user = Some channel ->
  let step1 :=
    schedule_product_selected (lit "sched_prod_" ++ py_str id) db
      (mk_context (Some selecting_product) None None) in
  let step2 := schedule_interval_selected data_i (fst step1) in
  let step3 :=
    schedule_time_selected now new_id data_t from_user_id db (fst step2) in
  snd step1 = None /\ snd step2 = None /\ snd step3 = None
  /\ state (fst step1) = Some setting_interval
  /\ state (fst step2) = Some setting_time
  /\ fst (fst step3) = mk_context None None None
  /\ exists schedule next,
       schedules (snd (fst step3)) !! new_id = Some schedule
       /\ schedule
          = PostSchedule.mk new_id from_user_id id channel
              (PostSchedule.interval_days schedule)
              (PostSchedule.post_time schedule) true None (Some next)
       /\ PostSchedule.interval_days schedule ∈ [1; 2; 3; 7]
       /\ timestamp_us now < timestamp_us next
       /\ ordinal now + PostSchedule.interval_days schedule <= ordinal next
       /\ Scheduler.is_due now schedule = false.
Proof.
  intros Hstep2 Hdata Hparse Hh Hm Hdays Hvalid Hmax Hproduct Huser Hchannel
         step1 step2 step3.
  assert (Hrange : 0 <= days <= 7).
  { pick_button; lia. }
  subst step3 step2 step1.
  rewrite (schedule_product_selected_ok id db product _ Hproduct).
  cbn [fst snd interval_days]. rewrite Hstep2. cbn [fst snd state].
  rewrite (schedule_time_selected_creates now new_id data_t from_user_id db
             (Some setting_time) id days post_time h m product user channel)
    by first [ assumption | lia ].
  cbn [fst snd].
  do 6 (split; [ reflexivity | ]).
  eexists. eexists.
  split; [ unfold set_schedules; cbn [schedules]; apply lookup_insert_eq | ].
  cbn [PostSchedule.interval_days PostSchedule.post_time].
  split; [ reflexivity | ]. split; [ exact Hdays | ].
  pose proof (roll_is_strictly_later now h m Hvalid Hh Hm) as Hlater.
  assert (Hroll : 0 <= roll now h m) by (unfold roll; destruct (_ <=? _); lia).
  assert (Hnext :
    timestamp_us now
    < timestamp_us (mk_datetime (ordinal now + roll now h m + days) h m 0 0)).
  { unfold timestamp_us in *. simpl in *. lia. }
  split; [ exact Hnext | ].
  split; [ simpl; lia | ].
  unfold Scheduler.is_due, datetime_le. cbn [PostSchedule.next_post_at].
  apply Z.leb_gt. exact Hnext.
Qed.

(** X22. Whatever interval button and whatever time button the seller
    presses, the three steps of the /schedule dialogue go through without
    an exception and leave one new schedule for the chosen product,
    active, never posted, with one of the intervals 1, 2, 3 or 7; its
    first post time is later than now by at least the interval, so the
    schedule is not due when it is created, and the dialogue data are
    cleared. *)
Theorem dialogue_creates_a_schedule_that_is_not_due
    (now : datetime) (new_id from_user_id id : Z) (db : Db)
    (product : Product.t) (user : User.t) (channel : pystr)
    (row_i row_t : list Button) (text_i data_i text_t data_t : pystr) :
  row_i ∈ interval_keyboard -> callback_button text_i data_i ∈ row_i ->
  row_t ∈ time_keyboard -> callback_button text_t data_t ∈ row_t ->
  data_i <> lit "sched_cancel" -> data_t <> lit "sched_cancel" ->
  valid_datetime now ->
  ordinal now + 8 <= MAXORDINAL ->
  get_product id db = Some product ->
  get_user from_user_id db = Some user ->
  User.channel_username user = Some channel ->
  let step1 :=
    schedule_product_selected (lit "sched_prod_" ++ py_str id) db
      (mk_context (Some selecting_product) None None) in
  let step2 := schedule_interval_selected data_i (fst step1) in
  let step3 :=
    schedule_time_selected now new_id data_t from_user_id db (fst step2) in
  (route (Some (state_name selecting_product)) (lit "sched_prod_" ++ py_str id)
   = Some "schedule_product_selected"%string
   /\ route (Some (state_name setting_interval)) data_i
      = Some "schedule_interval_selected"%string
   /\ route (Some (state_name setting_time)) data_t
      = Some "schedule_time_selected"%string)
  /\ snd step1 = None /\ snd step2 = None /\ snd step3 = None
  /\ state (fst step1) = Some setting_interval
  /\ state (fst step2) = Some setting_time
  /\ fst (fst step3) = mk_context None None None
  /\ exists schedule next,
       schedules (snd (fst step3)) !! new_id = Some schedule
       /\ schedule
          = PostSchedule.mk new_id from_user_id id channel
              (PostSchedule.interval_days schedule)
              (PostSchedule.post_time schedule) true None (Some next)
       /\ PostSchedule.interval_days schedule ∈ [1; 2; 3; 7]
       /\ timestamp_us now < timestamp_us next
       /\ ordinal now + PostSchedule.interval_days schedule <= ordinal next
       /\ Scheduler.is_due now schedule = false.
Proof.
  intros Hrow_i Hbutton_i Hrow_t Hbutton_t Hnot_i Hnot_t
         Hvalid Hmax Hproduct Huser Hchannel.
  unfold interval_keyboard in Hrow_i. unfold time_keyboard in Hrow_t.
  pick_button; try contradiction;
    (split;
     [ split; [ generalize (py_str id); intros s;
                eapply (route_at _ (lit "sched_prod_" ++ s) 34%nat);
                reflexivity
              | split; vm_compute; reflexivity ]
     | ]);
    match goal with
    | |- context [schedule_interval_selected (lit ?i) _] =>
        match goal with
        | |- context [schedule_time_selected _ _ (lit ?t) _ _ _] =>
            eapply (dialogue_with_known_buttons now new_id from_user_id id db
                      product user channel (lit i) (lit t));
            [ vm_compute; reflexivity | vm_compute; reflexivity
            | vm_compute; reflexivity | lia | lia
            | repeat first [ apply list_elem_of_here | apply list_elem_of_further ]
            | assumption .. ]
        end
    end.
Qed.

End ScheduleCreation.

Lemma dialogue_creates_a_schedule_that_is_not_due_witness :
  let db := DatabaseMore.tables shop_store in
  let step1 :=
    ScheduleDialog.schedule_product_selected (lit "sched_prod_" ++ py_str 1) db
      (ScheduleDialog.mk_context (Some ScheduleDialog.selecting_product)
                                 None None) in
  let step2 :=
    ScheduleDialog.schedule_interval_selected (lit "interval_2") (fst step1) in
  let step3 :=
    ScheduleDialog.schedule_time_selected ten_o_clock 1 (lit "time_09:00") 1 db
      (fst step2) in
  (Dispatch.route
     (Some (ScheduleDialog.state_name ScheduleDialog.selecting_product))
     (lit "sched_prod_" ++ py_str 1)
   = Some "schedule_product_selected"%string
   /\ Dispatch.route
        (Some (ScheduleDialog.state_name ScheduleDialog.setting_interval))
        (lit "interval_2")
      = Some "schedule_interval_selected"%string
   /\ Dispatch.route
        (Some (ScheduleDialog.state_name ScheduleDialog.setting_time))
        (lit "time_09:00")
      = Some "schedule_time_selected"%string)
  /\ snd step1 = None /\ snd step2 = None /\ snd step3 = None
  /\ ScheduleDialog.state (fst step1) = Some ScheduleDialog.setting_interval
  /\ ScheduleDialog.state (fst step2) = Some ScheduleDialog.setting_time
  /\ fst (fst step3) = ScheduleDialog.mk_context None None None
  /\ exists schedule next,
       Database.schedules (snd (fst step3)) !! 1%Z = Some schedule
       /\ schedule
          = PostSchedule.mk 1 1 1 (lit "@shop")
              (PostSchedule.interval_days schedule)
              (PostSchedule.post_time schedule) true None (Some next)
       /\ PostSchedule.interval_days schedule ∈ [1; 2; 3; 7]%Z
       /\ (timestamp_us ten_o_clock < timestamp_us next)%Z
       /\ (ordinal ten_o_clock + PostSchedule.interval_days schedule
           <= ordinal next)%Z
       /\ Scheduler.is_due ten_o_clock schedule = false.
Proof.
  apply (dialogue_creates_a_schedule_that_is_not_due
           ten_o_clock 1 1 1 (DatabaseMore.tables shop_store) sample_product
           (User.mk None (Some (lit "Shop")) None (Some (lit "@shop")))
           (lit "@shop")
           [Keyboards.callback_button (lit "Every Day") (lit "interval_1");
            Keyboards.callback_button (lit "Every 2 Days") (lit "interval_2")]
           [Keyboards.callback_button (lit "9:00 AM") (lit "time_09:00");
            Keyboards.callback_button (lit "12:00 PM") (lit "time_12:00")]
           (lit "Every 2 Days") (lit "interval_2")
           (lit "9:00 AM") (lit "time_09:00")).
  - apply list_elem_of_here.
  - apply list_elem_of_further. apply list_elem_of_here.
  - apply list_elem_of_here.
  - apply list_elem_of_here.
  - discriminate.
  - discriminate.
  - unfold valid_datetime, MAXORDINAL. simpl. lia.
  - unfold MAXORDINAL. simpl. lia.
  - reflexivity.
  - reflexivity.
  - reflexivity.
Defined.

(** ** A displayed price, typed back *)

Section PriceRoundTrip.
Import Products.
Local Open Scope Z_scope.

Lemma replace_no_comma (s : pystr) :
  Forall (fun c => (c =? 44)%N = false) s -> replace 44%N [] s = s.
Proof.
  induction 1 as [ | c s Hc Hs IH]; [ reflexivity | ].
  rewrite replace_cons, Hc, IH. reflexivity.
Qed.

(** Grouping only inserts commas. *)
Lemma replace_group3_rev (r : pystr) :
  Forall (fun c => (c =? 44)%N = false) r ->
  replace 44%N [] (group3_rev r) = r.
Proof.
  induction r as [r IH] using (induction_ltof1 _ (@length pychar)).
  intros Hr. destruct r as [ | a [ | b [ | c [ | d rest]]]];
    try (apply replace_no_comma; exact Hr).
  change (group3_rev (a :: b :: c :: d :: rest))
    with (a :: b :: c :: 44%N :: group3_rev (d :: rest)).
  apply Forall_cons in Hr as [Ha Hr]. apply Forall_cons in Hr as [Hb Hr].
  apply Forall_cons in Hr as [Hc Hr].
  rewrite !replace_cons, Ha, Hb, Hc. cbn [N.eqb Pos.eqb app].
  rewrite IH; [ reflexivity | unfold ltof; simpl; lia | exact Hr ].
Qed.

Lemma group3_rev_chars (P : pychar -> Prop) (r : pystr) :
  P 44%N -> Forall P r -> Forall P (group3_rev r).
Proof.
  intros Hcomma.
  induction r as [r IH] using (induction_ltof1 _ (@length pychar)).
  intros Hr. destruct r as [ | a [ | b [ | c [ | d rest]]]]; try exact Hr.
  change (group3_rev (a :: b :: c :: d :: rest))
    with (a :: b :: c :: 44%N :: group3_rev (d :: rest)).
  apply Forall_cons in Hr as [Ha Hr]. apply Forall_cons in Hr as [Hb Hr].
  apply Forall_cons in Hr as [Hc Hr].
  repeat (constructor; [ assumption | ]).
  apply IH; [ unfold ltof; simpl; lia | exact Hr ].
Qed.

Lemma digit_is_no_comma (c : pychar) :
  is_digit c = true -> (c =? 44)%N = false.
Proof.
  unfold is_digit. rewrite andb_true_iff, !N.leb_le. intros [Hlo Hhi].
  apply N.eqb_neq. lia.
Qed.

Lemma replace_group3 (ds : pystr) :
  Forall (fun c => is_digit c = true) ds -> replace 44%N [] (group3 ds) = ds.
Proof.
  intros Hds. unfold group3. rewrite replace_comma_rev.
  rewrite replace_group3_rev, rev_involutive; [ reflexivity | ].
  apply Forall_rev. eapply Forall_impl; [ exact Hds | ].
  intros c. apply digit_is_no_comma.
Qed.

Lemma group3_no_space (ds : pystr) :
  Forall (fun c => is_digit c = true) ds ->
  Forall (fun c => isspace c = false) (group3 ds).
Proof.
  intros Hds. unfold group3. apply Forall_rev.
  apply group3_rev_chars; [ reflexivity | ].
  apply Forall_rev. apply digits_no_space. exact Hds.
Qed.

Lemma two_digits_spec (n : Z) :
  0 <= n < 100 ->
  Forall (fun c => is_digit c = true) (two_digits n)
  /\ digits_value (two_digits n) 0 = n.
Proof.
  intros Hn. unfold two_digits.
  assert (Hq : 0 <= n / 10 < 10).
  { split; [ apply Z.div_pos; lia | apply Z.div_lt_upper_bound; lia ]. }
  assert (Hr : 0 <= n mod 10 < 10) by (apply Z.mod_pos_bound; lia).
  destruct (digit_char _ Hq) as [Hd1 Hv1].
  destruct (digit_char _ Hr) as [Hd2 Hv2].
  split; [ repeat constructor; assumption | ].
  unfold digits_value. simpl. rewrite Hv1, Hv2.
  pose proof (Z.div_mod n 10). lia.
Qed.

Lemma round_half_even_nonneg (q : Q) :
  (0 <= q)%Q -> 0 <= round_half_even (q * 100).
Proof.
  intros Hq. unfold round_half_even.
  assert (Hnum : 0 <= Qnum (q * 100)).
  { unfold Qle in Hq. simpl in *. lia. }
  assert (Hfloor : 0 <= Qnum (q * 100) / Z.pos (Qden (q * 100)))
    by (apply Z.div_pos; lia).
  cbv zeta.
  destruct (_ <? _); [ exact Hfloor | ].
  destruct (_ <? _); [ lia | ].
  destruct (Z.even _); lia.
Qed.

(** The digits before and after the point, read as a number. *)
Lemma floatnumber_of_amount (ip fr : Z) (rest : pystr) :
  0 <= ip -> 0 <= fr < 100 ->
  match rest with
  | [] => True
  | c :: _ => is_digit c = false /\ (c =? 95)%N = false
  end ->
  floatnumber (digits ip ++ 46%N :: two_digits fr ++ rest)
  = match exponent rest with
    | Some e => Some (scale10 (ip * ten_pow 2 + fr) (e - 2))
    | None => None
    end.
Proof.
  intros Hip Hfr Hrest.
  destruct (digits_spec ip Hip) as (Hds & Hne & Hval).
  destruct (two_digits_spec fr Hfr) as [Hfs Hfval].
  unfold floatnumber.
  rewrite (digitpart_digits (digits ip) (46%N :: two_digits fr ++ rest))
    by first [ assumption | split; reflexivity ].
  rewrite Hval. cbv iota beta. rewrite N.eqb_refl.
  rewrite (digitpart_digits (two_digits fr) rest)
    by first [ assumption | discriminate ].
  rewrite Hfval. reflexivity.
Qed.

Lemma digit_is_lower (d : pychar) : is_digit d = true -> lower d = d.
Proof.
  unfold is_digit, lower. rewrite andb_true_iff, !N.leb_le. intros [Hlo Hhi].
  destruct (N.leb_spec 65 d); [ lia | reflexivity ].
Qed.

(** Text that starts with a digit is none of the words that [float]
    knows. *)
Lemma digit_starts_no_word (d : pychar) (s w : pystr) :
  is_digit d = true ->
  match w with [] => True | c :: _ => is_digit c = false end ->
  pystr_eqb (map lower (d :: s)) w = false.
Proof.
  intros Hd Hw. unfold pystr_eqb. apply bool_decide_eq_false_2.
  intros Heq. destruct w as [ | c w]; [ discriminate Heq | ].
  cbn [map] in Heq. injection Heq as Hc _.
  rewrite (digit_is_lower d Hd) in Hc. congruence.
Qed.

Lemma ascii_is_kept (s : pystr) :
  Forall (fun c => (c <? 127)%N = true) s -> to_ascii s = Some s.
Proof.
  induction 1 as [ | c s Hc Hs IH]; [ reflexivity | ].
  simpl. unfold to_ascii_char. rewrite Hc, IH. reflexivity.
Qed.

Lemma digits_are_ascii (s : pystr) :
  Forall (fun c => is_digit c = true) s ->
  Forall (fun c => (c <? 127)%N = true) s.
Proof.
  intros H. eapply Forall_impl; [ exact H | ].
  intros c. unfold is_digit. rewrite andb_true_iff, !N.leb_le. intros [Hlo Hhi].
  apply N.ltb_lt. lia.
Qed.

Lemma py_float_of_amount (ip fr : Z) (rest : pystr) :
  0 <= ip -> 0 <= fr < 100 ->
  match rest with
  | [] => True
  | c :: _ => is_digit c = false /\ (c =? 95)%N = false
  end ->
  Forall (fun c => (c <? 127)%N = true) rest ->
  strip (digits ip ++ 46%N :: two_digits fr ++ rest)
  = digits ip ++ 46%N :: two_digits fr ++ rest ->
  py_float (digits ip ++ 46%N :: two_digits fr ++ rest)
  = match exponent rest with
    | Some e => Some (binary64 (scale10 (ip * ten_pow 2 + fr) (e - 2)))
    | None => None
    end.
Proof.
  intros Hip Hfr Hrest Hascii Hstrip. unfold py_float. rewrite Hstrip.
  pose proof (floatnumber_of_amount ip fr rest Hip Hfr Hrest) as Hnumber.
  destruct (digits_spec ip Hip) as (Hds & Hne & _).
  rewrite ascii_is_kept.
  2: { apply Forall_app. split; [ apply digits_are_ascii; exact Hds | ].
       constructor; [ reflexivity | ].
       apply Forall_app. split; [ | exact Hascii ].
       apply digits_are_ascii. apply (two_digits_spec fr Hfr). }
  destruct (digits ip) as [ | d ds]; [ contradiction | ].
  apply Forall_cons in Hds as [Hd Hds].
  cbn [app] in *. rewrite (sign_of_digit d _ Hd).
  rewrite !(digit_starts_no_word d _ _ Hd) by reflexivity.
  cbn [orb]. rewrite Hnumber. destruct (exponent rest); reflexivity.
Qed.

(** The amount as the bot displays it for a price that is not
    negative, and what the price step reads it as. *)
Lemma displayed_amount_is_parsed (q : Q) :
  (0 <= q)%Q ->
  let cents := round_half_even (q * 100) in
  parse_price (format_2f (PyFinite q)) = Some (binary64 (Qred (cents # 100)))
  /\ parse_price (format_price (PyFinite q)) = None.
Proof.
  intros Hq cents.
  pose proof (round_half_even_nonneg q Hq) as Hcents. fold cents in Hcents.
  assert (Hip : 0 <= cents / 100) by (apply Z.div_pos; lia).
  assert (Hfr : 0 <= cents mod 100 < 100) by (apply Z.mod_pos_bound; lia).
  destruct (digits_spec _ Hip) as (Hds & Hne & _).
  destruct (two_digits_spec _ Hfr) as [Hfs _].
  assert (Htext :
    format_2f (PyFinite q)
    = group3 (digits (cents / 100)) ++ 46%N :: two_digits (cents mod 100)).
  { unfold format_2f.
    replace (Qle_bool 0 q) with true
      by (symmetry; apply Qle_bool_iff; exact Hq).
    reflexivity. }
  assert (Hplain : forall rest,
    Forall (fun c => (c =? 44)%N = false) rest ->
    replace 44%N []
      (group3 (digits (cents / 100)) ++ 46%N :: two_digits (cents mod 100)
       ++ rest)
    = digits (cents / 100) ++ 46%N :: two_digits (cents mod 100) ++ rest).
  { intros rest Hrest. rewrite replace_app, replace_group3 by exact Hds.
    f_equal. apply replace_no_comma. constructor; [ reflexivity | ].
    apply Forall_app. split; [ | exact Hrest ].
    eapply Forall_impl; [ exact Hfs | ]. intros c. apply digit_is_no_comma. }
  assert (Hsum : cents / 100 * ten_pow 2 + cents mod 100 = cents).
  { unfold ten_pow. change (10 ^ 2) with 100.
    pose proof (Z.div_mod cents 100). lia. }
  split.
  - unfold parse_price. rewrite Htext.
    rewrite strip_no_space.
    2: { apply Forall_app. split; [ apply group3_no_space; exact Hds | ].
         constructor; [ reflexivity | apply digits_no_space; exact Hfs ]. }
    pose proof (Hplain [] ltac:(constructor)) as Hreplace.
    rewrite !app_nil_r in Hreplace. rewrite Hreplace.
    pose proof (py_float_of_amount (cents / 100) (cents mod 100) [] Hip Hfr I
                  ltac:(constructor))
      as Hfloat.
    rewrite !app_nil_r in Hfloat. rewrite Hfloat.
    + cbn [exponent]. rewrite Hsum. reflexivity.
    + apply strip_no_space. apply Forall_app.
      split; [ apply digits_no_space; exact Hds | ].
      constructor; [ reflexivity | apply digits_no_space; exact Hfs ].
  - unfold parse_price, format_price. rewrite Htext.
    assert (Hclean : forall head : pystr,
      head <> [] ->
      Forall (fun c => isspace c = false) head ->
      strip (head ++ 46%N :: two_digits (cents mod 100) ++ lit " Birr")
      = head ++ 46%N :: two_digits (cents mod 100) ++ lit " Birr").
    { intros head Hhead Hspace. apply strip_clean.
      - destruct head as [ | c head]; [ contradiction | ].
        apply Forall_cons in Hspace as [Hc _]. exact Hc.
      - change (46%N :: two_digits (cents mod 100) ++ lit " Birr")
          with ((46%N :: two_digits (cents mod 100) ++ lit " Bir") ++ [114%N]).
        rewrite app_assoc, rev_app_distr. reflexivity. }
    rewrite <- app_assoc. cbn [app].
    change ((46%N :: two_digits (cents mod 100)) ++ lit " Birr")
      with (46%N :: two_digits (cents mod 100) ++ lit " Birr").
    rewrite Hclean.
    2: { intros Hnil. apply (f_equal (replace 44%N [])) in Hnil.
         rewrite replace_group3 in Hnil by exact Hds. contradiction. }
    2: { apply group3_no_space. exact Hds. }
    rewrite Hplain by (repeat constructor).
    rewrite (py_float_of_amount (cents / 100) (cents mod 100) (lit " Birr")
               Hip Hfr).
    + reflexivity.
    + split; reflexivity.
    + repeat constructor.
    + apply Hclean; [ exact Hne | apply digits_no_space; exact Hds ].
Qed.

(** The nearest integer is within one half. *)
Lemma round_half_even_near (x : Q) :
  (inject_Z (round_half_even x) - (1 # 2) <= x
   /\ x <= inject_Z (round_half_even x) + (1 # 2))%Q.
Proof.
  destruct x as [a b]. unfold round_half_even. cbn [Qnum Qden].
  pose proof (Z.div_mod a (Z.pos b) ltac:(lia)) as Hdm.
  pose proof (Z.mod_pos_bound a (Z.pos b) ltac:(lia)) as Hm.
  set (fl := a / Z.pos b) in *. set (m := a mod Z.pos b) in *.
  unfold Qle, Qminus, Qplus, Qopp, inject_Z. cbn [Qnum Qden].
  destruct (Z.ltb_spec (2 * m) (Z.pos b)) as [Hlt | Hge].
  - split; nia.
  - destruct (Z.ltb_spec (Z.pos b) (2 * m)) as [Hgt | Hle].
    + split; nia.
    + destruct (Z.even fl); split; nia.
Qed.

(** A rational strictly within one half of an integer is rounded to
    it. *)
Lemma round_half_even_unique (x : Q) (n : Z) :
  (inject_Z n - (1 # 2) < x)%Q -> (x < inject_Z n + (1 # 2))%Q ->
  round_half_even x = n.
Proof.
  destruct x as [a b]. unfold round_half_even. cbn [Qnum Qden].
  pose proof (Z.div_mod a (Z.pos b) ltac:(lia)) as Hdm.
  pose proof (Z.mod_pos_bound a (Z.pos b) ltac:(lia)) as Hm.
  set (fl := a / Z.pos b) in *. set (m := a mod Z.pos b) in *.
  unfold Qlt, Qminus, Qplus, Qopp, inject_Z. cbn [Qnum Qden].
  intros Hlo Hhi.
  destruct (Z.ltb_spec (2 * m) (Z.pos b)) as [Hlt | Hge].
  - nia.
  - destruct (Z.ltb_spec (Z.pos b) (2 * m)) as [Hgt | Hle].
    + nia.
    + destruct (Z.even fl); nia.
Qed.

Lemma floor_log2_upper (q : Q) (N : Z) :
  0 <= N -> (0 < q)%Q -> (q < inject_Z (2 ^ (N + 1)))%Q -> floor_log2 q <= N.
Proof.
  intros HN Hpos Hlt. destruct q as [a b]. unfold floor_log2. cbn [Qnum Qden].
  assert (Ha : 0 < a) by (unfold Qlt in Hpos; simpl in Hpos; lia).
  assert (Hab : a < Z.pos b * 2 ^ (N + 1))
    by (unfold Qlt in Hlt; simpl in Hlt; lia).
  assert (Hlog : Z.log2 a <= (N + 1) + Z.log2 (Z.pos b)).
  { rewrite <- Z.log2_mul_pow2 by lia. apply Z.log2_le_mono. lia. }
  set (e := Z.log2 a - Z.log2 (Z.pos b)) in *.
  destruct (Qle_bool (pow2 e) (a # b)) eqn:Hle; [ | lia ].
  destruct (Z_le_gt_dec e N) as [ | Hbig]; [ assumption | exfalso ].
  apply Qle_bool_iff in Hle. unfold pow2 in Hle.
  destruct (Z.leb_spec 0 e) as [_ | Hneg]; [ | lia ].
  unfold Qle in Hle. cbn [Qnum Qden inject_Z] in Hle.
  assert (Hpow : 2 ^ (N + 1) <= 2 ^ e) by (apply Z.pow_le_mono_r; lia).
  nia.
Qed.

(** The binary64 nearest to an amount of [c] hundredths, from 0.01 to
    10,000,000.00: it is positive, not above 10,000,000, and [c] is what
    it is in hundredths when rounded. *)
Lemma binary64_of_amount (c : Z) :
  1 <= c <= 1000000000 ->
  exists v,
    binary64 (Qred (c # 100)) = PyFinite v
    /\ (0 < v)%Q /\ (v <= inject_Z 10000000)%Q
    /\ round_half_even (v * 100) = c.
Proof.
  intros Hc.
  set (d := Qred (c # 100)).
  assert (Hd : (d == c # 100)%Q) by apply Qred_correct.
  assert (Hdpos : (0 < d)%Q) by (rewrite Hd; unfold Qlt; simpl; lia).
  assert (Hnum : 0 < Qnum d) by (unfold Qlt in Hdpos; simpl in Hdpos; lia).
  assert (Hlog : floor_log2 d <= 23).
  { apply floor_log2_upper; [ lia | exact Hdpos | ].
    rewrite Hd. unfold Qlt. simpl. lia. }
  unfold binary64. destruct (Qnum d) as [ | p | p] eqn:Hp; [ lia | | lia ].
  unfold nearest_binary64.
  set (s := Z.max (floor_log2 d - 52) (-1074)).
  assert (Hs : -1074 <= s <= -29) by lia.
  set (B := 2 ^ (- s)).
  assert (HB : 2 ^ 29 <= B) by (apply Z.pow_le_mono_r; lia).
  assert (Hpow : pow2 s = 1 # Z.to_pos B).
  { unfold pow2. destruct (Z.leb_spec 0 s); [ lia | reflexivity ]. }
  rewrite Hpow.
  set (n := round_half_even (d / (1 # Z.to_pos B))).
  assert (Hx : (d / (1 # Z.to_pos B) == c * B # 100)%Q).
  { rewrite Hd. unfold Qeq, Qdiv, Qmult, Qinv. cbn [Qnum Qden].
    rewrite Z2Pos.id by lia. lia. }
  destruct (round_half_even_near (d / (1 # Z.to_pos B))) as [Hlo Hhi].
  fold n in Hlo, Hhi. rewrite Hx in Hlo, Hhi.
  unfold Qle, Qminus, Qplus, Qopp, inject_Z in Hlo, Hhi.
  cbn [Qnum Qden] in Hlo, Hhi.
  set (v := Qred (inject_Z n * (1 # Z.to_pos B))).
  assert (Hv : (v == n # Z.to_pos B)%Q).
  { unfold v. rewrite Qred_correct. unfold Qeq, Qmult, inject_Z.
    cbn [Qnum Qden]. lia. }
  assert (Hn1 : 1 <= n) by nia.
  assert (Hn2 : n <= 10000000 * B) by nia.
  assert (Hsmall : Qle_bool (pow2 1024) v = false).
  { destruct (Qle_bool (pow2 1024) v) eqn:Hle; [ exfalso | reflexivity ].
    apply Qle_bool_iff in Hle. rewrite Hv in Hle.
    change (pow2 1024) with (2 ^ 1024 # 1) in Hle.
    unfold Qle in Hle. cbn [Qnum Qden] in Hle.
    rewrite Z2Pos.id in Hle by lia.
    assert (Hbig : 10000000 < 2 ^ 1024) by (vm_compute; reflexivity).
    nia. }
  rewrite Hsmall. exists v. split; [ reflexivity | ].
  split; [ | split ].
  - rewrite Hv. unfold Qlt. simpl. lia.
  - rewrite Hv. unfold Qle, inject_Z. cbn [Qnum Qden].
    rewrite Z2Pos.id by lia. lia.
  - apply round_half_even_unique; rewrite Hv;
      unfold Qlt, Qminus, Qplus, Qopp, Qmult, inject_Z; cbn [Qnum Qden];
      rewrite ?Pos2Z.inj_mul, Z2Pos.id by lia; nia.
Qed.

(** X23. A price as the bot displays it can be typed back. For every
    price that is displayed as an amount from 0.01 to 10,000,000.00, the
    price step accepts the amount that [format_price] shows, thousands
    separators included, stores the float nearest to that amount, and the
    stored price is displayed as the same amount again. A displayed 0.00
    is refused as not positive, and with the word "Birr" left in, the text
    is no number and the step answers that the price is invalid; in both
    cases the draft stays as it is. *)
Theorem displayed_price_is_read_back (q : Q) (ctx : FSMContext) :
  (0 <= q)%Q ->
  let cents := round_half_even (q * 100) in
  let shown := format_2f (PyFinite q) in
  (1 <= cents <= 1000000000 ->
   exists stored st replies continuation,
     binary64 (Qred (cents # 100)) = PyFinite stored
     /\ product_price_received (text_message shown) ctx
        = Ok (mk_ctx st (with_price (PyFinite stored) (data ctx)),
              replies, continuation)
     /\ format_2f (PyFinite stored) = shown)
  /\ (cents = 0 ->
      product_price_received (text_message shown) ctx
      = Ok (ctx, [message_answer price_not_positive no_keyboard], None))
  /\ product_price_received (text_message (format_price (PyFinite q))) ctx
     = Ok (ctx, [message_answer invalid_price no_keyboard], None).
Proof.
  intros Hq cents shown.
  destruct (displayed_amount_is_parsed q Hq) as [Hparse Hbirr].
  fold cents in Hparse. fold shown in Hparse.
  destruct (price_step (text_message shown) shown ctx eq_refl)
    as (Haccept & _ & Hrefuse & _).
  split; [ | split ].
  - intros Hcents.
    destruct (binary64_of_amount cents Hcents) as (stored & Hstored & Hpos & Hmax & Hround).
    rewrite Hstored in Hparse.
    destruct (Haccept (PyFinite stored) Hparse) as (st & replies & continuation & Hstep).
    + apply (finite_price_in_range stored). split; assumption.
    + apply (finite_price_in_range stored). split; assumption.
    + exists stored, st, replies, continuation.
      split; [ exact Hstored | ]. split; [ exact Hstep | ].
      unfold shown, format_2f.
      replace (Qle_bool 0 stored) with true
        by (symmetry; apply Qle_bool_iff; apply Qlt_le_weak; exact Hpos).
      replace (Qle_bool 0 q) with true
        by (symmetry; apply Qle_bool_iff; exact Hq).
      cbn [negb]. rewrite Hround. reflexivity.
  - intros Hzero. apply (Hrefuse (PyFinite 0)).
    + rewrite Hparse, Hzero. reflexivity.
    + reflexivity.
  - destruct (price_step (text_message (format_price (PyFinite q)))
                         (format_price (PyFinite q)) ctx eq_refl)
      as (_ & Hinvalid & _).
    apply Hinvalid. exact Hbirr.
Qed.

(** 1,234.10 is no binary64: the price that is stored is the nearest
    one, and it is displayed as 1,234.10 again. *)
Lemma displayed_price_is_read_back_witness :
  exists st replies continuation,
    product_price_received (text_message (lit "1,234.10"))
      (mk_ctx (Some waiting_price) empty_data)
    = Ok (mk_ctx st (with_price (PyFinite (2713814599676723 # 2199023255552)) empty_data),
          replies, continuation)
    /\ format_2f (PyFinite (2713814599676723 # 2199023255552)) = lit "1,234.10".
Proof.
  destruct (displayed_price_is_read_back 1234.1
              (mk_ctx (Some waiting_price) empty_data)) as [Haccept _].
  - unfold Qle. simpl. lia.
  - destruct Haccept as (stored & st & replies & continuation
                         & Hstored & Hstep & Hshown).
    + vm_compute. split; discriminate.
    + vm_compute in Hstored. injection Hstored as <-.
      exists st, replies, continuation. split; [ exact Hstep | exact Hshown ].
Defined.

Example displayed_price_example :
  format_price (PyFinite 1234567.5) = lit "1,234,567.50 Birr"
  /\ parse_price (lit "1,234,567.50") = Some (PyFinite (2469135 # 2))
  /\ parse_price (lit "0.10")
     = Some (PyFinite (3602879701896397 # 36028797018963968))
  /\ format_2f (PyFinite (3602879701896397 # 36028797018963968)) = lit "0.10".
Proof. repeat split; vm_compute; reflexivity. Qed.

End PriceRoundTrip.

(** ** Category fields *)

Section CategoryFields.
Import Products Creation.
Local Open Scope Z_scope.









End CategoryFields.


Example two_fields_answered :
  Creation.field_values
    (answer_all true [lit "iPhone"; lit " 15 Pro "]
       (fst (Creation.show_category_fields true (lit "phones")
               (Creation.mk_session two_image_draft None None None))))
  = Some [(lit "brand", lit "iPhone"); (lit "model", lit "15 Pro")].
Proof. vm_compute. reflexivity. Qed.

(** ** Creating the product *)

Section ProductCreation.
Import Database DatabaseMore Products Creation.
Local Open Scope Z_scope.

Lemma without_index_after {A} (target : Z) (start : nat) (l : list A) :
  target < Z.of_nat start ->
  flat_map (fun ix : nat * A =>
              if Z.of_nat (fst ix) =? target then [] else [snd ix])
           (combine (seq start (length l)) l)
  = l.
Proof.
  revert start. induction l as [ | x l IH]; intros start Hlt; [ reflexivity | ].
  cbn [length seq combine flat_map fst snd].
  destruct (Z.eqb_spec (Z.of_nat start) target) as [ | _]; [ lia | ].
  cbn [app]. f_equal. apply IH. lia.
Qed.

Lemma without_index_from {A} (start i : nat) (l : list A) :
  (i < length l)%nat ->
  flat_map (fun ix : nat * A =>
              if Z.of_nat (fst ix) =? Z.of_nat (start + i) then [] else [snd ix])
           (combine (seq start (length l)) l)
  = take i l ++ drop (S i) l.
Proof.
  revert start i. induction l as [ | x l IH]; intros start i Hi;
    [ simpl in Hi; lia | ].
  cbn [length seq combine flat_map fst snd].
  destruct i as [ | i].
  - rewrite Nat.add_0_r, Z.eqb_refl. cbn [app take drop].
    apply without_index_after. lia.
  - destruct (Z.eqb_spec (Z.of_nat start) (Z.of_nat (start + S i))) as [ | _];
      [ lia | ].
    cbn [app take drop]. f_equal.
    replace (start + S i)%nat with (S start + i)%nat by lia.
    apply IH. simpl in Hi. lia.
Qed.

(** Leaving out the image at an index that is there: the images before
    it and the images after it. *)
Lemma without_index_spec {A} (index : Z) (l : list A) :
  0 <= index < Z.of_nat (length l) ->
  without_index index l
  = take (Z.to_nat index) l ++ drop (S (Z.to_nat index)) l.
Proof.
  intros Hindex. unfold without_index.
  rewrite <- (without_index_from 0 (Z.to_nat index) l) by lia.
  cbn [Nat.add]. rewrite Z2Nat.id by lia. reflexivity.
Qed.

Lemma dict_get_set {V} (key : pystr) (value : V) (d : list (pystr * V)) :
  dict_get key (dict_set key value d) = Some value.
Proof.
  unfold dict_get, dict_set.
  destruct (existsb _ d) eqn:Hthere.
  - induction d as [ | [k v] d IH]; [ discriminate Hthere | ].
    cbn [existsb map List.find fst] in *.
    destruct (pystr_eqb k key) eqn:Hk.
    + cbn [fst]. rewrite Hk. reflexivity.
    + cbn [fst]. rewrite Hk. apply IH. exact Hthere.
  - induction d as [ | [k v] d IH].
    + cbn [app List.find fst]. unfold pystr_eqb.
      rewrite bool_decide_eq_true_2 by reflexivity. reflexivity.
    + cbn [existsb fst] in Hthere. apply orb_false_iff in Hthere as [Hk Hrest].
      cbn [app List.find fst]. rewrite Hk. apply IH. exact Hrest.
Qed.

Lemma gallery_is_the_rest (index : Z) (images : list pystr) :
  0 <= index < Z.of_nat (length images) ->
  (2 <= length images)%nat ->
  match without_index index images with
  | [] => None
  | gallery => Some gallery
  end
  = Some (take (Z.to_nat index) images ++ drop (S (Z.to_nat index)) images).
Proof.
  intros Hindex Hmany. rewrite without_index_spec by exact Hindex.
  destruct (take _ images ++ drop _ images) as [ | x rest] eqn:Hrest;
    [ | reflexivity ].
  apply (f_equal (@length pystr)) in Hrest.
  rewrite length_app, length_take, length_drop in Hrest. simpl in Hrest. lia.
Qed.

(** X25. "Create Product" on a finished draft (main image, title and
    price present, and the description for a custom description) adds
    exactly one product row, active and with all counters at zero, for
    the pressing user, with the main image as its image; the gallery
    stored with it is every other image of the draft, in order; the
    draft is cleared even when the messages that follow cannot be sent.
    A second press therefore finds no draft, is answered with the error
    and creates nothing. *)
Theorem confirmed_product_is_created_once
    (new_id second_id from_user_id : Z) (messages_sent messages_sent' : bool)
    (s : Session) (db : Db) (photo name : pystr) (amount : pyfloat) :
  photo_path (data (ctx s)) = Some photo ->
  title (data (ctx s)) = Some name ->
  price (data (ctx s)) = Some amount ->
  (is_custom_description (data (ctx s)) = true ->
   is_Some (description (data (ctx s)))) ->
  exists row extra,
    handle_confirm_product new_id from_user_id messages_sent s db
    = (cleared_session,
       set_products (insert new_id row) (ensure_user from_user_id db),
       (if messages_sent then product_created new_id
        else error_creating_product),
       Some extra)
    /\ Product.seller_id row = from_user_id
    /\ Product.title row = Some name
    /\ Product.price row = Some amount
    /\ Product.image_path row = photo
    /\ Product.is_active row = true
    /\ Product.likes_count row = 0 /\ Product.saves_count row = 0
    /\ Product.orders_count row = 0
    /\ (forall images index,
          all_images (data (ctx s)) = Some images ->
          main_image_index (data (ctx s)) = Some index ->
          0 <= index < Z.of_nat (length images) ->
          (2 <= length images)%nat ->
          gallery_of extra
          = Some (take (Z.to_nat index) images
                  ++ drop (S (Z.to_nat index)) images))
    /\ handle_confirm_product second_id from_user_id messages_sent'
         cleared_session
         (set_products (insert new_id row) (ensure_user from_user_id db))
       = (cleared_session,
          set_products (insert new_id row) (ensure_user from_user_id db),
          error_creating_product, None).
Proof.
  intros Hphoto Htitle Hprice Hdescription.
  unfold handle_confirm_product. rewrite Hphoto, Htitle, Hprice.
  destruct (is_custom_description (data (ctx s))) eqn:Hcustom.
  - destruct (Hdescription eq_refl) as [text Htext]. rewrite Htext.
    eexists. eexists. split; [ reflexivity | ].
    do 8 (split; [ reflexivity | ]).
    split; [ | reflexivity ].
    intros images index Himages Hindex Hrange Hmany.
    rewrite Himages, Hindex.
    destruct images as [ | image images]; [ simpl in Hmany; lia | ].
    rewrite (gallery_is_the_rest index (image :: images) Hrange Hmany).
    unfold gallery_of. cbn [extra_fields].
    change [(lit "_gallery_images", paths_value ?g)]
      with (dict_set (lit "_gallery_images") (paths_value g) []).
    rewrite dict_get_set. reflexivity.
  - eexists. eexists. split; [ reflexivity | ].
    do 8 (split; [ reflexivity | ]).
    split; [ | reflexivity ].
    intros images index Himages Hindex Hrange Hmany.
    rewrite Himages, Hindex.
    destruct images as [ | image images]; [ simpl in Hmany; lia | ].
    rewrite (gallery_is_the_rest index (image :: images) Hrange Hmany).
    unfold gallery_of. cbn [extra_fields].
    rewrite dict_get_set. reflexivity.
Qed.

(** X26. "Create Product" is all or nothing: when the draft lacks the
    main image, the title or the price, the press is answered with the
    error, and neither the database nor the draft changes. The button
    is handled in every state, so this is what an old preview message
    does after the draft was cancelled. *)
Theorem unfinished_draft_creates_nothing
    (new_id from_user_id : Z) (messages_sent : bool) (s : Session) (db : Db) :
  photo_path (data (ctx s)) = None
  \/ title (data (ctx s)) = None
  \/ price (data (ctx s)) = None ->
  handle_confirm_product new_id from_user_id messages_sent s db
  = (s, db, error_creating_product, None)
  /\ forall state,
       Dispatch.route state (lit "confirm_product")
       = Some "handle_confirm_product"%string.
Proof.
  intros Hmissing. split.
  - unfold handle_confirm_product.
    destruct (photo_path (data (ctx s))) as [photo | ]; [ | reflexivity ].
    destruct (is_custom_description (data (ctx s)));
      destruct (title (data (ctx s))) as [name | ];
      destruct (price (data (ctx s))) as [amount | ];
      destruct (description (data (ctx s)));
      try reflexivity;
      destruct Hmissing as [H | [H | H]]; discriminate H.
  - intros state.
    eapply (route_at state (lit "confirm_product") 8%nat); reflexivity.
Qed.

End ProductCreation.

Lemma confirmed_product_is_created_once_witness :
  exists row extra,
    Creation.handle_confirm_product 5 7 true finished_draft one_product_db
    = (cleared_session,
       Database.set_products (insert 5%Z row)
         (Creation.ensure_user 7 one_product_db),
       Creation.product_created 5, Some extra)
    /\ Product.seller_id row = 7%Z
    /\ Product.title row = Some (lit "Phone")
    /\ Product.price row = Some (PyFinite 2500)
    /\ Product.image_path row = lit "b_watermarked.jpg"
    /\ Product.is_active row = true
    /\ Product.likes_count row = 0%Z /\ Product.saves_count row = 0%Z
    /\ Product.orders_count row = 0%Z
    /\ (forall images index,
          Products.all_images (Products.data (Creation.ctx finished_draft))
          = Some images ->
          Products.main_image_index
            (Products.data (Creation.ctx finished_draft)) = Some index ->
          (0 <= index < Z.of_nat (length images))%Z ->
          (2 <= length images)%nat ->
          gallery_of extra
          = Some (take (Z.to_nat index) images
                  ++ drop (S (Z.to_nat index)) images))
    /\ Creation.handle_confirm_product 6 7 false cleared_session
         (Database.set_products (insert 5%Z row)
            (Creation.ensure_user 7 one_product_db))
       = (cleared_session,
          Database.set_products (insert 5%Z row)
            (Creation.ensure_user 7 one_product_db),
          Creation.error_creating_product, None).
Proof.
  apply (confirmed_product_is_created_once 5 6 7 true false finished_draft
           one_product_db (lit "b_watermarked.jpg") (lit "Phone")
           (PyFinite 2500)).
  - reflexivity.
  - reflexivity.
  - reflexivity.
  - intros Hcustom. vm_compute in Hcustom. discriminate Hcustom.
Defined.

Example gallery_of_the_finished_draft :
  (gallery_of <$>
     snd (Creation.handle_confirm_product 5 7 true finished_draft
            one_product_db))
  = Some (Some [lit "a_watermarked.jpg"]).
Proof. vm_compute. reflexivity. Qed.

Lemma unfinished_draft_creates_nothing_witness :
  Creation.handle_confirm_product 5 7 true cleared_session one_product_db
  = (cleared_session, one_product_db, Creation.error_creating_product, None)
  /\ forall state,
       Dispatch.route state (lit "confirm_product")
       = Some "handle_confirm_product"%string.
Proof.
  apply (unfinished_draft_creates_nothing 5 7 true cleared_session
           one_product_db).
  left. reflexivity.
Defined.
